(** * Verdant AI service: route handlers over a fake datastore and mocked model backends

    A shallow embedding of the FastAPI route handlers of
    [services/api/python/routes] (leads, ads, ai, garden, properties,
    maintenance).  Python dictionaries are association lists, the datastore
    is the in-memory store of [tests/test_ads.py] ([FakeSupabase]), the model
    backends are mocked functions whose calls are logged, and a handler is a
    computation in a state-and-exception monad over that world. *)

From Stdlib Require Import ZArith QArith List String Ascii Bool Lia DecimalString.
Import ListNotations.
Local Close Scope Q_scope.
Local Open Scope string_scope.
Local Open Scope list_scope.
Set Warnings "-register-all".

(** ** Python strings

    A Python string is a Rocq string, one [ascii] for each of its
    characters; the prompts of the source are ASCII. *)

Module Str.

(** The characters a Rocq string literal cannot hold directly. *)
Definition dq : string := String (ascii_of_nat 34) EmptyString.
Definition nl : string := String (ascii_of_nat 10) EmptyString.

(** [sep.join(l)] *)
Fixpoint join (sep : string) (l : list string) : string :=
  match l with
  | [] => EmptyString
  | [s] => s
  | s :: r => s ++ sep ++ join sep r
  end.

(** [s[:n]] *)
Fixpoint slice_to (n : nat) (s : string) : string :=
  match n, s with
  | O, _ => EmptyString
  | S _, EmptyString => EmptyString
  | S k, String c r => String c (slice_to k r)
  end.

(** The concatenation of the pieces of an f-string. *)
Fixpoint cat (l : list string) : string :=
  match l with
  | [] => EmptyString
  | s :: r => s ++ cat r
  end.

Definition is_space (c : ascii) : bool :=
  let n := nat_of_ascii c in
  (Nat.eqb n 32 || (Nat.leb 9 n && Nat.leb n 13) || (Nat.leb 28 n && Nat.leb n 31))%bool.

Fixpoint lstrip (s : string) : string :=
  match s with
  | EmptyString => EmptyString
  | String c r => if is_space c then lstrip r else s
  end.

Fixpoint rstrip (s : string) : string :=
  match s with
  | EmptyString => EmptyString
  | String c r =>
      match rstrip r with
      | EmptyString => if is_space c then EmptyString else String c EmptyString
      | r' => String c r'
      end
  end.

(** [s.strip()] *)
Definition strip (s : string) : string := rstrip (lstrip s).

Definition is_upper (c : ascii) : bool :=
  let n := nat_of_ascii c in (Nat.leb 65 n && Nat.leb n 90)%bool.
Definition is_lower (c : ascii) : bool :=
  let n := nat_of_ascii c in (Nat.leb 97 n && Nat.leb n 122)%bool.
Definition to_upper (c : ascii) : ascii :=
  if is_lower c then ascii_of_nat (nat_of_ascii c - 32) else c.
Definition to_lower (c : ascii) : ascii :=
  if is_upper c then ascii_of_nat (nat_of_ascii c + 32) else c.

(** [s.title()]: a cased character is upper-cased after an uncased one and
    lower-cased after a cased one. *)
Fixpoint title_from (prev_cased : bool) (s : string) : string :=
  match s with
  | EmptyString => EmptyString
  | String c r =>
      let cased := (is_upper c || is_lower c)%bool in
      String (if prev_cased then to_lower c else to_upper c) (title_from cased r)
  end.
Definition title (s : string) : string := title_from false s.

(** [str(n)] for an [int]. *)
Definition of_Z (z : Z) : string := NilZero.string_of_int (Z.to_int z).

(** Digits grouped by three from the right, as the [,] format option does. *)
Fixpoint group3 (fuel : nat) (digits : string) : string :=
  match fuel with
  | O => digits
  | S k =>
      let n := String.length digits in
      if Nat.leb n 3 then digits
      else group3 k (substring 0 (n - 3) digits) ++ "," ++ substring (n - 3) 3 digits
  end.

(** [format(n, ',.0f')] for an [int]. *)
Definition comma0_of_Z (z : Z) : string :=
  let d := NilZero.string_of_uint (N.to_uint (Z.to_N (Z.abs z))) in
  (if Z.ltb z 0 then "-" else "") ++ group3 (String.length d) d.

(** [sub in s] *)
Definition is_substring (sub s : string) : bool :=
  match String.index 0 sub s with
  | Some _ => true
  | None => false
  end.

End Str.

(** ** Python numbers

    An [int] is a [Z].  A [float] is kept abstract: the handlers use the
    operations of the class below and nothing else, so what is proved of
    them holds of binary64 arithmetic and of any other reading of it. *)

Class PyFloat (F : Type) : Type := {
  of_int : Z -> F;              (* float(n) *)
  of_literal : Q -> F;          (* a decimal literal of the source, 0.5 or 1.0 *)
  fsub : F -> F -> F;
  fmul : F -> F -> F;
  fsum : list F -> F;           (* sum(xs), for a run of floats that is not empty *)
  flt : F -> F -> bool;         (* x < y *)
  feqb : F -> F -> bool;        (* x == y *)
  round2 : F -> F               (* round(x, 2) *)
}.

(** The exact instance: a float is the rational it denotes and no operation
    rounds, except [round2], which rounds half to even on the hundredths.
    Sums, differences and halves of integers are the same numbers in
    binary64 as long as they stay below 2^53. *)
Module ExactFloat.

Definition round_half_even (q : Q) : Z :=
  let n := Qnum q in
  let d := Zpos (Qden q) in
  let fl := (n / d)%Z in
  let r := (n mod d)%Z in
  match (2 * r ?= d)%Z with
  | Lt => fl
  | Gt => (fl + 1)%Z
  | Eq => if Z.even fl then fl else (fl + 1)%Z
  end.

Definition round2 (q : Q) : Q :=
  Qmake (round_half_even (q * 100)%Q) 100.

Definition ltb (x y : Q) : bool := negb (Qle_bool y x).

End ExactFloat.

#[export] Instance QFloat : PyFloat Q := {
  of_int := inject_Z;
  of_literal := fun q => q;
  fsub := Qminus;
  fmul := Qmult;
  fsum := fun xs => fold_left Qplus xs 0%Q;
  flt := ExactFloat.ltb;
  feqb := Qeq_bool;
  round2 := ExactFloat.round2
}.

(** ** Python values and dictionaries *)

Module Py.
Section Values.
Context {F : Type} {PF : PyFloat F}.

Inductive value : Type :=
| VNone
| VBool (b : bool)
| VInt (z : Z)
| VFloat (f : F)
| VStr (s : string)
| VList (l : list value)
| VDict (d : list (string * value)).

(** A dictionary with string keys: a row of a table, a request body, a
    parsed model answer. *)
Definition dict : Type := list (string * value).

Fixpoint lookup (k : string) (d : dict) : option value :=
  match d with
  | [] => None
  | (k', v) :: r => if String.eqb k k' then Some v else lookup k r
  end.

(** [d.get(k)] *)
Definition get (d : dict) (k : string) : value :=
  match lookup k d with Some v => v | None => VNone end.

(** [d.get(k, default)] *)
Definition get_or (d : dict) (k : string) (default : value) : value :=
  match lookup k d with Some v => v | None => default end.

(** [d[k] = v]: the key keeps its place when it is there already. *)
Fixpoint set_item (k : string) (v : value) (d : dict) : dict :=
  match d with
  | [] => [(k, v)]
  | (k', v') :: r =>
      if String.eqb k k' then (k, v) :: r else (k', v') :: set_item k v r
  end.

(** [d.update(e)] *)
Definition update (d e : dict) : dict :=
  fold_left (fun acc kv => set_item (fst kv) (snd kv) acc) e d.

Definition keys (d : dict) : list string := map fst d.

(** The numeric reading of a value: [bool] is a subclass of [int]. *)
Inductive num : Type :=
| NInt (z : Z)
| NFloat (f : F).

Definition as_num (v : value) : option num :=
  match v with
  | VBool b => Some (NInt (if b then 1 else 0)%Z)
  | VInt z => Some (NInt z)
  | VFloat f => Some (NFloat f)
  | _ => None
  end.

Definition to_float (n : num) : F :=
  match n with NInt z => of_int z | NFloat f => f end.

Definition num_eqb (a b : num) : bool :=
  match a, b with
  | NInt x, NInt y => Z.eqb x y
  | _, _ => feqb (to_float a) (to_float b)
  end.

(** [a == b] *)
Fixpoint value_eqb (a b : value) : bool :=
  match a, b with
  | VNone, VNone => true
  | VStr s, VStr t => String.eqb s t
  | VList l, VList m =>
      (fix all2 (l m : list value) : bool :=
         match l, m with
         | [], [] => true
         | x :: l', y :: m' => (value_eqb x y && all2 l' m')%bool
         | _, _ => false
         end) l m
  | VDict d, VDict e =>
      (Nat.eqb (List.length d) (List.length e) &&
       (fix all (d : list (string * value)) : bool :=
          match d with
          | [] => true
          | (k, v) :: r =>
              (match lookup k e with
               | Some w => value_eqb v w
               | None => false
               end && all r)%bool
          end) d)%bool
  | VBool x, VBool y => Bool.eqb x y
  | VBool x, VInt y => Z.eqb (if x then 1 else 0) y
  | VInt x, VBool y => Z.eqb x (if y then 1 else 0)
  | VInt x, VInt y => Z.eqb x y
  | VBool x, VFloat y => feqb (of_int (if x then 1 else 0)) y
  | VFloat x, VBool y => feqb x (of_int (if y then 1 else 0))
  | VInt x, VFloat y => feqb (of_int x) y
  | VFloat x, VInt y => feqb x (of_int y)
  | VFloat x, VFloat y => feqb x y
  | _, _ => false
  end.

(** [bool(v)] *)
Definition truthy (v : value) : bool :=
  match v with
  | VNone => false
  | VBool b => b
  | VInt z => negb (Z.eqb z 0)
  | VFloat f => negb (feqb f (of_int 0))
  | VStr s => negb (String.eqb s "")
  | VList l => match l with [] => false | _ => true end
  | VDict d => match d with [] => false | _ => true end
  end.

Definition of_option_str (o : option string) : value :=
  match o with Some s => VStr s | None => VNone end.

End Values.
Arguments value F : clear implicits.
Arguments dict F : clear implicits.
Arguments num F : clear implicits.
End Py.
Import Py.

(** ** Exceptions and HTTP responses *)

Module Http.

(** The exceptions the handlers raise or meet.  The text of a message that
    the handlers build as [f"{prefix}: {str(e)}"] is kept as its two
    parts. *)
Inductive exn : Type :=
| HTTPException (status_code : Z) (detail : detail)
| KeyError (key : string)
| IndexError
| TypeError (what : string)
| ValueError (what : string)
| AttributeError (what : string)
| ValidationError (what : string)
| JSONDecodeError
| OverflowError (what : string)
| UpstreamError (backend : string)
with detail : Type :=
| Text (s : string)
| Failed (prefix : string) (cause : exn)
| StrOf (cause : exn).

Inductive result (A : Type) : Type :=
| Ok (a : A)
| Raise (e : exn).
Arguments Ok {A} a.
Arguments Raise {A} e.

(** The status FastAPI answers with: 200 for a returned body, the status of
    an [HTTPException], 500 for any other exception. *)
Definition status_code_of {A : Type} (r : result A) : Z :=
  match r with
  | Ok _ => 200
  | Raise (HTTPException s _) => s
  | Raise _ => 500
  end.

Definition is_ok {A : Type} (r : result A) : bool :=
  match r with Ok _ => true | Raise _ => false end.

End Http.
Import Http.

(** ** The world of a request: datastore, call log, identifiers, output *)

Module World.
Section World.
Context {F : Type} {PF : PyFloat F}.

(** One call to a model backend, with the arguments the handler passed. *)
Inductive call : Type :=
| ChatCompletion (model : string) (messages : list (string * string))
    (response_format : option string) (temperature : option Q)
| AnthropicMessage (model : string) (max_tokens : Z)
    (messages : list (string * string))
| Embedding (input : string) (model : string).

(** [FakeSupabase.storage]: a dictionary from table name to its rows. *)
Definition storage : Type := list (string * list (dict F)).

Record world : Type := mkWorld {
  store : storage;
  calls : list call;          (* the calls made so far, oldest first *)
  uuids : nat;                (* how many identifiers uuid4 has handed out *)
  stdout : list detail        (* what print has written, oldest first *)
}.

(** What stands outside the repository: the standard library, the clock,
    the identifier source and the operators of the database behind the real
    client.  [days_in_range days] tells whether [timedelta(days=days)] and
    the subtraction from [datetime.now()] stay in the range of [datetime];
    outside it Python raises [OverflowError], and [days_ago] is then not
    called; the constants 7 and 0 of the watering recommendation are in
    range on every day but the first week of the calendar and are not
    checked.  [ilike pattern text] is the [ILIKE] of the database and
    [order_by column desc rows] its [ORDER BY]: nothing is assumed of them. *)
Class Runtime : Type := {
  json_loads : string -> option (value F);
  json_dumps : value F -> string;
  py_repr : value F -> string;         (* str() of a float, a list or a dict *)
  fmt_comma0 : F -> string;            (* format(x, ',.0f') of a float *)
  float_of_str : string -> option F;   (* float(s) of a string *)
  uuid4 : nat -> string;
  days_in_range : Z -> bool;           (* now - timedelta(days) is a datetime *)
  days_ago : Z -> string;              (* (now - timedelta(days)).strftime('%Y-%m-%d') *)
  ilike : string -> string -> bool;    (* text ILIKE pattern, in the database *)
  order_by : string -> bool -> list (dict F) -> list (dict F)
}.

(** The mocked backends: the answer may depend on how many calls came
    before; [None] is a call that raises. *)
Class Backends : Type := {
  chat_completions_create : nat -> call -> option string;
  messages_create : nat -> call -> option string;
  embeddings_create : nat -> call -> option (list F)
}.

(** A computation that reads and writes the world and may raise.  A raise
    keeps the writes made before it, as a Python exception does. *)
Definition M (A : Type) : Type := world -> result A * world.

Definition ret {A : Type} (a : A) : M A := fun w => (Ok a, w).

Definition raise {A : Type} (e : exn) : M A := fun w => (Raise e, w).

Definition bind {A B : Type} (c : M A) (k : A -> M B) : M B :=
  fun w =>
    match c w with
    | (Ok a, w') => k a w'
    | (Raise e, w') => (Raise e, w')
    end.

(** [try: c except ... as e: h e] *)
Definition try_except {A : Type} (c : M A) (h : exn -> M A) : M A :=
  fun w =>
    match c w with
    | (Ok a, w') => (Ok a, w')
    | (Raise e, w') => h e w'
    end.

Definition lift_option {A : Type} (o : option A) (e : exn) : M A :=
  match o with Some a => ret a | None => raise e end.

Definition print (line : detail) : M unit :=
  fun w => (Ok tt, mkWorld (store w) (calls w) (uuids w) (stdout w ++ [line])).

Definition get_store : M storage := fun w => (Ok (store w), w).

Definition put_store (s : storage) : M unit :=
  fun w => (Ok tt, mkWorld s (calls w) (uuids w) (stdout w)).

Definition fresh_uuid {R : Runtime} : M string :=
  fun w => (Ok (uuid4 (uuids w)),
            mkWorld (store w) (calls w) (S (uuids w)) (stdout w)).

Definition log_call (c : call) : M nat :=
  fun w => (Ok (List.length (calls w)),
            mkWorld (store w) (calls w ++ [c]) (uuids w) (stdout w)).

End World.
Arguments call : clear implicits.
Arguments storage F : clear implicits.
Arguments world F : clear implicits.
Arguments Runtime F : clear implicits.
Arguments Backends F : clear implicits.
Arguments M F A : clear implicits.
End World.
Import World.

Declare Scope py_scope.
Delimit Scope py_scope with py.
Notation "x <- c ;; k" := (bind c (fun x => k))
  (at level 61, c at next level, right associativity) : py_scope.
Notation "c ;;; k" := (bind c (fun _ => k))
  (at level 61, right associativity) : py_scope.
Local Open Scope py_scope.

(** ** The datastore: [FakeSupabase] of tests/test_ads.py and the queries of
    the routes

    The routes build their queries with [eq], [single], [order], [insert]
    and [upsert], which [FakeTable] defines, and with [in_], [gte], [ilike]
    and [update], which only the real client has.  A query is modelled by the
    list of its filters.  On [eq] filters, with or without [single], [select]
    and [select_single] are [FakeTable.execute]: module [FakeTable] below is
    that method as written, with the [contains] filter and the [limit] that
    no handler modelled here uses.  The methods of the real client have the
    meaning of its interface: [in_] is membership, [gte] the ordering of ISO
    dates, [update] an in-place change of the matching rows; [ilike] is the
    database's own and stays a parameter of the runtime.  [order] does
    nothing in a query that [FakeTable] can run; in a query that needs the
    real client it is the ordering of the database, a parameter of the
    runtime as well ([select_ordered]). *)

Module Datastore.
Section Datastore.
Context {F : Type} {PF : PyFloat F} {R : Runtime F}.

Inductive filter : Type :=
| Eq (field : string) (v : value F)
| In_ (field : string) (vs : list (value F))
| Gte (field : string) (v : string)
| Ilike (field : string) (pattern : string).

(** [storage.get(name, [])] *)
Fixpoint rows_of (s : storage F) (name : string) : list (dict F) :=
  match s with
  | [] => []
  | (n, rows) :: r => if String.eqb name n then rows else rows_of r name
  end.

(** [storage[name] = rows], the table being created when it is new. *)
Fixpoint set_rows (name : string) (rows : list (dict F)) (s : storage F)
  : storage F :=
  match s with
  | [] => [(name, rows)]
  | (n, old) :: r =>
      if String.eqb name n then (n, rows) :: r else (n, old) :: set_rows name rows r
  end.

Definition matches (f : filter) (r : dict F) : bool :=
  match f with
  | Eq field v => value_eqb (get r field) v
  | In_ field vs => existsb (value_eqb (get r field)) vs
  | Gte field v =>
      match get r field with
      | VStr s => String.leb v s
      | _ => false
      end
  | Ilike field pattern =>
      match get r field with
      | VStr s => ilike pattern s
      | _ => false
      end
  end.

Definition apply_filters (filters : list filter) (records : list (dict F))
  : list (dict F) :=
  fold_left (fun recs f => List.filter (matches f) recs) filters records.

(** [table(name).select(..).<filters>.execute().data] *)
Definition select (name : string) (filters : list filter) : M F (list (dict F)) :=
  s <- get_store ;;
  ret (apply_filters filters (rows_of s name)).

(** [table(name).select(..).<filters>.order(column, desc=..).execute().data]
    on the real client. *)
Definition select_ordered (name : string) (filters : list filter)
  (column : string) (desc : bool) : M F (list (dict F)) :=
  records <- select name filters ;;
  ret (order_by column desc records).

(** [...single().execute().data]: [records[0] if records else None] *)
Definition select_single (name : string) (filters : list filter)
  : M F (option (dict F)) :=
  records <- select name filters ;;
  ret (hd_error records).

(** [not data] for the data of a [single()] query. *)
Definition missing (data : option (dict F)) : bool :=
  match data with
  | None => true
  | Some [] => true
  | Some _ => false
  end.

Definition _ensure_id (record : dict F) (name : string) : M F (dict F) :=
  if negb (truthy (get record "id")) then
    u <- fresh_uuid ;;
    ret (set_item "id" (VStr (name ++ "-" ++ u)) record)
  else ret record.

Fixpoint ensure_ids (items : list (dict F)) (name : string) : M F (list (dict F)) :=
  match items with
  | [] => ret []
  | item :: r =>
      record <- _ensure_id item name ;;
      records <- ensure_ids r name ;;
      ret (record :: records)
  end.

Inductive payload : Type :=
| One (record : dict F)
| Many (records : list (dict F)).

Definition _handle_insert (name : string) (p : payload) : M F (dict F) :=
  match p with
  | Many items =>
      records <- ensure_ids items name ;;
      s <- get_store ;;
      put_store (set_rows name (rows_of s name ++ records) s) ;;;
      match records with
      | [] => raise IndexError
      | first :: _ => ret first
      end
  | One item =>
      record <- _ensure_id item name ;;
      s <- get_store ;;
      put_store (set_rows name (rows_of s name ++ [record]) s) ;;;
      ret record
  end.

(** [on_conflict.split(",")] *)
Fixpoint split_comma (s : string) (acc : string) : list string :=
  match s with
  | EmptyString => [acc]
  | String c r =>
      if Ascii.eqb c ","%char then acc :: split_comma r ""
      else split_comma r (acc ++ String c "")
  end.

Definition key_fields_of (on_conflict : option string) : list string :=
  match on_conflict with
  | None => []
  | Some "" => []
  | Some s => map Str.strip (split_comma s "")
  end.

Definition conflicts (key_fields : list string) (record stored : dict F) : bool :=
  (match key_fields with [] => false | _ => true end
   && forallb (fun field => value_eqb (get stored field) (get record field))
        key_fields)%bool.

(** The rows with the first one that conflicts, when it is a non-empty
    dictionary, updated in place; [None] when no such row is there. *)
Fixpoint merge_first (key_fields : list string) (record : dict F)
  (rows : list (dict F)) : option (list (dict F) * dict F) :=
  match rows with
  | [] => None
  | stored :: r =>
      if conflicts key_fields record stored then
        match stored with
        | [] => None
        | _ => let target := Py.update stored record in Some (target :: r, target)
        end
      else
        match merge_first key_fields record r with
        | Some (r', target) => Some (stored :: r', target)
        | None => None
        end
  end.

Definition _handle_upsert (name : string) (record : dict F)
  (on_conflict : option string) : M F (dict F) :=
  let key_fields := key_fields_of on_conflict in
  s <- get_store ;;
  match merge_first key_fields record (rows_of s name) with
  | Some (rows, target) =>
      put_store (set_rows name rows s) ;;;
      ret target
  | None =>
      target <- _ensure_id record name ;;
      put_store (set_rows name (rows_of s name ++ [target]) s) ;;;
      ret target
  end.

(** [table(name).update(changes).<filters>.execute()] *)
Definition update_where (name : string) (changes : dict F) (filters : list filter)
  : M F unit :=
  s <- get_store ;;
  put_store
    (set_rows name
       (map (fun r => if forallb (fun f => matches f r) filters
                      then Py.update r changes else r)
          (rows_of s name)) s).

End Datastore.
End Datastore.
Import Datastore.

(** ** [FakeTable] as written (tests/test_ads.py)

    The builder of the tests: [eq] and [contains] collect filters, [limit]
    and [single] set their fields, [insert] and [upsert] leave a pending
    write, [select] and [order] return the builder as it is; [execute] runs
    it.  [response.data] is a dictionary, a list of dictionaries or
    [None]. *)

Module FakeTable.
Section FakeTable.
Context {F : Type} {PF : PyFloat F} {R : Runtime F}.

Inductive fake_filter : Type :=
| FEq (field : string) (value : value F)
| FContains (field : string) (values : list (value F)).

Record t : Type := mk {
  name : string;
  _filters : list fake_filter;
  _limit : option Z;
  _single : bool;
  _pending_insert : option (@payload F);
  _pending_upsert : option (dict F);
  _on_conflict : option string
}.

(** [FakeSupabase.table(name)] *)
Definition table (name : string) : t := mk name [] None false None None None.

Definition select (q : t) : t := q.

Definition order (q : t) : t := q.

Definition eq (field : string) (value : value F) (q : t) : t :=
  mk (name q) (_filters q ++ [FEq field value]) (_limit q) (_single q)
    (_pending_insert q) (_pending_upsert q) (_on_conflict q).

Definition contains (field : string) (values : list (value F)) (q : t) : t :=
  mk (name q) (_filters q ++ [FContains field values]) (_limit q) (_single q)
    (_pending_insert q) (_pending_upsert q) (_on_conflict q).

Definition single (q : t) : t :=
  mk (name q) (_filters q) (_limit q) true
    (_pending_insert q) (_pending_upsert q) (_on_conflict q).

Definition limit (value : Z) (q : t) : t :=
  mk (name q) (_filters q) (Some value) (_single q)
    (_pending_insert q) (_pending_upsert q) (_on_conflict q).

Definition insert (p : @payload F) (q : t) : t :=
  mk (name q) (_filters q) (_limit q) (_single q)
    (Some p) (_pending_upsert q) (_on_conflict q).

Definition upsert (p : dict F) (on_conflict : option string) (q : t) : t :=
  mk (name q) (_filters q) (_limit q) (_single q)
    (_pending_insert q) (Some p) on_conflict.

(** [val in container]: membership of a list by [==], of a string as a
    substring, of a dictionary among its keys; a number is not iterable. *)
Definition contained (val container : value F) : result bool :=
  match container with
  | VList l => Ok (existsb (fun x => value_eqb x val) l)
  | VStr s =>
      match val with
      | VStr sub => Ok (Str.is_substring sub s)
      | _ => Raise (TypeError "'in <string>' requires string as left operand")
      end
  | VDict d =>
      match val with
      | VStr k => Ok (existsb (String.eqb k) (keys d))
      | VList _ | VDict _ => Raise (TypeError "unhashable type")
      | _ => Ok false
      end
  | _ => Raise (TypeError "argument is not iterable")
  end.

(** [any(val in container for val in values)] *)
Fixpoint any_contained (values : list (value F)) (container : value F) : result bool :=
  match values with
  | [] => Ok false
  | val :: rest =>
      match contained val container with
      | Ok true => Ok true
      | Ok false => any_contained rest container
      | Raise e => Raise e
      end
  end.

(** [[r for r in records if test(r)]] for a test that may raise. *)
Fixpoint keep (test : dict F -> result bool) (records : list (dict F))
  : result (list (dict F)) :=
  match records with
  | [] => Ok []
  | r :: rest =>
      match test r with
      | Ok b =>
          match keep test rest with
          | Ok kept => Ok (if b then r :: kept else kept)
          | Raise e => Raise e
          end
      | Raise e => Raise e
      end
  end.

(** [r.get(field) or []] *)
Definition field_or_empty (r : dict F) (field : string) : value F :=
  let v := get r field in if truthy v then v else VList [].

Definition run_filter (f : fake_filter) (records : list (dict F))
  : result (list (dict F)) :=
  match f with
  | FEq field value =>
      Ok (List.filter (fun r => value_eqb (get r field) value) records)
  | FContains field values =>
      keep (fun r => any_contained values (field_or_empty r field)) records
  end.

(** The loop over [self._filters]. *)
Fixpoint run_filters (filters : list fake_filter) (records : list (dict F))
  : result (list (dict F)) :=
  match filters with
  | [] => Ok records
  | f :: rest =>
      match run_filter f records with
      | Ok kept => run_filters rest kept
      | Raise e => Raise e
      end
  end.

(** [records[:n]]: a negative [n] counts from the end. *)
Definition slice_to (n : Z) (records : list (dict F)) : list (dict F) :=
  if Z.leb 0 n then firstn (Z.to_nat n) records
  else firstn (Z.to_nat (Z.of_nat (List.length records) + n)) records.

Definition limited (q : t) (records : list (dict F)) : list (dict F) :=
  match _limit q with
  | Some n => slice_to n records
  | None => records
  end.

(** [FakeResponse(records[0] if records else None)] or
    [FakeResponse(records)] *)
Definition shaped (q : t) (records : list (dict F)) : value F :=
  if _single q then
    match records with
    | first :: _ => VDict first
    | [] => VNone
    end
  else VList (map VDict records).

(** [execute().data] *)
Definition execute (q : t) : M F (value F) :=
  match _pending_insert q with
  | Some p =>
      record <- _handle_insert (name q) p ;;
      ret (VDict record)
  | None =>
      match _pending_upsert q with
      | Some p =>
          record <- _handle_upsert (name q) p (_on_conflict q) ;;
          ret (VDict record)
      | None =>
          s <- get_store ;;
          match run_filters (_filters q) (rows_of s (name q)) with
          | Ok records => ret (shaped q (limited q records))
          | Raise e => raise e
          end
      end
  end.

End FakeTable.
End FakeTable.

(** ** What the handlers share: formatting, item access, the model clients *)

Module Core.
Section Core.
Context {F : Type} {PF : PyFloat F} {R : Runtime F} {B : Backends F}.

(** [str(v)], which is what an f-string puts for [{v}]. *)
Definition py_str (v : value F) : string :=
  match v with
  | VNone => "None"
  | VBool true => "True"
  | VBool false => "False"
  | VInt z => Str.of_Z z
  | VStr s => s
  | _ => py_repr v
  end.

Definition str_items (l : list (value F)) : option (list string) :=
  fold_right
    (fun v acc =>
       match v, acc with
       | VStr s, Some r => Some (s :: r)
       | _, _ => None
       end)
    (Some []) l.

(** [sep.join(v)]: the items of a list, the characters of a string or the
    keys of a dictionary; a [TypeError] on anything else and on an item
    that is not a string. *)
Definition join_value (sep : string) (v : value F) : M F string :=
  match v with
  | VList l =>
      match str_items l with
      | Some ss => ret (Str.join sep ss)
      | None => raise (TypeError "sequence item: expected str instance")
      end
  | VStr s =>
      ret (Str.join sep (map (fun c => String c "") (list_ascii_of_string s)))
  | VDict d => ret (Str.join sep (keys d))
  | _ => raise (TypeError "can only join an iterable")
  end.

(** [d[k]] *)
Definition getitem (d : dict F) (k : string) : M F (value F) :=
  lift_option (lookup k d) (KeyError k).

(** [v[k]] for a value that should be a dictionary. *)
Definition subscript (v : value F) (k : string) : M F (value F) :=
  match v with
  | VDict d => getitem d k
  | _ => raise (TypeError "subscript")
  end.

(** [json.loads(content)] *)
Definition loads (content : string) : M F (value F) :=
  lift_option (json_loads content) JSONDecodeError.

(** [get_openai_client().chat.completions.create(...).choices[0].message.content] *)
Definition openai_chat (model : string) (messages : list (string * string))
  (response_format : option string) (temperature : option Q) : M F string :=
  let c := ChatCompletion model messages response_format temperature in
  n <- log_call c ;;
  lift_option (chat_completions_create n c) (UpstreamError "openai").

(** [get_anthropic_client().messages.create(...).content[0].text] *)
Definition anthropic_message (model : string) (max_tokens : Z)
  (messages : list (string * string)) : M F string :=
  let c := AnthropicMessage model max_tokens messages in
  n <- log_call c ;;
  lift_option (messages_create n c) (UpstreamError "anthropic").

(** [get_openai_client().embeddings.create(input, model).data[0].embedding] *)
Definition openai_embedding (input model : string) : M F (list F) :=
  let c := Embedding input model in
  n <- log_call c ;;
  lift_option (embeddings_create n c) (UpstreamError "openai").

(** core/config.py *)
Definition embedding_model : string := "text-embedding-3-small".

End Core.
End Core.
Import Core.

(** ** routes/leads.py *)

Module Leads.
Section Leads.
Context {F : Type} {PF : PyFloat F} {R : Runtime F} {B : Backends F}.

Record LeadScoreRequest : Type := { lead_id : string }.

Record BatchScoreRequest : Type := { lead_ids : list string }.

(** [LeadScoreRequest(lead_id=v)]: the field is declared [str]. *)
Definition new_LeadScoreRequest (v : value F) : M F LeadScoreRequest :=
  match v with
  | VStr s => ret {| lead_id := s |}
  | _ => raise (ValidationError "lead_id")
  end.

Definition score_context (lead : dict F) (services : string) : string :=
  Str.cat [
    Str.nl;
    "        Analyze this landscaping lead and provide a quality score from 0-100."; Str.nl;
    Str.nl;
    "        Lead Information:"; Str.nl;
    "        - Name: "; py_str (get_or lead "first_name" (VStr "")); " "; py_str (get_or lead "last_name" (VStr "")); Str.nl;
    "        - Property Size: "; py_str (get_or lead "property_size_sqft" (VStr "Unknown")); " sq ft"; Str.nl;
    "        - Services Interested: "; services; Str.nl;
    "        - Source: "; py_str (get_or lead "source" (VStr "Unknown")); Str.nl;
    "        - Location: "; json_dumps (get_or lead "property_address" (VDict [])); Str.nl;
    "        - Contact Attempts: "; py_str (get_or lead "contact_attempts" (VInt 0)); Str.nl;
    Str.nl;
    "        Provide your response in JSON format:"; Str.nl;
    "        {"; Str.nl;
    "            "; Str.dq; "score"; Str.dq; ": <number 0-100>,"; Str.nl;
    "            "; Str.dq; "estimated_monthly_value"; Str.dq; ": <number>,"; Str.nl;
    "            "; Str.dq; "factors"; Str.dq; ": {"; Str.nl;
    "                "; Str.dq; "property_size"; Str.dq; ": <number 0-25>,"; Str.nl;
    "                "; Str.dq; "service_interest"; Str.dq; ": <number 0-25>,"; Str.nl;
    "                "; Str.dq; "source_quality"; Str.dq; ": <number 0-25>,"; Str.nl;
    "                "; Str.dq; "engagement"; Str.dq; ": <number 0-25>"; Str.nl;
    "            },"; Str.nl;
    "            "; Str.dq; "explanation"; Str.dq; ": "; Str.dq; "<brief explanation>"; Str.dq; ","; Str.nl;
    "            "; Str.dq; "recommended_actions"; Str.dq; ": ["; Str.dq; "<action 1>"; Str.dq; ", "; Str.dq; "<action 2>"; Str.dq; "]"; Str.nl;
    "        }"; Str.nl;
    "        "].

Definition score_system_prompt : string :=
  "You are an expert at evaluating leads for a landscaping business. Provide accurate scoring and actionable insights.".

(** The answer of [score_lead] built from the parsed model response. *)
Definition score_response (lead_id : string) (result : dict F) : dict F :=
  [ ("lead_id", VStr lead_id);
    ("score", get_or result "score" (VInt 50));
    ("estimated_monthly_value", get_or result "estimated_monthly_value" (VInt 0));
    ("factors", get_or result "factors" (VDict []));
    ("explanation", get_or result "explanation" (VStr ""));
    ("recommended_actions", get_or result "recommended_actions" (VList [])) ].

Definition score_lead_body (request : LeadScoreRequest) : M F (dict F) :=
  data <- select_single "leads" [Eq "id" (VStr (lead_id request))] ;;
  match data with
  | Some ((_ :: _) as lead) =>
      services <- join_value ", " (get_or lead "services_interested" (VList [])) ;;
      let context := score_context lead services in
      content <- openai_chat "gpt-4"
                   [("system", score_system_prompt); ("user", context)]
                   (Some "json_object") (Some (3 # 10)%Q) ;;
      parsed <- loads content ;;
      match parsed with
      | VDict result => ret (score_response (lead_id request) result)
      | _ => raise (AttributeError "get")
      end
  | _ => raise (HTTPException 404 (Text "Lead not found"))
  end.

Definition score_lead (request : LeadScoreRequest) : M F (dict F) :=
  try_except (score_lead_body request)
    (fun e =>
       match e with
       | HTTPException _ _ => raise e
       | _ => raise (HTTPException 500 (Failed "Lead scoring failed" e))
       end).

(** The body of the loop of [batch_score_leads], inside its [try]. *)
Definition score_and_store (lead : dict F) : M F (dict F) :=
  id <- getitem lead "id" ;;
  score_request <- new_LeadScoreRequest id ;;
  score_result <- score_lead score_request ;;
  score <- getitem score_result "score" ;;
  factors <- getitem score_result "factors" ;;
  value <- getitem score_result "estimated_monthly_value" ;;
  id' <- getitem lead "id" ;;
  update_where "leads"
    [("score", score); ("score_factors", factors); ("estimated_monthly_value", value)]
    [Eq "id" id'] ;;;
  ret score_result.

(** One turn of the loop: [Some] the result, or [None] after the failure
    was printed. *)
Definition score_item (lead : dict F) : M F (option (dict F)) :=
  try_except
    (score_result <- score_and_store lead ;; ret (Some score_result))
    (fun e =>
       id <- getitem lead "id" ;;
       print (Failed ("Failed to score lead " ++ py_str id) e) ;;;
       ret None).

Fixpoint score_each (leads : list (dict F)) (scored_count : Z)
  (results : list (dict F)) : M F (Z * list (dict F)) :=
  match leads with
  | [] => ret (scored_count, results)
  | lead :: rest =>
      r <- score_item lead ;;
      match r with
      | Some score_result =>
          score_each rest (scored_count + 1)%Z (results ++ [score_result])
      | None => score_each rest scored_count results
      end
  end.

Definition batch_score_leads (request : BatchScoreRequest) : M F (dict F) :=
  try_except
    (leads <- select "leads" [In_ "id" (map VStr (lead_ids request))] ;;
     counted <- score_each leads 0%Z [] ;;
     let (scored_count, results) := counted in
     ret [ ("message",
            VStr ("Scored " ++ Str.of_Z scored_count ++ " of "
                  ++ Str.of_Z (Z.of_nat (List.length (lead_ids request))) ++ " leads"));
           ("scored_count", VInt scored_count);
           ("results", VList (map VDict results)) ])
    (fun e => raise (HTTPException 500 (Failed "Batch scoring failed" e))).

End Leads.
End Leads.

(** ** routes/ads.py *)

Module Ads.
Section Ads.
Context {F : Type} {PF : PyFloat F} {R : Runtime F} {B : Backends F}.

Record AdGenerationRequest : Type := {
  campaign_id : string;
  neighborhood_ids : list string;
  ad_type : string;
  platforms : list string;
  tone : option string;             (* default 'friendly' *)
  promotion : option (dict F);      (* default None *)
  use_model : option string         (* default 'gpt-4' *)
}.

(** [format(v, ',.0f')] *)
Definition format_comma0 (v : value F) : M F string :=
  match v with
  | VInt z => ret (Str.comma0_of_Z z)
  | VBool b => ret (Str.comma0_of_Z (if b then 1 else 0))
  | VFloat f => ret (fmt_comma0 f)
  | VStr _ => raise (ValueError "Unknown format code 'f' for object of type 'str'")
  | _ => raise (TypeError "unsupported format string")
  end.

(** [f"Promotion: {request.promotion}" if request.promotion else ''] *)
Definition promotion_line (request : AdGenerationRequest) : string :=
  match promotion request with
  | Some ((_ :: _) as p) => "Promotion: " ++ py_str (VDict p)
  | _ => ""
  end.

(** The part of the prompt after the request and neighborhood data: the
    instructions and the JSON shape asked for. *)
Definition ad_instructions : string :=
  Str.cat [
    "            IMPORTANT - Create ad copy that:"; Str.nl;
    "            1. STARTS with an engaging LOCAL FACTOID about growing in this specific neighborhood"; Str.nl;
    "               Examples of great factoids:"; Str.nl;
    "               - "; Str.dq; "Oak Ridge gardeners: Did you know our clay-loam soil retains 40% more moisture than sandy soil? Perfect for tomatoes!"; Str.dq; Str.nl;
    "               - "; Str.dq; "Maple Heights: Your Zone 5b allows 180+ growing days - longer than 60% of Illinois!"; Str.dq; Str.nl;
    "               - "; Str.dq; "River Bend's sandy soil drains fast - that's why your garden needs watering 2x more than Oak Ridge neighbors"; Str.dq; Str.nl;
    "               - "; Str.dq; "Your Kentucky Bluegrass loves our Zone 5b climate - but it needs the RIGHT fertilization schedule"; Str.dq; Str.nl;
    Str.nl;
    "            2. The factoid should be SPECIFIC to this neighborhood's soil type, zone, or grass type"; Str.nl;
    "            3. Make it surprising, useful, or create "; Str.dq; "aha!"; Str.dq; " moment"; Str.nl;
    "            4. Then transition to your lawn care service offer"; Str.nl;
    "            5. Mentions the neighborhood by name for local appeal"; Str.nl;
    "            6. Includes a strong call-to-action"; Str.nl;
    Str.nl;
    "            For each platform, provide:"; Str.nl;
    "            - Local Factoid: A surprising, useful fact about growing/gardening in THIS specific neighborhood"; Str.nl;
    "            - Headline (max 40 characters for Instagram, 150 for Facebook)"; Str.nl;
    "            - Body text (starts with the factoid, then transitions to service offer)"; Str.nl;
    "            - Call-to-action (Learn More, Get Quote, Sign Up, etc.)"; Str.nl;
    "            - 3-5 relevant hashtags (for Instagram/Twitter)"; Str.nl;
    Str.nl;
    "            Provide response in JSON format:"; Str.nl;
    "            {"; Str.nl;
    "                "; Str.dq; "variants"; Str.dq; ": ["; Str.nl;
    "                    {"; Str.nl;
    "                        "; Str.dq; "platform"; Str.dq; ": "; Str.dq; "facebook"; Str.dq; ","; Str.nl;
    "                        "; Str.dq; "local_factoid"; Str.dq; ": "; Str.dq; "<surprising local gardening fact specific to this neighborhood>"; Str.dq; ","; Str.nl;
    "                        "; Str.dq; "headline"; Str.dq; ": "; Str.dq; "<headline>"; Str.dq; ","; Str.nl;
    "                        "; Str.dq; "body"; Str.dq; ": "; Str.dq; "<body text starting with factoid>"; Str.dq; ","; Str.nl;
    "                        "; Str.dq; "cta"; Str.dq; ": "; Str.dq; "<call to action>"; Str.dq; ","; Str.nl;
    "                        "; Str.dq; "hashtags"; Str.dq; ": ["; Str.dq; "#tag1"; Str.dq; ", "; Str.dq; "#tag2"; Str.dq; "]"; Str.nl;
    "                    }"; Str.nl;
    "                ]"; Str.nl;
    "            }"; Str.nl;
    "            "
].

Definition ad_context (request : AdGenerationRequest) (neighborhood : dict F)
  (grass_types home_value : string) : string :=
  Str.cat [
    Str.nl;
    "            Generate a hyper-local "; ad_type request; " ad for a lawn care and landscaping business."; Str.nl;
    Str.nl;
    "            Target Neighborhood: "; py_str (get_or neighborhood "name" (VStr "Unknown")); Str.nl;
    "            City: "; py_str (get_or neighborhood "city" (VStr "")); Str.nl;
    "            State: "; py_str (get_or neighborhood "state" (VStr "")); Str.nl;
    Str.nl;
    "            Neighborhood Characteristics:"; Str.nl;
    "            - Soil Type: "; py_str (get_or neighborhood "soil_type" (VStr "mixed")); Str.nl;
    "            - USDA Hardiness Zone: "; py_str (get_or neighborhood "usda_hardiness_zone" (VStr "5b")); Str.nl;
    "            - Common Grass Types: "; grass_types; Str.nl;
    "            - Average Home Value: $"; home_value; Str.nl;
    "            - Household Count: "; py_str (get_or neighborhood "household_count" (VStr "N/A")); Str.nl;
    Str.nl;
    "            Ad Requirements:"; Str.nl;
    "            - Tone: "; py_str (of_option_str (tone request)); Str.nl;
    "            - Platform(s): "; Str.join ", " (platforms request); Str.nl;
    "            - Ad Type: "; ad_type request; Str.nl;
    Str.nl;
    "            "; promotion_line request; Str.nl;
    Str.nl;
    ad_instructions].

Definition render_ad_context (request : AdGenerationRequest)
  (neighborhood : dict F) : M F string :=
  grass_types <- join_value ", " (get_or neighborhood "common_grass_types" (VList [])) ;;
  home_value <- format_comma0 (get_or neighborhood "avg_home_value" (VInt 0)) ;;
  ret (ad_context request neighborhood grass_types home_value).

Definition ad_system_prompt : string :=
  "You are an expert local marketing copywriter specializing in lawn care and landscaping services. You create hyper-local, compelling ad copy.".

(** [request.use_model == 'claude'] *)
Definition uses_claude (request : AdGenerationRequest) : bool :=
  match use_model request with
  | Some m => String.eqb m "claude"
  | None => false
  end.

(** The model call of the chosen backend, giving the text of the answer. *)
Definition generate_with (request : AdGenerationRequest) (context : string)
  : M F string :=
  if uses_claude request then
    anthropic_message "claude-3-5-sonnet-20241022" 2000 [("user", context)]
  else
    openai_chat "gpt-4" [("system", ad_system_prompt); ("user", context)]
      (Some "json_object") (Some (8 # 10)%Q).

(** [v.title()] *)
Definition title_of (v : value F) : M F string :=
  match v with
  | VStr s => ret (Str.title s)
  | _ => raise (AttributeError "title")
  end.

(** What [for x in v] goes through. *)
Definition iterate (v : value F) : M F (list (value F)) :=
  match v with
  | VList l => ret l
  | VStr s => ret (map (fun c => VStr (String c "")) (list_ascii_of_string s))
  | VDict d => ret (map VStr (keys d))
  | _ => raise (TypeError "object is not iterable")
  end.

Definition creative_data (request : AdGenerationRequest) (neighborhood_id : string)
  (neighborhood : dict F) (context : string) (variant : value F) : M F (dict F) :=
  platform <- subscript variant "platform" ;;
  platform_title <- title_of platform ;;
  headline <- subscript variant "headline" ;;
  body <- subscript variant "body" ;;
  cta <- subscript variant "cta" ;;
  ret [ ("campaign_id", VStr (campaign_id request));
        ("name", VStr (py_str (get neighborhood "name") ++ " - " ++ platform_title));
        ("ad_type", VStr (ad_type request));
        ("headline", headline);
        ("body_text", body);
        ("call_to_action", cta);
        ("neighborhood_id", VStr neighborhood_id);
        ("hyper_local_content", variant);
        ("generated_by", VStr "ai");
        ("ai_model", of_option_str (use_model request));
        ("generation_prompt", VStr (Str.slice_to 500 context));
        ("status", VStr "draft") ].

(** The inner loop: one stored creative per variant. *)
Fixpoint store_variants (request : AdGenerationRequest) (neighborhood_id : string)
  (neighborhood : dict F) (context : string) (variants : list (value F))
  (generated_ads : list (dict F)) : M F (list (dict F)) :=
  match variants with
  | [] => ret generated_ads
  | variant :: rest =>
      data <- creative_data request neighborhood_id neighborhood context variant ;;
      creative <- _handle_insert "ad_creatives" (One data) ;;
      store_variants request neighborhood_id neighborhood context rest
        (generated_ads ++ [creative])
  end.

(** One turn of the outer loop, for a neighborhood that was found. *)
Definition generate_for (request : AdGenerationRequest) (neighborhood_id : string)
  (neighborhood : dict F) (generated_ads : list (dict F)) : M F (list (dict F)) :=
  context <- render_ad_context request neighborhood ;;
  content <- generate_with request context ;;
  ad_variants <- loads content ;;
  match ad_variants with
  | VDict answer =>
      variants <- iterate (get_or answer "variants" (VList [])) ;;
      store_variants request neighborhood_id neighborhood context variants
        generated_ads
  | _ => raise (AttributeError "get")
  end.

Fixpoint each_neighborhood (request : AdGenerationRequest) (ids : list string)
  (generated_ads : list (dict F)) : M F (list (dict F)) :=
  match ids with
  | [] => ret generated_ads
  | neighborhood_id :: rest =>
      data <- select_single "neighborhoods" [Eq "id" (VStr neighborhood_id)] ;;
      match data with
      | Some ((_ :: _) as neighborhood) =>
          ads <- generate_for request neighborhood_id neighborhood generated_ads ;;
          each_neighborhood request rest ads
      | _ => each_neighborhood request rest generated_ads
      end
  end.

Definition generate_neighborhood_ads_body (request : AdGenerationRequest)
  : M F (dict F) :=
  data <- select_single "ad_campaigns" [Eq "id" (VStr (campaign_id request))] ;;
  match data with
  | Some (_ :: _) =>
      generated_ads <- each_neighborhood request (neighborhood_ids request) [] ;;
      ret [ ("message",
             VStr ("Generated " ++ Str.of_Z (Z.of_nat (List.length generated_ads))
                   ++ " ad variants across "
                   ++ Str.of_Z (Z.of_nat (List.length (neighborhood_ids request)))
                   ++ " neighborhoods"));
            ("ads", VList (map VDict generated_ads));
            ("model_used", of_option_str (use_model request)) ]
  | _ => raise (HTTPException 404 (Text "Campaign not found"))
  end.

Definition generate_neighborhood_ads (request : AdGenerationRequest)
  : M F (dict F) :=
  try_except (generate_neighborhood_ads_body request)
    (fun e => raise (HTTPException 500 (Failed "Ad generation failed" e))).

End Ads.
Arguments AdGenerationRequest F : clear implicits.
End Ads.

(** ** routes/ai.py *)

Module Ai.
Section Ai.
Context {F : Type} {PF : PyFloat F} {R : Runtime F} {B : Backends F}.

(** [v.get(k, default)] for a value that should be a dictionary. *)
Definition value_get (v : value F) (k : string) (default : value F)
  : M F (value F) :=
  match v with
  | VDict d => ret (get_or d k default)
  | _ => raise (AttributeError "get")
  end.

Definition embedding_text_of (customer : dict F) (city : value F) (tags : string)
  : string :=
  Str.cat [
    Str.nl;
    "        Customer: "; py_str (get customer "first_name"); " "; py_str (get customer "last_name"); Str.nl;
    "        Location: "; py_str city; Str.nl;
    "        Tags: "; tags; Str.nl;
    "        Notes: "; py_str (get_or customer "notes" (VStr "")); Str.nl;
    "        "].

Definition generate_customer_embedding_body (customer_id : string) : M F (dict F) :=
  data <- select_single "customers" [Eq "id" (VStr customer_id)] ;;
  match data with
  | Some ((_ :: _) as customer) =>
      city <- value_get (get_or customer "billing_address" (VDict [])) "city" (VStr "") ;;
      tags <- join_value ", " (get_or customer "tags" (VList [])) ;;
      let embedding_text := embedding_text_of customer city tags in
      embedding <- openai_embedding (Str.strip embedding_text) embedding_model ;;
      _handle_upsert "customer_embeddings"
        [ ("customer_id", VStr customer_id);
          ("embedding", VList (map VFloat embedding));
          ("embedding_text", VStr (Str.strip embedding_text));
          ("model", VStr embedding_model) ]
        None ;;;
      ret [ ("message", VStr "Customer embedding generated successfully");
            ("customer_id", VStr customer_id) ]
  | _ => raise (HTTPException 404 (Text "Customer not found"))
  end.

Definition generate_customer_embedding (customer_id : string) : M F (dict F) :=
  try_except (generate_customer_embedding_body customer_id)
    (fun e =>
       match e with
       | HTTPException _ _ => raise e
       | _ => raise (HTTPException 500 (Failed "Failed to generate customer embedding" e))
       end).

End Ai.
End Ai.

(** ** routes/properties.py *)

Module Properties.
Section Properties.
Context {F : Type} {PF : PyFloat F} {R : Runtime F} {B : Backends F}.

(** [a - b] *)
Definition py_sub (a b : value F) : M F (num F) :=
  match as_num a, as_num b with
  | Some (NInt x), Some (NInt y) => ret (NInt (x - y)%Z)
  | Some x, Some y => ret (NFloat (fsub (to_float x) (to_float y)))
  | _, _ => raise (TypeError "unsupported operand type(s) for -")
  end.

(** [n * 0.5] *)
Definition times_half (n : num F) : F := fmul (to_float n) (of_literal (1 # 2)%Q).

Definition lawn_note : string :=
  "This is a basic estimation. For accurate measurements, consider aerial image analysis.".

Definition estimate_lawn_area (property_id : string) : M F (dict F) :=
  try_except
    (data <- select_single "properties" [Eq "id" (VStr property_id)] ;;
     match data with
     | Some ((_ :: _) as property_data) =>
         let lot_size := get_or property_data "lot_size_sqft" (VInt 0) in
         let building_area := get_or property_data "building_area_sqft" (VInt 0) in
         non_building_area <- py_sub lot_size building_area ;;
         let estimated_lawn := times_half non_building_area in
         ret [ ("property_id", VStr property_id);
               ("lot_size_sqft", lot_size);
               ("building_area_sqft", building_area);
               ("estimated_lawn_area_sqft", VFloat (round2 estimated_lawn));
               ("note", VStr lawn_note) ]
     | _ => raise (HTTPException 404 (Text "Property not found"))
     end)
    (fun e => raise (HTTPException 500 (Failed "Lawn area estimation failed" e))).

End Properties.
End Properties.

(** ** routes/maintenance.py *)

Module Maintenance.
Section Maintenance.
Context {F : Type} {PF : PyFloat F} {R : Runtime F} {B : Backends F}.

(** [float(v)] *)
Definition py_float (v : value F) : M F F :=
  match v with
  | VInt z => ret (of_int z)
  | VBool b => ret (of_int (if b then 1 else 0))
  | VFloat f => ret f
  | VStr s => lift_option (float_of_str s) (ValueError "could not convert string to float")
  | _ => raise (TypeError "float() argument must be a string or a real number")
  end.

Fixpoint rainfall_values (data : list (dict F)) : M F (list F) :=
  match data with
  | [] => ret []
  | day :: rest =>
      x <- py_float (get_or day "rainfall_inches" (VInt 0)) ;;
      xs <- rainfall_values rest ;;
      ret (x :: xs)
  end.

(** [sum(xs)] from the start value [0], an [int]. *)
Definition py_sum (xs : list F) : num F :=
  match xs with
  | [] => NInt 0
  | _ => NFloat (fsum xs)
  end.

(** [round(n, 2)]: an [int] stays the [int] it is. *)
Definition py_round2 (n : num F) : num F :=
  match n with
  | NInt z => NInt z
  | NFloat f => NFloat (round2 f)
  end.

Definition value_of_num (n : num F) : value F :=
  match n with NInt z => VInt z | NFloat f => VFloat f end.

(** [n < 1.0] *)
Definition below_one (n : num F) : bool := flt (to_float n) (of_literal 1%Q).

(** [(datetime.now() - timedelta(days=days)).strftime('%Y-%m-%d')]: outside
    the range of [timedelta] or of [datetime] the subtraction raises. *)
Definition start_date_of (days : Z) : M F string :=
  if days_in_range days then ret (days_ago days)
  else raise (OverflowError "date value out of range").

(** The query uses [gte], so it runs on the real client only, and [order]
    is the ordering of the database. *)
Definition get_rainfall_summary (zip_code : string) (days : Z) : M F (dict F) :=
  try_except
    (start_date <- start_date_of days ;;
     data <- select_ordered "weather_data"
               [Eq "zip_code" (VStr zip_code); Gte "date" start_date] "date" true ;;
     xs <- rainfall_values data ;;
     let total_rainfall := py_sum xs in
     ret [ ("zip_code", VStr zip_code);
           ("days", VInt days);
           ("total_rainfall_inches", value_of_num (py_round2 total_rainfall));
           ("daily_data", VList (map VDict data));
           ("watering_needed", VBool (below_one total_rainfall)) ])
    (fun e => raise (HTTPException 500 (StrOf e))).

(** [neighborhood.get('soil_type') if neighborhood else 'loam'] *)
Definition schedule_soil_type (neighborhood : value F) : M F (value F) :=
  if truthy neighborhood then Ai.value_get neighborhood "soil_type" VNone
  else ret (VStr "loam").

(** [neighborhood.get('usda_hardiness_zone', '5b') if neighborhood else '5b'] *)
Definition schedule_usda_zone (neighborhood : value F) : M F (value F) :=
  if truthy neighborhood then Ai.value_get neighborhood "usda_hardiness_zone" (VStr "5b")
  else ret (VStr "5b").

Definition schedule_context (lawn_size_sqft : Z) (grass_type : string)
  (soil_type usda_zone : value F) : string :=
  Str.cat [
    Str.nl;
    "Create a complete lawn maintenance schedule for the year."; Str.nl;
    Str.nl;
    "LAWN DETAILS:"; Str.nl;
    "- Size: "; Str.of_Z lawn_size_sqft; " sqft"; Str.nl;
    "- Grass Type: "; grass_type; Str.nl;
    "- Soil Type: "; py_str soil_type; Str.nl;
    "- USDA Zone: "; py_str usda_zone; Str.nl;
    Str.nl;
    "Generate schedule with specific dates for:"; Str.nl;
    "- Mowing (start/end dates, frequency)"; Str.nl;
    "- Fertilization (4-step program with dates)"; Str.nl;
    "- Aeration (spring and/or fall)"; Str.nl;
    "- Overseeding (if needed)"; Str.nl;
    "- Weed control applications"; Str.nl;
    "- Grub control"; Str.nl;
    "- Winterization"; Str.nl;
    Str.nl;
    "Return JSON array of tasks with date, type, title, description."; Str.nl].

Definition generate_lawn_maintenance_schedule (prospect_id grass_type : string)
  (lawn_size_sqft : Z) : M F (dict F) :=
  try_except
    (data <- select_single "prospects" [Eq "id" (VStr prospect_id)] ;;
     prospect <- lift_option data (AttributeError "get") ;;
     let neighborhood := get prospect "neighborhoods" in
     soil_type <- schedule_soil_type neighborhood ;;
     usda_zone <- schedule_usda_zone neighborhood ;;
     let context := schedule_context lawn_size_sqft grass_type soil_type usda_zone in
     content <- openai_chat "gpt-4"
                  [("system", "You are a lawn care expert."); ("user", context)]
                  (Some "json_object") None ;;
     schedule_data <- loads content ;;
     let lawn_schedule :=
       [ ("prospect_id", VStr prospect_id);
         ("lawn_size_sqft", VInt lawn_size_sqft);
         ("grass_type", VStr grass_type);
         ("soil_type", soil_type);
         ("usda_zone", usda_zone);
         ("ai_schedule", schedule_data) ] in
     stored <- _handle_insert "lawn_maintenance_schedules" (Many [lawn_schedule]) ;;
     schedule_id <- getitem stored "id" ;;
     ret [ ("success", VBool true);
           ("schedule_id", schedule_id);
           ("schedule", schedule_data) ])
    (fun e => raise (HTTPException 500 (StrOf e))).

End Maintenance.
End Maintenance.

(** ** routes/garden.py *)

Module Garden.
Section Garden.
Context {F : Type} {PF : PyFloat F} {R : Runtime F} {B : Backends F}.

Record PersonalizedGardenRequest : Type := {
  address : string;
  primary_goal : list string;
  time_commitment : string;
  experience_level : string;
  garden_size : string;
  harvest_preferences : list string;
  favorite_recipes : option string;
  email : string;
  phone : option string
}.

Definition zone_line (neighborhood : option (dict F)) : string :=
  match neighborhood with
  | Some ((_ :: _) as n) =>
      "- USDA Zone: " ++ py_str (get_or n "usda_hardiness_zone" (VStr "5b"))
  | _ => "- USDA Zone: 5b (estimate)"
  end.

Definition soil_line (neighborhood : option (dict F)) : string :=
  match neighborhood with
  | Some ((_ :: _) as n) =>
      "- Soil Type: " ++ py_str (get_or n "soil_type" (VStr "loam"))
  | _ => "- Soil Type: loam (estimate)"
  end.

Definition recipes_line (request : PersonalizedGardenRequest) : string :=
  match favorite_recipes request with
  | Some (String _ _ as recipes) => "- Favorite Recipes: " ++ recipes
  | _ => ""
  end.

(** The part of the prompt after the location and the user profile. *)
Definition plan_instructions : string :=
  Str.cat [
    "TASK:"; Str.nl;
    "Create a customized garden plan that:"; Str.nl;
    "1. Matches their time commitment (if low, recommend easy, low-maintenance plants)"; Str.nl;
    "2. Matches experience level (beginner = easy, forgiving varieties)"; Str.nl;
    "3. Provides ingredients for their favorite recipes"; Str.nl;
    "4. Fits in their garden size space constraints"; Str.nl;
    "5. Maximizes their stated goals"; Str.nl;
    Str.nl;
    "For each recommended plant, provide:"; Str.nl;
    "- Plant name and specific variety (e.g., "; Str.dq; "Tomato - Cherokee Purple"; Str.dq; ")"; Str.nl;
    "- Quantity to plant"; Str.nl;
    "- Why this fits their goals (one sentence)"; Str.nl;
    "- Maintenance level (low/medium/high)"; Str.nl;
    "- Which of their recipes/preferences it supports"; Str.nl;
    "- Expected yield estimate"; Str.nl;
    "- Key maintenance tasks"; Str.nl;
    Str.nl;
    "Also provide:"; Str.nl;
    "- Total weekly maintenance time estimate"; Str.nl;
    "- Simple garden layout suggestion"; Str.nl;
    "- Succession planting tips if applicable"; Str.nl;
    "- Beginner-friendly tips for their experience level"; Str.nl;
    "- Recipe harvest calendar (when they can make each dish)"; Str.nl;
    Str.nl;
    "Return ONLY valid JSON in this exact structure:"; Str.nl;
    "{"; Str.nl;
    "    "; Str.dq; "garden_summary"; Str.dq; ": {"; Str.nl;
    "        "; Str.dq; "total_plants"; Str.dq; ": 0,"; Str.nl;
    "        "; Str.dq; "garden_size_recommended"; Str.dq; ": "; Str.dq; Str.dq; ","; Str.nl;
    "        "; Str.dq; "estimated_weekly_maintenance"; Str.dq; ": "; Str.dq; Str.dq; ","; Str.nl;
    "        "; Str.dq; "difficulty"; Str.dq; ": "; Str.dq; Str.dq; ","; Str.nl;
    "        "; Str.dq; "first_harvest"; Str.dq; ": "; Str.dq; Str.dq; ","; Str.nl;
    "        "; Str.dq; "peak_harvest"; Str.dq; ": "; Str.dq; Str.dq; ","; Str.nl;
    "        "; Str.dq; "estimated_weekly_yield"; Str.dq; ": "; Str.dq; Str.dq; Str.nl;
    "    },"; Str.nl;
    "    "; Str.dq; "plant_recommendations"; Str.dq; ": ["; Str.nl;
    "        {"; Str.nl;
    "            "; Str.dq; "plant"; Str.dq; ": "; Str.dq; Str.dq; ","; Str.nl;
    "            "; Str.dq; "quantity"; Str.dq; ": 0,"; Str.nl;
    "            "; Str.dq; "why"; Str.dq; ": "; Str.dq; Str.dq; ","; Str.nl;
    "            "; Str.dq; "maintenance"; Str.dq; ": "; Str.dq; Str.dq; ","; Str.nl;
    "            "; Str.dq; "recipes"; Str.dq; ": [],"; Str.nl;
    "            "; Str.dq; "yield"; Str.dq; ": "; Str.dq; Str.dq; ","; Str.nl;
    "            "; Str.dq; "maintenance_tasks"; Str.dq; ": []"; Str.nl;
    "        }"; Str.nl;
    "    ],"; Str.nl;
    "    "; Str.dq; "garden_layout"; Str.dq; ": {"; Str.nl;
    "        "; Str.dq; "description"; Str.dq; ": "; Str.dq; Str.dq; ","; Str.nl;
    "        "; Str.dq; "tips"; Str.dq; ": []"; Str.nl;
    "    },"; Str.nl;
    "    "; Str.dq; "shopping_list"; Str.dq; ": ["; Str.nl;
    "        {"; Str.nl;
    "            "; Str.dq; "item"; Str.dq; ": "; Str.dq; Str.dq; ","; Str.nl;
    "            "; Str.dq; "quantity"; Str.dq; ": "; Str.dq; Str.dq; ","; Str.nl;
    "            "; Str.dq; "estimated_price"; Str.dq; ": "; Str.dq; Str.dq; Str.nl;
    "        }"; Str.nl;
    "    ],"; Str.nl;
    "    "; Str.dq; "beginner_tips"; Str.dq; ": [],"; Str.nl;
    "    "; Str.dq; "recipe_harvest_calendar"; Str.dq; ": {}"; Str.nl;
    "}"; Str.nl
].

Definition plan_context (request : PersonalizedGardenRequest)
  (neighborhood : option (dict F)) : string :=
  Str.cat [
    Str.nl;
    "You are an expert gardener helping a homeowner plan their vegetable garden."; Str.nl;
    Str.nl;
    "LOCATION:"; Str.nl;
    "- Address: "; address request; Str.nl;
    zone_line neighborhood; Str.nl;
    soil_line neighborhood; Str.nl;
    "- Approximate Last Frost: April 15 (adjust based on zone)"; Str.nl;
    "- Approximate First Frost: October 15 (adjust based on zone)"; Str.nl;
    Str.nl;
    "USER PROFILE:"; Str.nl;
    "- Primary Goals: "; Str.join ", " (primary_goal request); Str.nl;
    "- Time Available: "; time_commitment request; " "; Str.nl;
    "- Experience Level: "; experience_level request; Str.nl;
    "- Garden Size: "; garden_size request; Str.nl;
    "- Harvest Preferences: "; Str.join ", " (harvest_preferences request); Str.nl;
    recipes_line request; Str.nl;
    Str.nl;
    plan_instructions].

Definition plan_system_prompt : string :=
  "You are a master gardener and educator who creates personalized, achievable garden plans. Always return valid JSON.".

(** The prospect at the address, created when no stored one matches. *)
Definition get_or_create_prospect (request : PersonalizedGardenRequest)
  : M F (dict F) :=
  found <- select "prospects" [Ilike "street_address" ("%" ++ address request ++ "%")] ;;
  match found with
  | prospect :: _ => ret prospect
  | [] =>
      _handle_insert "prospects"
        (Many [[ ("street_address", VStr (address request));
                 ("contact_status", VStr "engaged");
                 ("email", VStr (email request));
                 ("phone", of_option_str (phone request));
                 ("source", VStr "garden_planner") ]])
  end.

Definition neighborhood_of (prospect : dict F) : M F (option (dict F)) :=
  if truthy (get prospect "neighborhood_id") then
    neighborhood_id <- getitem prospect "neighborhood_id" ;;
    select_single "neighborhoods" [Eq "id" neighborhood_id]
  else ret None.

Definition plan_usda_zone (neighborhood : option (dict F)) : value F :=
  match neighborhood with
  | Some ((_ :: _) as n) => get n "usda_hardiness_zone"
  | _ => VStr "5b"
  end.

Definition generate_personalized_plan_body (request : PersonalizedGardenRequest)
  : M F (dict F) :=
  prospect <- get_or_create_prospect request ;;
  neighborhood <- neighborhood_of prospect ;;
  let context := plan_context request neighborhood in
  content <- openai_chat "gpt-4"
               [("system", plan_system_prompt); ("user", context)]
               (Some "json_object") (Some (7 # 10)%Q) ;;
  plan_data <- loads content ;;
  prospect_id <- getitem prospect "id" ;;
  garden_plan <- _handle_insert "garden_plans"
                   (Many [[ ("prospect_id", prospect_id);
                            ("year", VInt 2024);
                            ("usda_zone", plan_usda_zone neighborhood);
                            ("ai_generated_plan", plan_data) ]]) ;;
  prospect_id' <- getitem prospect "id" ;;
  _handle_insert "leads"
    (Many [[ ("prospect_id", prospect_id');
             ("source", VStr "garden_planner");
             ("status", VStr "new");
             ("email", VStr (email request));
             ("phone", of_option_str (phone request));
             ("notes", VStr ("Created garden plan. Goals: "
                             ++ Str.join ", " (primary_goal request)
                             ++ ". Experience: " ++ experience_level request ++ ".")) ]]) ;;;
  garden_plan_id <- getitem garden_plan "id" ;;
  ret [ ("success", VBool true);
        ("message", VStr "Garden plan generated successfully!");
        ("garden_plan_id", garden_plan_id);
        ("plan", plan_data) ].

Definition generate_personalized_plan (request : PersonalizedGardenRequest)
  : M F (dict F) :=
  try_except (generate_personalized_plan_body request)
    (fun e =>
       print (Failed "Error generating garden plan" e) ;;;
       raise (HTTPException 500 (Failed "Failed to generate garden plan" e))).

End Garden.
End Garden.

(** ** routes/garden.py: reading the stored plans *)

Module GardenPlans.
Section GardenPlans.
Context {F : Type} {PF : PyFloat F} {R : Runtime F}.

Definition get_garden_plan (plan_id : string) : M F (dict F) :=
  try_except
    (data <- select_single "garden_plans" [Eq "id" (VStr plan_id)] ;;
     match data with
     | Some ((_ :: _) as plan) => ret plan
     | _ => raise (HTTPException 404 (Text "Garden plan not found"))
     end)
    (fun e => raise (HTTPException 500 (StrOf e))).

(** [order] is the one of [FakeTable]: it leaves the query as it is. *)
Definition get_my_garden_plans (email : string) : M F (dict F) :=
  try_except
    (prospects <- select "prospects" [Eq "email" (VStr email)] ;;
     match prospects with
     | [] => ret [("plans", VList [])]
     | first :: _ =>
         prospect_id <- getitem first "id" ;;
         plans <- select "garden_plans" [Eq "prospect_id" prospect_id] ;;
         ret [("plans", VList (map VDict plans))]
     end)
    (fun e => raise (HTTPException 500 (StrOf e))).

End GardenPlans.
End GardenPlans.

(** ** routes/ads.py: variants of a stored creative *)

Module AdVariants.
Section AdVariants.
Context {F : Type} {PF : PyFloat F} {R : Runtime F} {B : Backends F}.

Record AdVariantRequest : Type := {
  creative_id : string;
  num_variants : option Z;          (* default 3 *)
  test_variables : list string
}.

Definition num_variants_value (request : AdVariantRequest) : value F :=
  match num_variants request with Some n => VInt n | None => VNone end.

Definition variants_context (request : AdVariantRequest) (original : dict F)
  : string :=
  Str.cat [
    Str.nl;
    "        Create "; py_str (num_variants_value request); " variations of this lawn care ad for A/B testing."; Str.nl;
    Str.nl;
    "        Original Ad:"; Str.nl;
    "        Headline: "; py_str (get original "headline"); Str.nl;
    "        Body: "; py_str (get original "body_text"); Str.nl;
    "        CTA: "; py_str (get original "call_to_action"); Str.nl;
    Str.nl;
    "        Test Variables: "; Str.join ", " (test_variables request); Str.nl;
    Str.nl;
    "        For each variant, modify the specified test variables while keeping the core message."; Str.nl;
    "        Make meaningful changes that could impact performance."; Str.nl;
    Str.nl;
    "        Provide response in JSON format:"; Str.nl;
    "        {"; Str.nl;
    "            "; Str.dq; "variants"; Str.dq; ": ["; Str.nl;
    "                {"; Str.nl;
    "                    "; Str.dq; "variant_name"; Str.dq; ": "; Str.dq; "A"; Str.dq; ","; Str.nl;
    "                    "; Str.dq; "headline"; Str.dq; ": "; Str.dq; "<new headline>"; Str.dq; ","; Str.nl;
    "                    "; Str.dq; "body"; Str.dq; ": "; Str.dq; "<new body>"; Str.dq; ","; Str.nl;
    "                    "; Str.dq; "cta"; Str.dq; ": "; Str.dq; "<new cta>"; Str.dq; ","; Str.nl;
    "                    "; Str.dq; "changes_made"; Str.dq; ": "; Str.dq; "<description of what changed>"; Str.dq; Str.nl;
    "                }"; Str.nl;
    "            ]"; Str.nl;
    "        }"; Str.nl;
    "        "].

Definition variants_system_prompt : string :=
  "You are an A/B testing expert for digital marketing. Create meaningful variations that test different psychological triggers.".

(** [{**original, 'id': None, 'name': ..., ...}], its entries evaluated in
    the order written. *)
Definition variant_creative (original : dict F) (variant : value F) : M F (dict F) :=
  name <- getitem original "name" ;;
  variant_name <- subscript variant "variant_name" ;;
  headline <- subscript variant "headline" ;;
  body <- subscript variant "body" ;;
  cta <- subscript variant "cta" ;;
  variant_name' <- subscript variant "variant_name" ;;
  ret (Py.update original
         [ ("id", VNone);
           ("name", VStr (py_str name ++ " - Variant " ++ py_str variant_name));
           ("headline", headline);
           ("body_text", body);
           ("call_to_action", cta);
           ("variant_name", variant_name');
           ("is_control", VBool false) ]).

(** The loop: one stored creative per variant, answered with the changes
    the model reports. *)
Fixpoint create_variants (original : dict F) (variants : list (value F))
  (created_variants : list (dict F)) : M F (list (dict F)) :=
  match variants with
  | [] => ret created_variants
  | variant :: rest =>
      data <- variant_creative original variant ;;
      stored <- _handle_insert "ad_creatives" (One data) ;;
      changes_made <- subscript variant "changes_made" ;;
      create_variants original rest
        (created_variants ++ [Py.update stored [("changes_made", changes_made)]])
  end.

Definition generate_ab_test_variants (request : AdVariantRequest) : M F (dict F) :=
  try_except
    (data <- select_single "ad_creatives" [Eq "id" (VStr (creative_id request))] ;;
     match data with
     | Some ((_ :: _) as original) =>
         let context := variants_context request original in
         content <- openai_chat "gpt-4"
                      [("system", variants_system_prompt); ("user", context)]
                      (Some "json_object") (Some (9 # 10)%Q) ;;
         variants_data <- loads content ;;
         match variants_data with
         | VDict answer =>
             variants <- Ads.iterate (get_or answer "variants" (VList [])) ;;
             created_variants <- create_variants original variants [] ;;
             ret [ ("message",
                    VStr ("Generated "
                          ++ Str.of_Z (Z.of_nat (List.length created_variants))
                          ++ " variants"));
                   ("original_creative_id", VStr (creative_id request));
                   ("variants", VList (map VDict created_variants)) ]
         | _ => raise (AttributeError "get")
         end
     | _ => raise (HTTPException 404 (Text "Creative not found"))
     end)
    (fun e => raise (HTTPException 500 (Failed "Variant generation failed" e))).

End AdVariants.
End AdVariants.

(** ** routes/properties.py: the analysis of a property *)

Module PropertyAnalysis.
Section PropertyAnalysis.
Context {F : Type} {PF : PyFloat F} {R : Runtime F} {B : Backends F}.

Record PropertyAnalysisRequest : Type := {
  property_id : string;
  analysis_type : string            (* default 'full' *)
}.

Definition analysis_prompt (property_data : dict F) : string :=
  Str.cat [
    Str.nl;
    "        Analyze this property and provide landscaping recommendations:"; Str.nl;
    Str.nl;
    "        Property Details:"; Str.nl;
    "        - Location: "; py_str (get_or property_data "city" (VStr "")); ", "; py_str (get_or property_data "state" (VStr "")); Str.nl;
    "        - Lot Size: "; py_str (get_or property_data "lot_size_sqft" (VStr "Unknown")); " sq ft"; Str.nl;
    "        - Lawn Area: "; py_str (get_or property_data "lawn_area_sqft" (VStr "Unknown")); " sq ft"; Str.nl;
    "        - Garden Beds: "; py_str (get_or property_data "garden_beds_sqft" (VStr "Unknown")); " sq ft"; Str.nl;
    "        - Trees: "; py_str (get_or property_data "tree_count" (VStr "Unknown")); Str.nl;
    Str.nl;
    "        Provide analysis in JSON format:"; Str.nl;
    "        {"; Str.nl;
    "            "; Str.dq; "property_condition"; Str.dq; ": "; Str.dq; "<excellent/good/fair/poor>"; Str.dq; ","; Str.nl;
    "            "; Str.dq; "recommended_services"; Str.dq; ": ["; Str.dq; "<service 1>"; Str.dq; ", "; Str.dq; "<service 2>"; Str.dq; "],"; Str.nl;
    "            "; Str.dq; "estimated_service_frequency"; Str.dq; ": {"; Str.nl;
    "                "; Str.dq; "mowing"; Str.dq; ": "; Str.dq; "<frequency>"; Str.dq; ","; Str.nl;
    "                "; Str.dq; "fertilization"; Str.dq; ": "; Str.dq; "<frequency>"; Str.dq; ","; Str.nl;
    "                "; Str.dq; "pruning"; Str.dq; ": "; Str.dq; "<frequency>"; Str.dq; Str.nl;
    "            },"; Str.nl;
    "            "; Str.dq; "seasonal_recommendations"; Str.dq; ": {"; Str.nl;
    "                "; Str.dq; "spring"; Str.dq; ": ["; Str.dq; "<task 1>"; Str.dq; ", "; Str.dq; "<task 2>"; Str.dq; "],"; Str.nl;
    "                "; Str.dq; "summer"; Str.dq; ": ["; Str.dq; "<task 1>"; Str.dq; ", "; Str.dq; "<task 2>"; Str.dq; "],"; Str.nl;
    "                "; Str.dq; "fall"; Str.dq; ": ["; Str.dq; "<task 1>"; Str.dq; ", "; Str.dq; "<task 2>"; Str.dq; "],"; Str.nl;
    "                "; Str.dq; "winter"; Str.dq; ": ["; Str.dq; "<task 1>"; Str.dq; ", "; Str.dq; "<task 2>"; Str.dq; "]"; Str.nl;
    "            },"; Str.nl;
    "            "; Str.dq; "estimated_monthly_cost"; Str.dq; ": <number>,"; Str.nl;
    "            "; Str.dq; "special_considerations"; Str.dq; ": ["; Str.dq; "<consideration 1>"; Str.dq; ", "; Str.dq; "<consideration 2>"; Str.dq; "]"; Str.nl;
    "        }"; Str.nl;
    "        "].

Definition analysis_system_prompt : string :=
  "You are an expert landscaping consultant providing property analysis and service recommendations.".

Definition analyze_property (request : PropertyAnalysisRequest) : M F (dict F) :=
  try_except
    (data <- select_single "properties" [Eq "id" (VStr (property_id request))] ;;
     match data with
     | Some ((_ :: _) as property_data) =>
         let prompt := analysis_prompt property_data in
         content <- openai_chat "gpt-4"
                      [("system", analysis_system_prompt); ("user", prompt)]
                      (Some "json_object") (Some (3 # 10)%Q) ;;
         analysis <- loads content ;;
         property_condition <- Ai.value_get analysis "property_condition" VNone ;;
         update_where "properties"
           [ ("property_condition", property_condition);
             ("detected_features", analysis) ]
           [Eq "id" (VStr (property_id request))] ;;;
         ret [ ("property_id", VStr (property_id request));
               ("analysis", analysis);
               ("model", VStr "gpt-4") ]
     | _ => raise (HTTPException 404 (Text "Property not found"))
     end)
    (fun e => raise (HTTPException 500 (Failed "Property analysis failed" e))).

End PropertyAnalysis.
End PropertyAnalysis.

(** ** routes/maintenance.py: the assessment of a property *)

Module Assessment.
Section Assessment.
Context {F : Type} {PF : PyFloat F} {R : Runtime F} {B : Backends F}.

Record PropertyAssessmentRequest : Type := {
  address : string;
  mow_own_lawn : bool;
  fertilize_own_lawn : bool;
  aerate_own_lawn : bool;
  weed_control_own : bool;
  have_garden : bool;
  have_trees : bool;
  email : string;
  phone : option string
}.

(** ["YES" if b else "NO - needs service"] *)
Definition yes_or_service (b : bool) : string :=
  if b then "YES" else "NO - needs service".

(** [v[0]] *)
Definition index0 (v : value F) : M F (value F) :=
  match v with
  | VList (x :: _) => ret x
  | VList [] => raise IndexError
  | VStr (String c _) => ret (VStr (String c ""))
  | VStr EmptyString => raise IndexError
  | VDict d => raise (KeyError "0")
  | _ => raise (TypeError "object is not subscriptable")
  end.

(** [neighborhood.get('common_grass_types', ['mixed'])[0]
     if neighborhood and neighborhood.get('common_grass_types')
     else 'Kentucky Bluegrass'] *)
Definition assess_grass_type (neighborhood : value F) : M F (value F) :=
  if truthy neighborhood then
    grass_types <- Ai.value_get neighborhood "common_grass_types" VNone ;;
    if truthy grass_types then
      grass_types' <- Ai.value_get neighborhood "common_grass_types"
                        (VList [VStr "mixed"]) ;;
      index0 grass_types'
    else ret (VStr "Kentucky Bluegrass")
  else ret (VStr "Kentucky Bluegrass").

(** [neighborhood.get('soil_type', 'loam') if neighborhood else 'loam'] *)
Definition assess_soil_type (neighborhood : value F) : M F (value F) :=
  if truthy neighborhood then Ai.value_get neighborhood "soil_type" (VStr "loam")
  else ret (VStr "loam").

Definition assessment_context (request : PropertyAssessmentRequest)
  (grass_type soil_type usda_zone : value F) : string :=
  Str.cat [
    Str.nl;
    "Analyze property maintenance needs and provide data-driven recommendations."; Str.nl;
    Str.nl;
    "PROPERTY DETAILS:"; Str.nl;
    "- Address: "; address request; Str.nl;
    "- Grass Type: "; py_str grass_type; Str.nl;
    "- Soil Type: "; py_str soil_type; Str.nl;
    "- USDA Zone: "; py_str usda_zone; Str.nl;
    "- Average Annual Rainfall: 38.5 inches (estimate)"; Str.nl;
    Str.nl;
    "HOMEOWNER DOING THEMSELVES:"; Str.nl;
    "- Mowing: "; yes_or_service (mow_own_lawn request); Str.nl;
    "- Fertilization: "; yes_or_service (fertilize_own_lawn request); Str.nl;
    "- Aeration: "; yes_or_service (aerate_own_lawn request); Str.nl;
    "- Weed Control: "; yes_or_service (weed_control_own request); Str.nl;
    Str.nl;
    "TASK:"; Str.nl;
    "For each task they do themselves, provide specific guidance:"; Str.nl;
    "1. How often they need to do it (based on their grass type, soil, rainfall)"; Str.nl;
    "2. When to do it (specific months/timing)"; Str.nl;
    "3. Estimated time commitment per task"; Str.nl;
    Str.nl;
    "For each service they need, provide:"; Str.nl;
    "1. Recommended frequency"; Str.nl;
    "2. Estimated cost"; Str.nl;
    "3. Why it's important for their specific conditions"; Str.nl;
    Str.nl;
    "Return JSON:"; Str.nl;
    "{"; Str.nl;
    "    "; Str.dq; "diy_tasks"; Str.dq; ": ["; Str.nl;
    "        {"; Str.nl;
    "            "; Str.dq; "task"; Str.dq; ": "; Str.dq; "mowing"; Str.dq; ","; Str.nl;
    "            "; Str.dq; "frequency"; Str.dq; ": "; Str.dq; "1x per week in summer, biweekly in spring/fall"; Str.dq; ","; Str.nl;
    "            "; Str.dq; "timing"; Str.dq; ": "; Str.dq; "May-September weekly, April & October biweekly"; Str.dq; ","; Str.nl;
    "            "; Str.dq; "time_per_session"; Str.dq; ": "; Str.dq; "45 minutes"; Str.dq; ","; Str.nl;
    "            "; Str.dq; "annual_time_commitment"; Str.dq; ": "; Str.dq; "36 hours"; Str.dq; ","; Str.nl;
    "            "; Str.dq; "tips"; Str.dq; ": ["; Str.dq; "Mow high (3 inches) for your grass type"; Str.dq; ", "; Str.dq; "Don't remove more than 1/3 of blade"; Str.dq; "]"; Str.nl;
    "        }"; Str.nl;
    "    ],"; Str.nl;
    "    "; Str.dq; "services_needed"; Str.dq; ": ["; Str.nl;
    "        {"; Str.nl;
    "            "; Str.dq; "service"; Str.dq; ": "; Str.dq; "fertilization"; Str.dq; ","; Str.nl;
    "            "; Str.dq; "frequency"; Str.dq; ": "; Str.dq; "4x per year"; Str.dq; ","; Str.nl;
    "            "; Str.dq; "timing"; Str.dq; ": "; Str.dq; "Early spring, late spring, summer, fall"; Str.dq; ","; Str.nl;
    "            "; Str.dq; "estimated_cost_per_application"; Str.dq; ": 70,"; Str.nl;
    "            "; Str.dq; "annual_cost"; Str.dq; ": 280,"; Str.nl;
    "            "; Str.dq; "why_important"; Str.dq; ": "; Str.dq; "Your soil type needs nitrogen replenishment 4x yearly for optimal growth"; Str.dq; ","; Str.nl;
    "            "; Str.dq; "neighborhood_specific"; Str.dq; ": "; Str.dq; "Clay-loam soil in your neighborhood holds nutrients longer than sandy soil, so 4-step program is ideal"; Str.dq; Str.nl;
    "        }"; Str.nl;
    "    ],"; Str.nl;
    "    "; Str.dq; "total_annual_cost_services"; Str.dq; ": 0,"; Str.nl;
    "    "; Str.dq; "total_annual_time_diy"; Str.dq; ": 0,"; Str.nl;
    "    "; Str.dq; "recommendations"; Str.dq; ": []"; Str.nl;
    "}"; Str.nl].

Definition assessment_system_prompt : string :=
  "You are a lawn care expert who provides data-driven, neighborhood-specific maintenance recommendations.".

(** The prospect at the address, created when no stored one matches. *)
Definition get_or_create_prospect (request : PropertyAssessmentRequest)
  : M F (dict F) :=
  found <- select "prospects" [Ilike "street_address" ("%" ++ address request ++ "%")] ;;
  match found with
  | prospect :: _ => ret prospect
  | [] =>
      _handle_insert "prospects"
        (Many [[ ("street_address", VStr (address request));
                 ("email", VStr (email request));
                 ("phone", of_option_str (phone request));
                 ("contact_status", VStr "engaged");
                 ("source", VStr "property_assessment") ]])
  end.

Definition assess_property_needs_body (request : PropertyAssessmentRequest)
  : M F (dict F) :=
  prospect <- get_or_create_prospect request ;;
  let neighborhood := get prospect "neighborhoods" in
  grass_type <- assess_grass_type neighborhood ;;
  soil_type <- assess_soil_type neighborhood ;;
  usda_zone <- Maintenance.schedule_usda_zone neighborhood ;;
  let context := assessment_context request grass_type soil_type usda_zone in
  content <- openai_chat "gpt-4"
               [("system", assessment_system_prompt); ("user", context)]
               (Some "json_object") (Some (4 # 10)%Q) ;;
  recommendations <- loads content ;;
  prospect_id <- getitem prospect "id" ;;
  _handle_insert "leads"
    (Many [[ ("prospect_id", prospect_id);
             ("source", VStr "property_assessment");
             ("status", VStr "new");
             ("email", VStr (email request));
             ("phone", of_option_str (phone request));
             ("notes", VStr ("Assessment: DIY mowing="
                             ++ py_str (VBool (mow_own_lawn request))
                             ++ ", fertilize="
                             ++ py_str (VBool (fertilize_own_lawn request))
                             ++ ", aerate="
                             ++ py_str (VBool (aerate_own_lawn request)))) ]]) ;;;
  ret [ ("success", VBool true);
        ("recommendations", recommendations);
        ("neighborhood_data",
          VDict [ ("grass_type", grass_type);
                  ("soil_type", soil_type);
                  ("usda_zone", usda_zone) ]) ].

Definition assess_property_needs (request : PropertyAssessmentRequest)
  : M F (dict F) :=
  try_except (assess_property_needs_body request)
    (fun e =>
       print (Failed "Error assessing property" e) ;;;
       raise (HTTPException 500 (StrOf e))).

End Assessment.
End Assessment.

(** ** routes/maintenance.py: the watering recommendation *)

(** [format(x, '.2f')], which stands outside the repository as the other
    operations of the runtime do. *)
Class Format2 (F : Type) : Type := {
  fmt_2f : F -> string
}.

Module Watering.
Section Watering.
Context {F : Type} {PF : PyFloat F} {R : Runtime F} {B : Backends F} {T : Format2 F}.

Record WateringRecommendationRequest : Type := {
  prospect_id : string;
  zip_code : string
}.

(** The degree sign of the prompt, in its UTF-8 encoding. *)
Definition degree : string :=
  String (ascii_of_nat 194) (String (ascii_of_nat 176) EmptyString).

(** [latest_weather.get('temp_high_f', 75) if latest_weather else 75], for
    [latest_weather = rainfall_data[-1] if rainfall_data else None] *)
Definition current_temp_of (rainfall_data : list (dict F)) : value F :=
  match rev rainfall_data with
  | ((_ :: _) as latest_weather) :: _ => get_or latest_weather "temp_high_f" (VInt 75)
  | _ => VInt 75
  end.

(** [lawn_schedule.get(k, default) if lawn_schedule else default] *)
Definition schedule_field (lawn_schedule : option (dict F)) (k : string)
  (default : value F) : value F :=
  match lawn_schedule with
  | Some ((_ :: _) as s) => get_or s k default
  | _ => default
  end.

(** [json.dumps([{{'date': ..., 'rainfall': ..., 'temp': ...}} for d in
    rainfall_data])]: inside the braces of the f-string the doubled braces
    are a set with a dictionary in it, which cannot be hashed, so the first
    record raises. *)
Definition daily_breakdown (rainfall_data : list (dict F)) : M F string :=
  match rainfall_data with
  | [] => ret (json_dumps (VList []))
  | _ :: _ => raise (TypeError "unhashable type: 'dict'")
  end.

Definition watering_context (request : WateringRecommendationRequest)
  (prospect : dict F) (lawn_size grass_type soil_type usda_zone : value F)
  (total_rainfall_7days : num F) (current_temp : value F) (breakdown : string)
  : string :=
  Str.cat [
    Str.nl;
    "Generate a watering recommendation for a homeowner."; Str.nl;
    Str.nl;
    "PROPERTY DETAILS:"; Str.nl;
    "- Location: "; py_str (get prospect "street_address"); Str.nl;
    "- Zip Code: "; zip_code request; Str.nl;
    "- Lawn Size: "; py_str lawn_size; " sqft"; Str.nl;
    "- Grass Type: "; py_str grass_type; Str.nl;
    "- Soil Type: "; py_str soil_type; Str.nl;
    "- USDA Zone: "; py_str usda_zone; Str.nl;
    Str.nl;
    "WEATHER DATA (Past 7 Days):"; Str.nl;
    "- Total Rainfall: "; fmt_2f (to_float total_rainfall_7days); " inches"; Str.nl;
    "- Current Temperature: "; py_str current_temp; degree; "F"; Str.nl;
    "- Daily breakdown: "; breakdown; Str.nl;
    Str.nl;
    "GENERAL RULES:"; Str.nl;
    "- Lawns need ~1 inch of water per week (rainfall + irrigation combined)"; Str.nl;
    "- Clay soil: Water deeply but less frequently (2x per week)"; Str.nl;
    "- Sandy soil: Water more frequently but lighter (3-4x per week)"; Str.nl;
    "- Loam: 2-3x per week"; Str.nl;
    "- Hot weather (>85"; degree; "F): Increase watering"; Str.nl;
    "- Cool weather (<70"; degree; "F): Reduce watering"; Str.nl;
    Str.nl;
    "TASK:"; Str.nl;
    "Based on rainfall and conditions, provide:"; Str.nl;
    "1. Does lawn need watering this week? (yes/no)"; Str.nl;
    "2. How many hours of watering total? (considering 1 inch = ~2 hours for most sprinklers)"; Str.nl;
    "3. Which days of the week to water (spread out)"; Str.nl;
    "4. Garden watering recommendation (daily, 3x week, etc)"; Str.nl;
    "5. Tree/shrub watering needs (if newly planted vs established)"; Str.nl;
    "6. Brief reasoning (one sentence)"; Str.nl;
    Str.nl;
    "Return JSON:"; Str.nl;
    "{"; Str.nl;
    "    "; Str.dq; "lawn_watering_needed"; Str.dq; ": true/false,"; Str.nl;
    "    "; Str.dq; "lawn_watering_hours"; Str.dq; ": 0.0,"; Str.nl;
    "    "; Str.dq; "lawn_watering_days"; Str.dq; ": ["; Str.dq; "Monday"; Str.dq; ", "; Str.dq; "Thursday"; Str.dq; "],"; Str.nl;
    "    "; Str.dq; "garden_watering_needed"; Str.dq; ": true/false,"; Str.nl;
    "    "; Str.dq; "garden_watering_frequency"; Str.dq; ": "; Str.dq; "daily"; Str.dq; ","; Str.nl;
    "    "; Str.dq; "trees_watering_needed"; Str.dq; ": true/false,"; Str.nl;
    "    "; Str.dq; "trees_watering_recommendation"; Str.dq; ": "; Str.dq; Str.dq; ","; Str.nl;
    "    "; Str.dq; "reasoning"; Str.dq; ": "; Str.dq; Str.dq; Str.nl;
    "}"; Str.nl].

Definition watering_system_prompt : string :=
  "You are an expert horticulturist and irrigation specialist. Provide data-driven watering recommendations.".

Definition generate_watering_recommendation (request : WateringRecommendationRequest)
  : M F (dict F) :=
  try_except
    (data <- select_single "prospects" [Eq "id" (VStr (prospect_id request))] ;;
     prospect <- lift_option data (AttributeError "get") ;;
     let neighborhood := get prospect "neighborhoods" in
     let seven_days_ago := days_ago 7 in
     rainfall_data <- select "weather_data"
                        [Eq "zip_code" (VStr (zip_code request));
                         Gte "date" seven_days_ago] ;;
     xs <- Maintenance.rainfall_values rainfall_data ;;
     let total_rainfall_7days := Maintenance.py_sum xs in
     let current_temp := current_temp_of rainfall_data in
     schedules <- select "lawn_maintenance_schedules"
                    [Eq "prospect_id" (VStr (prospect_id request))] ;;
     let lawn_schedule := hd_error schedules in
     let lawn_size := schedule_field lawn_schedule "lawn_size_sqft" (VInt 5000) in
     let grass_type := schedule_field lawn_schedule "grass_type" (VStr "mixed") in
     soil_type <- Assessment.assess_soil_type neighborhood ;;
     usda_zone <- Maintenance.schedule_usda_zone neighborhood ;;
     breakdown <- daily_breakdown rainfall_data ;;
     let context := watering_context request prospect lawn_size grass_type
                      soil_type usda_zone total_rainfall_7days current_temp
                      breakdown in
     content <- openai_chat "gpt-4"
                  [("system", watering_system_prompt); ("user", context)]
                  (Some "json_object") (Some (3 # 10)%Q) ;;
     recommendation <- loads content ;;
     let week_starting := days_ago 0 in
     lawn_watering_needed <- subscript recommendation "lawn_watering_needed" ;;
     lawn_watering_hours <- Ai.value_get recommendation "lawn_watering_hours" (VInt 0) ;;
     lawn_watering_days <- Ai.value_get recommendation "lawn_watering_days" (VList []) ;;
     garden_watering_needed <- subscript recommendation "garden_watering_needed" ;;
     garden_watering_frequency <-
       Ai.value_get recommendation "garden_watering_frequency" (VStr "as_needed") ;;
     trees_watering_needed <-
       Ai.value_get recommendation "trees_watering_needed" (VBool false) ;;
     trees_watering_recommendation <-
       Ai.value_get recommendation "trees_watering_recommendation" (VStr "") ;;
     reasoning <- Ai.value_get recommendation "reasoning" (VStr "") ;;
     _handle_insert "watering_schedules"
       (Many [[ ("prospect_id", VStr (prospect_id request));
                ("week_starting", VStr week_starting);
                ("lawn_watering_needed", lawn_watering_needed);
                ("lawn_watering_hours", lawn_watering_hours);
                ("lawn_watering_days", lawn_watering_days);
                ("garden_watering_needed", garden_watering_needed);
                ("garden_watering_frequency", garden_watering_frequency);
                ("trees_watering_needed", trees_watering_needed);
                ("trees_watering_recommendation", trees_watering_recommendation);
                ("rainfall_last_7days", Maintenance.value_of_num total_rainfall_7days);
                ("ai_recommendation", reasoning) ]]) ;;;
     ret [ ("success", VBool true);
           ("recommendation", recommendation);
           ("rainfall_7days", Maintenance.value_of_num total_rainfall_7days) ])
    (fun e =>
       print (Failed "Error generating watering recommendation" e) ;;;
       raise (HTTPException 500 (StrOf e))).

End Watering.
End Watering.

(** ** A fixture: the store of [FakeSupabase.__init__] with a few more
    tables, a runtime over the exact floats and mocked backends *)

Module Fixture.

Definition quoted (s : string) : string := Str.dq ++ s ++ Str.dq.

(** [json.dumps] (when [json] is set) or [repr], for values without
    floats and for strings that need no escape; a float of the exact
    instance prints as its fraction. *)
Fixpoint show (json : bool) (v : value Q) : string :=
  match v with
  | VNone => if json then "null" else "None"
  | VBool true => if json then "true" else "True"
  | VBool false => if json then "false" else "False"
  | VInt z => Str.of_Z z
  | VFloat f => Str.of_Z (Qnum f) ++ "/" ++ Str.of_Z (Zpos (Qden f))
  | VStr s => if json then quoted s else "'" ++ s ++ "'"
  | VList l =>
      "[" ++ Str.join ", "
               ((fix each (l : list (value Q)) : list string :=
                   match l with
                   | [] => []
                   | x :: r => show json x :: each r
                   end) l) ++ "]"
  | VDict d =>
      "{" ++ Str.join ", "
               ((fix each (d : list (string * value Q)) : list string :=
                   match d with
                   | [] => []
                   | (k, x) :: r =>
                       ((if json then quoted k else "'" ++ k ++ "'")
                        ++ ": " ++ show json x)%string :: each r
                   end) d) ++ "}"
  end.

(** The answer of [FakeOpenAIClient]: one variant. *)
Definition one_variant : dict Q :=
  [ ("platform", VStr "facebook");
    ("headline", VStr "Athens lawns stay lush");
    ("body", VStr "Clay loam soils in Five Points hold 40% more moisture.");
    ("cta", VStr "Get a Local Quote");
    ("hashtags", VList [VStr "AthensGA"; VStr "30606"]) ].

Definition variants_answer : value Q := VDict [("variants", VList [VDict one_variant])].

Definition score_answer : value Q :=
  VDict [ ("score", VInt 82);
          ("estimated_monthly_value", VInt 240);
          ("factors", VDict [("property_size", VInt 20)]);
          ("explanation", VStr "Large lot, warm source");
          ("recommended_actions", VList [VStr "Call this week"]) ].

Definition schedule_answer : value Q := VDict [("tasks", VList [])].

Definition plan_answer : value Q := VDict [("plant_recommendations", VList [])].

(** The texts the fixture parses back. *)
Definition parse_table : list (string * value Q) :=
  map (fun v => (show true v, v))
    [variants_answer; score_answer; schedule_answer; plan_answer; VDict []].

Definition loads_table (content : string) : option (value Q) :=
  Py.lookup content parse_table.

(** The day of the fixture is 2024-06-15; the fixture asks for the dates
    of the two weeks before it, and any other date reads as 2024-01-01. *)
Definition june_days_ago (days : Z) : string :=
  if (Z.leb 0 days && Z.leb days 5)%bool
  then "2024-06-" ++ Str.of_Z (15 - days)
  else if (Z.leb 6 days && Z.leb days 14)%bool
  then "2024-06-0" ++ Str.of_Z (15 - days)
  else "2024-01-01".

(** 2024-06-15 is day 739052 of the calendar of [datetime], whose first day
    is day 1 and whose last day, 9999-12-31, is day 3652059. *)
Definition june_days_in_range (days : Z) : bool :=
  (Z.leb (739052 - 3652059) days && Z.leb days (739052 - 1))%bool.

(** The [ILIKE] of the fixture, on characters: [%] stands for any run, [_]
    for any one character, a backslash takes the character after it as it
    is, and letters are compared without case. *)
Fixpoint like (p s : list ascii) : bool :=
  match p with
  | [] => match s with [] => true | _ => false end
  | c :: p' =>
      if Ascii.eqb c "%"%char then
        (fix skip (s : list ascii) : bool :=
           (like p' s || match s with [] => false | _ :: s' => skip s' end)%bool) s
      else if Ascii.eqb c (ascii_of_nat 92) then
        match p', s with
        | e :: p'', d :: s' =>
            (Ascii.eqb (Str.to_lower e) (Str.to_lower d) && like p'' s')%bool
        | _, _ => false
        end
      else
        match s with
        | [] => false
        | d :: s' =>
            ((Ascii.eqb c "_"%char || Ascii.eqb (Str.to_lower c) (Str.to_lower d))
             && like p' s')%bool
        end
  end.

Definition june_ilike (pattern text : string) : bool :=
  like (list_ascii_of_string pattern) (list_ascii_of_string text).

(** The [ORDER BY] of the fixture: the rows by the text of the column, a
    row without one counting as the largest, rows of equal text in the
    order they had. *)
Definition text_of (column : string) (r : dict Q) : option string :=
  match get r column with
  | VStr s => Some s
  | _ => None
  end.

Definition text_leb (a b : option string) : bool :=
  match a, b with
  | _, None => true
  | None, Some _ => false
  | Some x, Some y => String.leb x y
  end.

Fixpoint placed (before : dict Q -> dict Q -> bool) (r : dict Q) (l : list (dict Q))
  : list (dict Q) :=
  match l with
  | [] => [r]
  | x :: l' => if before r x then r :: l else x :: placed before r l'
  end.

Definition june_order_by (column : string) (desc : bool) (rows : list (dict Q))
  : list (dict Q) :=
  fold_right
    (placed (fun a b =>
               if desc then text_leb (text_of column b) (text_of column a)
               else text_leb (text_of column a) (text_of column b)))
    [] rows.

#[export] Instance runtime : Runtime Q := {
  json_loads := loads_table;
  json_dumps := show true;
  py_repr := show false;
  fmt_comma0 := fun f => Str.comma0_of_Z (ExactFloat.round_half_even f);
  float_of_str := fun s => if String.eqb s "15.5" then Some (31 # 2)%Q else None;
  uuid4 := fun n => ("uuid" ++ Str.of_Z (Z.of_nat n))%string;
  days_in_range := june_days_in_range;
  days_ago := june_days_ago;
  ilike := june_ilike;
  order_by := june_order_by
}.

(** Backends that answer every chat call with [content] and every
    embedding call with a fixed vector. *)
Definition answering (content : string) : Backends Q := {|
  chat_completions_create := fun _ _ => Some content;
  messages_create := fun _ _ => Some content;
  embeddings_create := fun _ _ => Some [(1 # 8)%Q; (-3 # 4)%Q]
|}.

(** Backends whose chat call number [k] (from 0) raises. *)
Definition failing_at (k : nat) (content : string) : Backends Q := {|
  chat_completions_create := fun n _ => if Nat.eqb n k then None else Some content;
  messages_create := fun n _ => if Nat.eqb n k then None else Some content;
  embeddings_create := fun _ _ => Some [(1 # 8)%Q; (-3 # 4)%Q]
|}.

Definition initial_store : storage Q :=
  [ ("ad_campaigns", [[("id", VStr "camp-123"); ("name", VStr "Spring Push")]]);
    ("neighborhoods",
      [[ ("id", VStr "hood-30606"); ("name", VStr "Five Points");
         ("city", VStr "Athens"); ("state", VStr "GA");
         ("zip_codes", VList [VStr "30606"]);
         ("soil_type", VStr "clay loam");
         ("usda_hardiness_zone", VStr "8a");
         ("common_grass_types", VList [VStr "Zoysia"; VStr "Bermuda"]);
         ("avg_home_value", VInt 325000);
         ("household_count", VInt 1200) ]]);
    ("ad_creatives", []);
    ("ad_placements", []);
    ("ad_performance", []);
    ("leads",
      [[ ("id", VStr "lead-1"); ("first_name", VStr "Ada");
         ("services_interested", VList [VStr "mowing"]) ];
       [ ("id", VStr "lead-2"); ("first_name", VStr "Bo") ]]);
    ("customers",
      [[ ("id", VStr "cust-1"); ("first_name", VStr "Cy"); ("last_name", VStr "Dee") ]]);
    ("customer_embeddings", []);
    ("properties",
      [[ ("id", VStr "prop-1"); ("lot_size_sqft", VInt 8000);
         ("building_area_sqft", VInt 2500) ];
       [ ("id", VStr "prop-2"); ("building_area_sqft", VInt 900) ]]);
    ("prospects",
      [[ ("id", VStr "pros-1"); ("street_address", VStr "12 Oak Lane");
         ("neighborhoods", VDict [("usda_hardiness_zone", VStr "6a")]) ]]);
    ("weather_data",
      [[ ("zip_code", VStr "30606"); ("date", VStr "2024-06-10");
         ("rainfall_inches", VFloat (1 # 4)%Q) ];
       [ ("zip_code", VStr "30606"); ("date", VStr "2024-06-12") ];
       [ ("zip_code", VStr "30606"); ("date", VStr "2024-06-14");
         ("rainfall_inches", VFloat (1 # 2)%Q) ];
       [ ("zip_code", VStr "30606"); ("date", VStr "2024-05-01");
         ("rainfall_inches", VInt 3) ]]) ].

Definition w0 : world Q := mkWorld initial_store [] 0 [].

End Fixture.

(** ** The vocabulary of the properties

    What the statements below speak of: the row a query finds, the world
    after a call or an insert, the pure part of a rendering, the records and
    calls a handler builds. *)

(** The row that a [single()] query by identifier gives. *)
Definition found {F : Type} {PF : PyFloat F} {R : Runtime F} (table id : string)
  (w : world F) : option (dict F) :=
  hd_error (apply_filters [Eq "id" (VStr id)] (rows_of (store w) table)).

(** No row of [table] answers a [single()] query for [id]. *)
Definition absent {F : Type} {PF : PyFloat F} {R : Runtime F} (table id : string)
  (w : world F) : Prop :=
  missing (found table id w) = true.

Module LawnArea.

(** The field holds the number [n]; a field that is absent holds 0. *)
Definition num_field {F : Type} {PF : PyFloat F} (d : dict F) (k : string)
  (n : num F) : Prop :=
  as_num (get_or d k (VInt 0)) = Some n.

(** [a - b] of two numbers: an [int] when both are, a [float] otherwise. *)
Definition difference {F : Type} {PF : PyFloat F} (a b : num F) : num F :=
  match a, b with
  | NInt x, NInt y => NInt (x - y)
  | _, _ => NFloat (fsub (to_float a) (to_float b))
  end.

(** A property whose building area exceeds its lot size by 0.004. *)
Definition sliver : dict Q :=
  [ ("id", VStr "prop-3");
    ("lot_size_sqft", VFloat (1000 # 1)%Q);
    ("building_area_sqft", VFloat (250001 # 250)%Q) ].

End LawnArea.

Module Rainfall.
Section Rainfall.
Context {F : Type} {PF : PyFloat F} {R : Runtime F}.

(** The rainfall of a daily record is a number, or absent. *)
Definition rain_ok (day : dict F) : Prop :=
  match lookup "rainfall_inches" day with
  | None | Some (VInt _) | Some (VFloat _) => True
  | Some _ => False
  end.

(** The rainfall of a daily record as a float, 0 for one that is absent. *)
Definition rain_of (day : dict F) : F :=
  match lookup "rainfall_inches" day with
  | Some (VInt z) => of_int z
  | Some (VFloat f) => f
  | _ => of_int 0
  end.

(** The daily records the query of the endpoint gives. *)
Definition daily_records (zip_code : string) (days : Z) (w : world F)
  : list (dict F) :=
  apply_filters [Eq "zip_code" (VStr zip_code); Gte "date" (days_ago days)]
    (rows_of (store w) "weather_data").

(** The daily records of the rainfall summary, in the order the database
    gives them. *)
Definition summary_records (zip_code : string) (days : Z) (w : world F)
  : list (dict F) :=
  order_by "date" true (daily_records zip_code days w).

End Rainfall.
End Rainfall.

Section Vocabulary.
Context {F : Type} {PF : PyFloat F} {R : Runtime F} {B : Backends F}.

(** The world after one more call to a backend. *)
Definition logged (c : call) (w : world F) : world F :=
  mkWorld (store w) (calls w ++ [c]) (uuids w) (stdout w).

Definition or_raise {A : Type} (o : option A) (e : exn) : result A :=
  match o with Some a => Ok a | None => Raise e end.

(** [join] reads nothing and writes nothing. *)
Definition joined (sep : string) (v : value F) : result string :=
  match v with
  | VList l =>
      match str_items l with
      | Some ss => Ok (Str.join sep ss)
      | None => Raise (TypeError "sequence item: expected str instance")
      end
  | VStr s => Ok (Str.join sep (map (fun c => String c "") (list_ascii_of_string s)))
  | VDict d => Ok (Str.join sep (keys d))
  | _ => Raise (TypeError "can only join an iterable")
  end.

(** The call [score_lead] makes for a lead. *)
Definition score_call (lead : dict F) (services : string) : call :=
  ChatCompletion "gpt-4"
    [("system", Leads.score_system_prompt);
     ("user", Leads.score_context lead services)]
    (Some "json_object") (Some (3 # 10)%Q).

(** A variant that lacks one of the keys the stored creative is built from;
    its platform, when there, is a string. *)
Definition lacks_key (variant : dict F) : Prop :=
  lookup "platform" variant = None
  \/ (exists p, lookup "platform" variant = Some (VStr p))
     /\ (lookup "headline" variant = None
         \/ lookup "body" variant = None
         \/ lookup "cta" variant = None).

(** The record as [_ensure_id] leaves it when [n] identifiers were handed
    out before. *)
Definition with_id (name : string) (n : nat) (record : dict F) : dict F :=
  if truthy (get record "id") then record
  else set_item "id" (VStr (name ++ "-" ++ uuid4 n)) record.

Definition uuids_after (n : nat) (record : dict F) : nat :=
  if truthy (get record "id") then n else S n.

(** The world after [record] was appended to the table [name]. *)
Definition appended (name : string) (record : dict F) (n : nat) (w : world F)
  : world F :=
  mkWorld (set_rows name (rows_of (store w) name ++ [record]) (store w))
    (calls w) n (stdout w).

(** [format(v, ',.0f')] reads nothing and writes nothing. *)
Definition formatted (v : value F) : result string :=
  match v with
  | VInt z => Ok (Str.comma0_of_Z z)
  | VBool b => Ok (Str.comma0_of_Z (if b then 1 else 0))
  | VFloat f => Ok (fmt_comma0 f)
  | VStr _ => Raise (ValueError "Unknown format code 'f' for object of type 'str'")
  | _ => Raise (TypeError "unsupported format string")
  end.

(** The prompt rendered for a neighborhood, or the exception of the
    rendering. *)
Definition rendered (request : Ads.AdGenerationRequest F) (neighborhood : dict F)
  : result string :=
  match joined ", " (get_or neighborhood "common_grass_types" (VList [])) with
  | Ok grass_types =>
      match formatted (get_or neighborhood "avg_home_value" (VInt 0)) with
      | Ok home_value =>
          Ok (Ads.ad_context request neighborhood grass_types home_value)
      | Raise e => Raise e
      end
  | Raise e => Raise e
  end.

(** The call ad generation makes with a prompt, and the answer of the
    backend it goes to. *)
Definition ad_call (request : Ads.AdGenerationRequest F) (context : string) : call :=
  if Ads.uses_claude request then
    AnthropicMessage "claude-3-5-sonnet-20241022" 2000 [("user", context)]
  else
    ChatCompletion "gpt-4" [("system", Ads.ad_system_prompt); ("user", context)]
      (Some "json_object") (Some (8 # 10)%Q).

Definition ad_reply (request : Ads.AdGenerationRequest F) (n : nat) (c : call)
  : result string :=
  if Ads.uses_claude request
  then or_raise (messages_create n c) (UpstreamError "anthropic")
  else or_raise (chat_completions_create n c) (UpstreamError "openai").





(** Whether a stored prospect matches the address of the request. *)
Definition prospect_known (request : Garden.PersonalizedGardenRequest) (w : world F)
  : bool :=
  match apply_filters [Ilike "street_address" ("%" ++ Garden.address request ++ "%")]
          (rows_of (store w) "prospects") with
  | [] => false
  | _ :: _ => true
  end.

(** The number of rows of a table. *)
Definition count (table : string) (w : world F) : nat :=
  List.length (rows_of (store w) table).

(** [generate_personalized_plan] from the prospect on. *)
Definition plan_from (request : Garden.PersonalizedGardenRequest) (prospect : dict F)
  : M F (dict F) :=
  neighborhood <- Garden.neighborhood_of prospect ;;
  let context := Garden.plan_context request neighborhood in
  content <- openai_chat "gpt-4"
               [("system", Garden.plan_system_prompt); ("user", context)]
               (Some "json_object") (Some (7 # 10)%Q) ;;
  plan_data <- loads content ;;
  prospect_id <- getitem prospect "id" ;;
  garden_plan <- _handle_insert "garden_plans"
                   (Many [[ ("prospect_id", prospect_id);
                            ("year", VInt 2024);
                            ("usda_zone", Garden.plan_usda_zone neighborhood);
                            ("ai_generated_plan", plan_data) ]]) ;;
  prospect_id' <- getitem prospect "id" ;;
  _handle_insert "leads"
    (Many [[ ("prospect_id", prospect_id');
             ("source", VStr "garden_planner");
             ("status", VStr "new");
             ("email", VStr (Garden.email request));
             ("phone", of_option_str (Garden.phone request));
             ("notes", VStr ("Created garden plan. Goals: "
                             ++ Str.join ", " (Garden.primary_goal request)
                             ++ ". Experience: " ++ Garden.experience_level request
                             ++ ".")) ]]) ;;;
  garden_plan_id <- getitem garden_plan "id" ;;
  ret [ ("success", VBool true);
        ("message", VStr "Garden plan generated successfully!");
        ("garden_plan_id", garden_plan_id);
        ("plan", plan_data) ].

(** The identifiers of the rows of a table, as stored. *)
Definition ids_of (rows : list (dict F)) : list (value F) :=
  map (fun row => get row "id") rows.

(** The leads that [batch_score_leads] fetches. *)
Definition fetched (request : Leads.BatchScoreRequest) (w : world F) : list (dict F) :=
  apply_filters [In_ "id" (map VStr (Leads.lead_ids request))]
    (rows_of (store w) "leads").

(** The turns of the batch loop over [leads] from the world [w]: each lead
    with the outcome of [score_and_store] for it, in the world that the
    turn before it left. *)
Fixpoint turns_of (leads : list (dict F)) (w : world F)
  : list (dict F * result (dict F)) :=
  match leads with
  | [] => []
  | lead :: rest =>
      (lead, fst (Leads.score_and_store lead w))
        :: turns_of rest (snd (Leads.score_item lead w))
  end.

(** The scores of the turns that succeeded, in their order. *)
Definition scores_of (turns : list (dict F * result (dict F))) : list (dict F) :=
  flat_map (fun turn => match snd turn with
                        | Ok answer => [answer]
                        | Raise _ => []
                        end) turns.

(** The line printed for a lead whose scoring raised [e]. *)
Definition failure_line (lead : dict F) (e : exn) : detail :=
  Failed ("Failed to score lead " ++ py_str (get lead "id")) e.

(** The lines of the turns that failed, in their order. *)
Definition failures_of (turns : list (dict F * result (dict F))) : list detail :=
  flat_map (fun turn => match snd turn with
                        | Ok _ => []
                        | Raise e => [failure_line (fst turn) e]
                        end) turns.

End Vocabulary.

(** The requests and backends of the fixture. *)

Definition ad_request (ids : list string) : Ads.AdGenerationRequest Q := {|
  Ads.campaign_id := "camp-123";
  Ads.neighborhood_ids := ids;
  Ads.ad_type := "image";
  Ads.platforms := ["facebook"];
  Ads.tone := Some "friendly";
  Ads.promotion := None;
  Ads.use_model := Some "gpt-4"
|}.

Definition fake_openai : Backends Q :=
  Fixture.answering (Fixture.show true Fixture.variants_answer).

Definition lead_1 : dict Q :=
  [ ("id", VStr "lead-1"); ("first_name", VStr "Ada");
    ("services_interested", VList [VStr "mowing"]) ].

Definition garden_request : Garden.PersonalizedGardenRequest := {|
  Garden.address := "99 Elm Road";
  Garden.primary_goal := ["fresh salads"];
  Garden.time_commitment := "low";
  Garden.experience_level := "beginner";
  Garden.garden_size := "small";
  Garden.harvest_preferences := ["tomatoes"; "basil"];
  Garden.favorite_recipes := None;
  Garden.email := "elm@example.org";
  Garden.phone := None
|}.

Definition plan_backend : Backends Q :=
  Fixture.answering (Fixture.show true Fixture.plan_answer).

Definition schedule_backend : Backends Q :=
  Fixture.answering (Fixture.show true Fixture.schedule_answer).

(** ** More vocabulary: lists of inserted records, merged rows *)

Section MoreVocabulary.
Context {F : Type} {PF : PyFloat F} {R : Runtime F} {B : Backends F}.

(** The records as [_ensure_id] leaves them, one after the other, from [n]
    identifiers handed out, with the number handed out at the end. *)
Fixpoint with_ids (name : string) (n : nat) (items : list (dict F))
  : list (dict F) * nat :=
  match items with
  | [] => ([], n)
  | item :: rest =>
      let (records, n') := with_ids name (uuids_after n item) rest in
      (with_id name n item :: records, n')
  end.

(** The binding of a key that a dictionary update ends with: the last one
    of the update, or else the one of the dictionary. *)
Definition merged_lookup (k : string) (stored record : dict F) : option (value F) :=
  match lookup k (rev record) with
  | Some v => Some v
  | None => lookup k stored
  end.

(** Every filter of the query holds of the row. *)
Definition satisfies (filters : list filter) (row : dict F) : bool :=
  forallb (fun f => matches f row) filters.

(** The row is equal to the value on the field, for every pair. *)
Definition equal_on (eqs : list (string * value F)) (row : dict F) : bool :=
  forallb (fun fv => value_eqb (get row (fst fv)) (snd fv)) eqs.

(** The filters that a call of [eq] for each pair leaves in a [FakeTable],
    and the filters of the same query of a handler. *)
Definition fake_eqs (eqs : list (string * value F)) : list FakeTable.fake_filter :=
  map (fun fv => FakeTable.FEq (fst fv) (snd fv)) eqs.

Definition eq_filters (eqs : list (string * value F)) : list filter :=
  map (fun fv => Eq (fst fv) (snd fv)) eqs.

(** The value is one that [-] takes: an [int], a [bool] or a [float]. *)
Definition numeric (v : value F) : bool :=
  match as_num v with Some _ => true | None => false end.

(** The value is one that [float()] takes: a number, or a string that
    reads as one. *)
Definition readable (v : value F) : bool :=
  match v with
  | VInt _ | VBool _ | VFloat _ => true
  | VStr s => match float_of_str s with Some _ => true | None => false end
  | _ => false
  end.

(** The fields batch scoring writes into a lead, from the answer of
    [score_lead]. *)
Definition score_fields (answer : dict F) : dict F :=
  [ ("score", get answer "score");
    ("score_factors", get answer "factors");
    ("estimated_monthly_value", get answer "estimated_monthly_value") ].

(** The rows of the leads table after the score of [id] was written. *)
Definition scored_rows (id : string) (answer : dict F) (rows : list (dict F))
  : list (dict F) :=
  map (fun r => if satisfies [Eq "id" (VStr id)] r
                then Py.update r (score_fields answer) else r) rows.

(** Every row of [rows] with the lead of the answer holds its score. *)
Definition written_back (rows : list (dict F)) (answer : dict F) : Prop :=
  forall row, In row rows -> get row "id" = get answer "lead_id" ->
    get row "score" = get answer "score"
    /\ get row "score_factors" = get answer "factors"
    /\ get row "estimated_monthly_value" = get answer "estimated_monthly_value".

(** What ad generation did between two worlds: the creatives [added], all
    with an identifier and the model name of the request, the [calls] made,
    all to the backend the request chooses, and nothing else. *)
Definition ad_effects (request : Ads.AdGenerationRequest F) (added : list (dict F))
  (made : list call) (w w' : world F) : Prop :=
  rows_of (store w') "ad_creatives" = rows_of (store w) "ad_creatives" ++ added
  /\ (forall table, table <> "ad_creatives" ->
                    rows_of (store w') table = rows_of (store w) table)
  /\ calls w' = calls w ++ made
  /\ Forall (fun c => exists context, c = ad_call request context) made
  /\ Forall (fun row => truthy (get row "id") = true
                        /\ get row "ai_model" = of_option_str (Ads.use_model request))
       added.

(** The keys a variant of a creative does not take from the original. *)
Definition variant_keys : list string :=
  ["id"; "name"; "headline"; "body_text"; "call_to_action"; "variant_name";
   "is_control"].

(** A stored variant of [original]: it has an identifier, is no control,
    and has every other field of the original as it is there. *)
Definition variant_of (original row : dict F) : Prop :=
  truthy (get row "id") = true
  /\ get row "is_control" = VBool false
  /\ forall k, ~ In k variant_keys -> lookup k row = lookup k original.

(** The identifiers the store gives to [count] records of the table [name]
    that come without one, when [n] identifiers were handed out before. *)
Definition fresh_ids (name : string) (n count : nat) : list (value F) :=
  map (fun k => VStr (name ++ "-" ++ uuid4 k)) (seq n count).

(** An entry of the response for a stored variant: the row with the
    changes the model reports. *)
Definition reported (row entry : dict F) : Prop :=
  lookup "changes_made" entry <> None
  /\ forall k, k <> "changes_made" -> lookup k entry = lookup k row.

(** The fields [analyze_property] writes into a property. *)
Definition analysis_fields (analysis : dict F) : dict F :=
  [ ("property_condition", get analysis "property_condition");
    ("detected_features", VDict analysis) ].

(** Whether a stored prospect matches an address, and the first that
    does. *)
Definition prospects_at (address : string) (w : world F) : list (dict F) :=
  apply_filters [Ilike "street_address" ("%" ++ address ++ "%")]
    (rows_of (store w) "prospects").

Definition address_known (address : string) (w : world F) : bool :=
  match prospects_at address w with [] => false | _ :: _ => true end.

(** [assess_property_needs] from the prospect on. *)
Definition assess_from (request : Assessment.PropertyAssessmentRequest)
  (prospect : dict F) : M F (dict F) :=
  let neighborhood := get prospect "neighborhoods" in
  grass_type <- Assessment.assess_grass_type neighborhood ;;
  soil_type <- Assessment.assess_soil_type neighborhood ;;
  usda_zone <- Maintenance.schedule_usda_zone neighborhood ;;
  let context := Assessment.assessment_context request grass_type soil_type usda_zone in
  content <- openai_chat "gpt-4"
               [("system", Assessment.assessment_system_prompt); ("user", context)]
               (Some "json_object") (Some (4 # 10)%Q) ;;
  recommendations <- loads content ;;
  prospect_id <- getitem prospect "id" ;;
  _handle_insert "leads"
    (Many [[ ("prospect_id", prospect_id);
             ("source", VStr "property_assessment");
             ("status", VStr "new");
             ("email", VStr (Assessment.email request));
             ("phone", of_option_str (Assessment.phone request));
             ("notes", VStr ("Assessment: DIY mowing="
                             ++ py_str (VBool (Assessment.mow_own_lawn request))
                             ++ ", fertilize="
                             ++ py_str (VBool (Assessment.fertilize_own_lawn request))
                             ++ ", aerate="
                             ++ py_str (VBool (Assessment.aerate_own_lawn request)))) ]]) ;;;
  ret [ ("success", VBool true);
        ("recommendations", recommendations);
        ("neighborhood_data",
          VDict [ ("grass_type", grass_type);
                  ("soil_type", soil_type);
                  ("usda_zone", usda_zone) ]) ].

End MoreVocabulary.

(** What a watering request did: stored, on success, the row of the
    recommendation after one model call, with no weather record read; or, on
    failure, answered 500 and printed the cause, with nothing stored. *)
Definition watering_outcome {F : Type} {PF : PyFloat F} {R : Runtime F}
  (request : Watering.WateringRecommendationRequest) (w : world F)
  (r : result (dict F)) (w' : world F) : Prop :=
  match r with
  | Ok body =>
      Rainfall.daily_records (Watering.zip_code request) 7 w = []
      /\ get body "rainfall_7days" = VInt 0
      /\ exists row c recommendation,
           w' = appended "watering_schedules" row (S (uuids w)) (logged c w)
           /\ get body "recommendation" = VDict recommendation
           /\ get row "prospect_id" = VStr (Watering.prospect_id request)
           /\ get row "week_starting" = VStr (days_ago 0)
           /\ get row "rainfall_last_7days" = VInt 0
           /\ lookup "lawn_watering_needed" recommendation
              = Some (get row "lawn_watering_needed")
           /\ lookup "garden_watering_needed" recommendation
              = Some (get row "garden_watering_needed")
           /\ get row "lawn_watering_hours"
              = get_or recommendation "lawn_watering_hours" (VInt 0)
           /\ get row "garden_watering_frequency"
              = get_or recommendation "garden_watering_frequency" (VStr "as_needed")
  | Raise e =>
      exists cause made,
        e = HTTPException 500 (StrOf cause)
        /\ store w' = store w
        /\ calls w' = calls w ++ made
        /\ List.length made <= 1
        /\ (Rainfall.daily_records (Watering.zip_code request) 7 w <> [] -> made = [])
        /\ stdout w'
           = stdout w ++ [Failed "Error generating watering recommendation" cause]
  end.

(** The call [generate_ab_test_variants] makes for a creative, and the one
    [analyze_property] makes for a property. *)
Definition variants_call {F : Type} {PF : PyFloat F} {R : Runtime F}
  (request : AdVariants.AdVariantRequest) (original : dict F) : call :=
  ChatCompletion "gpt-4"
    [("system", AdVariants.variants_system_prompt);
     ("user", AdVariants.variants_context request original)]
    (Some "json_object") (Some (9 # 10)%Q).

Definition analysis_call {F : Type} {PF : PyFloat F} {R : Runtime F}
  (property_data : dict F) : call :=
  ChatCompletion "gpt-4"
    [("system", PropertyAnalysis.analysis_system_prompt);
     ("user", PropertyAnalysis.analysis_prompt property_data)]
    (Some "json_object") (Some (3 # 10)%Q).

(** The body of a response that is one. *)
Definition body_of {F : Type} (r : result (dict F)) : dict F :=
  match r with Ok body => body | Raise _ => [] end.

(** A runtime and a store for the variants of a creative. *)

Definition ab_variant : dict Q :=
  [ ("variant_name", VStr "A");
    ("headline", VStr "Five Points, meet your lawn crew");
    ("body", VStr "Clay loam holds water. We mow around it.");
    ("cta", VStr "Book Now") ].

Definition ab_answer : value Q := VDict [("variants", VList [VDict ab_variant])].

Definition ab_runtime : Runtime Q := {|
  json_loads := fun content =>
    if String.eqb content (Fixture.show true ab_answer) then Some ab_answer else None;
  json_dumps := Fixture.show true;
  py_repr := Fixture.show false;
  fmt_comma0 := fun f => Str.comma0_of_Z (ExactFloat.round_half_even f);
  float_of_str := fun _ => None;
  uuid4 := fun n => ("uuid" ++ Str.of_Z (Z.of_nat n))%string;
  days_in_range := Fixture.june_days_in_range;
  days_ago := Fixture.june_days_ago;
  ilike := Fixture.june_ilike;
  order_by := Fixture.june_order_by
|}.









(** [format(x, '.2f')] of an exact float: the hundredths, half to even. *)
Definition exact_fmt_2f (q : Q) : string :=
  let cents := ExactFloat.round_half_even (q * 100)%Q in
  let a := Z.abs cents in
  let frac := (a mod 100)%Z in
  ((if Z.ltb cents 0 then "-" else "") ++ Str.of_Z (a / 100)%Z ++ "."
   ++ (if Z.ltb frac 10 then "0" else "") ++ Str.of_Z frac)%string.

Definition exact_format2 : Format2 Q := {| fmt_2f := exact_fmt_2f |}.

Definition watering_answer : value Q :=
  VDict [ ("lawn_watering_needed", VBool true);
          ("garden_watering_needed", VBool false);
          ("reasoning", VStr "No rain was recorded this week.") ].

Definition watering_runtime : Runtime Q := {|
  json_loads := fun content =>
    if String.eqb content (Fixture.show true watering_answer)
    then Some watering_answer else None;
  json_dumps := Fixture.show true;
  py_repr := Fixture.show false;
  fmt_comma0 := fun f => Str.comma0_of_Z (ExactFloat.round_half_even f);
  float_of_str := fun _ => None;
  uuid4 := fun n => ("uuid" ++ Str.of_Z (Z.of_nat n))%string;
  days_in_range := Fixture.june_days_in_range;
  days_ago := Fixture.june_days_ago;
  ilike := Fixture.june_ilike;
  order_by := Fixture.june_order_by
|}.

Definition ab_world : world Q :=
  mkWorld
    [ ("ad_creatives",
        [[ ("id", VStr "cr-1"); ("campaign_id", VStr "camp-123");
           ("name", VStr "Five Points - Facebook");
           ("headline", VStr "Athens lawns stay lush");
           ("body_text", VStr "Clay loam soils hold more moisture.");
           ("call_to_action", VStr "Get a Local Quote");
           ("status", VStr "draft") ]]) ]
    [] 0 [].

Definition assessment_request : Assessment.PropertyAssessmentRequest := {|
  Assessment.address := "99 Elm Road";
  Assessment.mow_own_lawn := true;
  Assessment.fertilize_own_lawn := false;
  Assessment.aerate_own_lawn := false;
  Assessment.weed_control_own := false;
  Assessment.have_garden := true;
  Assessment.have_trees := false;
  Assessment.email := "elm@example.org";
  Assessment.phone := None
|}.

Definition ab_request : AdVariants.AdVariantRequest := {|
  AdVariants.creative_id := "cr-1";
  AdVariants.num_variants := Some 3%Z;
  AdVariants.test_variables := ["headline"; "cta"]
|}.

(** * Properties of the handlers *)

#[local] Existing Instance Fixture.runtime.

(** ** Running the monad *)

Section RunFacts.
Context {F : Type} {PF : PyFloat F} {R : Runtime F}.

Lemma bind_ok {A B : Type} (c : M F A) (k : A -> M F B) (w w' : world F) (a : A) :
  c w = (Ok a, w') -> bind c k w = k a w'.
Proof. intros H. unfold bind. now rewrite H. Qed.

Lemma bind_raise {A B : Type} (c : M F A) (k : A -> M F B) (w w' : world F) (e : exn) :
  c w = (Raise e, w') -> bind c k w = (Raise e, w').
Proof. intros H. unfold bind. now rewrite H. Qed.

Lemma try_ok {A : Type} (c : M F A) (h : exn -> M F A) (w w' : world F) (a : A) :
  c w = (Ok a, w') -> try_except c h w = (Ok a, w').
Proof. intros H. unfold try_except. now rewrite H. Qed.

Lemma try_raise {A : Type} (c : M F A) (h : exn -> M F A) (w w' : world F) (e : exn) :
  c w = (Raise e, w') -> try_except c h w = h e w'.
Proof. intros H. unfold try_except. now rewrite H. Qed.

Lemma select_run (name : string) (filters : list filter) (w : world F) :
  select name filters w = (Ok (apply_filters filters (rows_of (store w) name)), w).
Proof. reflexivity. Qed.

Lemma select_ordered_run (name : string) (filters : list filter) (column : string)
  (desc : bool) (w : world F) :
  select_ordered name filters column desc w
  = (Ok (order_by column desc (apply_filters filters (rows_of (store w) name))), w).
Proof. reflexivity. Qed.

Lemma select_single_run (name : string) (filters : list filter) (w : world F) :
  select_single name filters w
  = (Ok (hd_error (apply_filters filters (rows_of (store w) name))), w).
Proof. reflexivity. Qed.

End RunFacts.

Lemma by_id_run {F : Type} {PF : PyFloat F} {R : Runtime F} {A : Type}
  (table id : string)
  (k : option (dict F) -> M F A) (w : world F) :
  bind (select_single table [Eq "id" (VStr id)]) k w = k (found table id w) w.
Proof. reflexivity. Qed.

(** ** Lawn area (routes/properties.py) *)

Lemma round2_half (n : Z) :
  ExactFloat.round2 (inject_Z n * (1 # 2))%Q = Qmake (50 * n) 100.
Proof.
  unfold ExactFloat.round2, ExactFloat.round_half_even. f_equal.
  cbn [Qmult Qnum Qden inject_Z Pos.mul].
  replace (n * 1 * 100)%Z with (50 * n * 2)%Z by lia.
  rewrite Z.div_mul, Z.mod_mul by lia. reflexivity.
Qed.

(** C9. For a property record whose lot size and building area are numbers
    (0 standing for a field that is absent), the lawn-area endpoint answers
    with [estimated_lawn_area_sqft] equal to
    [round((lot_size_sqft - building_area_sqft) * 0.5, 2)], for every
    implementation of the float operations, and leaves the world as it was:
    no model call, no datastore write.  When both are integers the
    difference is the integer [lot - building], and on the exact floats the
    estimate is then half the difference, negative whenever the building
    area exceeds the lot size. *)
Theorem estimate_lawn_area_formula {F : Type} {PF : PyFloat F} {R : Runtime F}
  (w : world F) (property_id : string) (property_data : dict F)
  (lot building : num F) :
  found "properties" property_id w = Some property_data ->
  property_data <> [] ->
  LawnArea.num_field property_data "lot_size_sqft" lot ->
  LawnArea.num_field property_data "building_area_sqft" building ->
  Properties.estimate_lawn_area property_id w
  = (Ok [ ("property_id", VStr property_id);
          ("lot_size_sqft", get_or property_data "lot_size_sqft" (VInt 0));
          ("building_area_sqft", get_or property_data "building_area_sqft" (VInt 0));
          ("estimated_lawn_area_sqft",
            VFloat (round2 (fmul (to_float (LawnArea.difference lot building))
                              (of_literal (1 # 2)%Q))));
          ("note", VStr Properties.lawn_note) ], w)
  /\ (forall x y : Z,
        lot = NInt x -> building = NInt y ->
        LawnArea.difference lot building = NInt (x - y)
        /\ let exact : Q := round2 (fmul (of_int (x - y)) (of_literal (1 # 2)%Q)) in
           (exact == Qmake (x - y) 2)%Q
           /\ ((x < y)%Z -> (exact < 0)%Q)).
Proof.
  intros Hrow Hne Hlot Hbuilding.
  split.
  - unfold Properties.estimate_lawn_area.
    apply try_ok.
    rewrite by_id_run, Hrow.
    destruct property_data as [| kv rest]; [contradiction |].
    unfold LawnArea.num_field in Hlot, Hbuilding.
    cbv zeta. unfold Properties.py_sub. rewrite Hlot, Hbuilding.
    destruct lot, building; reflexivity.
  - intros x y -> ->.
    split; [reflexivity |].
    cbn [round2 fmul of_int of_literal QFloat].
    rewrite round2_half.
    split.
    + unfold Qeq. cbn [Qnum Qden]. lia.
    + intros Hlt. unfold Qlt. cbn [Qnum Qden]. lia.
Qed.

Lemma estimate_lawn_area_formula_witness :
  Properties.estimate_lawn_area "prop-2" Fixture.w0
  = (Ok [ ("property_id", VStr "prop-2");
          ("lot_size_sqft", VInt 0);
          ("building_area_sqft", VInt 900);
          ("estimated_lawn_area_sqft", VFloat (-45000 # 100)%Q);
          ("note", VStr Properties.lawn_note) ], Fixture.w0).
Proof.
  refine (eq_trans
            (proj1 (estimate_lawn_area_formula Fixture.w0 "prop-2"
                      [("id", VStr "prop-2"); ("building_area_sqft", VInt 900)]
                      (NInt 0) (NInt 900) _ _ _ _)) _).
  - reflexivity.
  - discriminate.
  - reflexivity.
  - reflexivity.
  - reflexivity.
Defined.

(** Against C9 as it was stated, for every property record: with a lot of
    1000.0 and a building area of 1000.004 the building exceeds the lot and
    the estimate, [round(-0.002, 2)], is not negative. *)
Lemma lawn_area_of_a_sliver_is_not_negative :
  let w := mkWorld [("properties", [LawnArea.sliver])] [] 0 [] in
  (1000 # 1 < 250001 # 250)%Q
  /\ Properties.estimate_lawn_area "prop-3" w
     = (Ok [ ("property_id", VStr "prop-3");
             ("lot_size_sqft", VFloat (1000 # 1)%Q);
             ("building_area_sqft", VFloat (250001 # 250)%Q);
             ("estimated_lawn_area_sqft", VFloat (0 # 100)%Q);
             ("note", VStr Properties.lawn_note) ], w)
  /\ ~ (0 # 100 < 0)%Q.
Proof.
  cbv zeta. split; [reflexivity |]. split; [reflexivity |].
  intros H. discriminate H.
Qed.

(** ** Rainfall summary (routes/maintenance.py) *)

Section RainfallFacts.
Context {F : Type} {PF : PyFloat F} {R : Runtime F}.

Lemma rainfall_values_run (data : list (dict F)) (w : world F) :
  Forall Rainfall.rain_ok data ->
  Maintenance.rainfall_values data w = (Ok (map Rainfall.rain_of data), w).
Proof.
  induction 1 as [| day rest Hday _ IH]; [reflexivity |].
  cbn [Maintenance.rainfall_values map].
  assert (Hx : Maintenance.py_float (get_or day "rainfall_inches" (VInt 0)) w
               = (Ok (Rainfall.rain_of day), w)).
  { unfold Rainfall.rain_ok in Hday. unfold Rainfall.rain_of, get_or.
    destruct (lookup "rainfall_inches" day) as [[] |]; try contradiction; reflexivity. }
  rewrite (bind_ok _ _ _ _ _ Hx), (bind_ok _ _ _ _ _ IH). reflexivity.
Qed.

End RainfallFacts.

(** C10. For a number of days whose start date [datetime] can hold, when
    every daily record the query returns has a numeric rainfall or none, the
    rainfall summary answers with [watering_needed] true exactly when the sum
    of the rainfall values (0 for one that is absent) over the returned
    records is below 1.0, and with [total_rainfall_inches] that sum rounded
    to two decimals; this holds for every implementation of the float
    operations and every ordering of the database. *)
Theorem rainfall_summary_flag {F : Type} {PF : PyFloat F} {R : Runtime F}
  (w : world F) (zip_code : string) (days : Z) :
  days_in_range days = true ->
  Forall Rainfall.rain_ok (Rainfall.summary_records zip_code days w) ->
  let data := Rainfall.summary_records zip_code days w in
  let total := Maintenance.py_sum (map Rainfall.rain_of data) in
  Maintenance.get_rainfall_summary zip_code days w
  = (Ok [ ("zip_code", VStr zip_code);
          ("days", VInt days);
          ("total_rainfall_inches",
            Maintenance.value_of_num (Maintenance.py_round2 total));
          ("daily_data", VList (map VDict data));
          ("watering_needed", VBool (flt (to_float total) (of_literal 1))) ], w).
Proof.
  intros Hdays Hdata data total.
  unfold Maintenance.get_rainfall_summary, Maintenance.start_date_of.
  rewrite Hdays.
  apply try_ok.
  unfold bind at 1. cbn [ret].
  rewrite (bind_ok _ _ _ _ _ (select_ordered_run _ _ _ _ w)).
  fold (Rainfall.daily_records zip_code days w).
  fold (Rainfall.summary_records zip_code days w). fold data.
  rewrite (bind_ok _ _ _ _ _ (rainfall_values_run data w Hdata)).
  reflexivity.
Qed.

Lemma rainfall_summary_flag_witness :
  Maintenance.get_rainfall_summary "30606" 7 Fixture.w0
  = (Ok [ ("zip_code", VStr "30606");
          ("days", VInt 7);
          ("total_rainfall_inches", VFloat (75 # 100)%Q);
          ("daily_data",
            VList [ VDict [ ("zip_code", VStr "30606"); ("date", VStr "2024-06-14");
                            ("rainfall_inches", VFloat (1 # 2)%Q) ];
                    VDict [ ("zip_code", VStr "30606"); ("date", VStr "2024-06-12") ];
                    VDict [ ("zip_code", VStr "30606"); ("date", VStr "2024-06-10");
                            ("rainfall_inches", VFloat (1 # 4)%Q) ] ]);
          ("watering_needed", VBool true) ], Fixture.w0).
Proof.
  refine (eq_trans (rainfall_summary_flag Fixture.w0 "30606" 7 _ _) _).
  - reflexivity.
  - repeat constructor.
  - reflexivity.
Defined.

(** Against C10 as it was stated, for any number of days: 800000 days
    before 2024-06-15 is before the first day of [datetime], the subtraction
    raises [OverflowError] and the endpoint answers 500, though every
    weather record has a numeric rainfall or none. *)
Lemma rainfall_summary_of_800000_days :
  Forall Rainfall.rain_ok (rows_of (store Fixture.w0) "weather_data")
  /\ Maintenance.get_rainfall_summary "30606" 800000 Fixture.w0
     = (Raise (HTTPException 500 (StrOf (OverflowError "date value out of range"))),
        Fixture.w0)
  /\ status_code_of (fst (Maintenance.get_rainfall_summary "30606" 800000 Fixture.w0))
     = 500%Z.
Proof.
  split; [repeat constructor |]. split; reflexivity.
Qed.

(** ** Missing entities (routes/leads.py, routes/ai.py, routes/ads.py) *)

Section MissingEntity.
Context {F : Type} {PF : PyFloat F} {R : Runtime F} {B : Backends F}.

Lemma score_lead_not_found (w : world F) (id : string) :
  absent "leads" id w ->
  Leads.score_lead {| Leads.lead_id := id |} w
  = (Raise (HTTPException 404 (Text "Lead not found")), w).
Proof.
  unfold absent, Leads.score_lead, Leads.score_lead_body, try_except. intros H.
  rewrite by_id_run. cbn [Leads.lead_id].
  destruct (found "leads" id w) as [[| kv rest] |]; try reflexivity.
  discriminate H.
Qed.

Lemma customer_embedding_not_found (w : world F) (id : string) :
  absent "customers" id w ->
  Ai.generate_customer_embedding id w
  = (Raise (HTTPException 404 (Text "Customer not found")), w).
Proof.
  unfold absent, Ai.generate_customer_embedding, Ai.generate_customer_embedding_body,
    try_except. intros H.
  rewrite by_id_run.
  destruct (found "customers" id w) as [[| kv rest] |]; try reflexivity.
  discriminate H.
Qed.

Lemma campaign_not_found (w : world F) (request : Ads.AdGenerationRequest F) :
  absent "ad_campaigns" (Ads.campaign_id request) w ->
  Ads.generate_neighborhood_ads request w
  = (Raise (HTTPException 500
              (Failed "Ad generation failed"
                 (HTTPException 404 (Text "Campaign not found")))), w).
Proof.
  unfold absent, Ads.generate_neighborhood_ads, Ads.generate_neighborhood_ads_body,
    try_except. intros H.
  rewrite by_id_run.
  destruct (found "ad_campaigns" _ w) as [[| kv rest] |]; try reflexivity.
  discriminate H.
Qed.

Lemma neighborhood_skipped (w : world F) (request : Ads.AdGenerationRequest F)
  (id : string) (rest : list string) (generated_ads : list (dict F)) :
  absent "neighborhoods" id w ->
  Ads.each_neighborhood request (id :: rest) generated_ads w
  = Ads.each_neighborhood request rest generated_ads w.
Proof.
  unfold absent. intros H. cbn [Ads.each_neighborhood].
  rewrite by_id_run.
  destruct (found "neighborhoods" id w) as [[| kv more] |]; try reflexivity.
  discriminate H.
Qed.

Lemma property_not_found (w : world F) (id : string) :
  absent "properties" id w ->
  Properties.estimate_lawn_area id w
  = (Raise (HTTPException 500
              (Failed "Lawn area estimation failed"
                 (HTTPException 404 (Text "Property not found")))), w).
Proof.
  unfold absent, Properties.estimate_lawn_area, try_except. intros H.
  rewrite by_id_run.
  destruct (found "properties" id w) as [[| kv rest] |]; try reflexivity.
  discriminate H.
Qed.

End MissingEntity.

(** C1, as the code has it.  A request to score a lead, or to embed a
    customer, that is absent from the datastore is answered 404, and the
    world is left as it was: no model call, no write.  An ad-generation
    request whose campaign is absent, and a lawn-area request whose property
    is absent, fail, again with no model call and no write.  A neighborhood
    that is absent is passed over with no model call, and the loop goes on
    with the ones that remain. *)
Theorem missing_entity_no_model_call {F : Type} {PF : PyFloat F} {R : Runtime F}
  {B : Backends F} (w : world F) (id : string) :
  (absent "leads" id w ->
   Leads.score_lead {| Leads.lead_id := id |} w
   = (Raise (HTTPException 404 (Text "Lead not found")), w))
  /\ (absent "customers" id w ->
      Ai.generate_customer_embedding id w
      = (Raise (HTTPException 404 (Text "Customer not found")), w))
  /\ (absent "ad_campaigns" id w ->
      forall request, Ads.campaign_id request = id ->
      exists e, Ads.generate_neighborhood_ads request w = (Raise e, w))
  /\ (absent "properties" id w ->
      exists e, Properties.estimate_lawn_area id w = (Raise e, w))
  /\ (absent "neighborhoods" id w ->
      forall request rest generated_ads,
      Ads.each_neighborhood request (id :: rest) generated_ads w
      = Ads.each_neighborhood request rest generated_ads w).
Proof.
  repeat split.
  - apply score_lead_not_found.
  - apply customer_embedding_not_found.
  - intros H request <-. eexists. now apply campaign_not_found.
  - intros H. eexists. now apply property_not_found.
  - intros H request rest ads. now apply neighborhood_skipped.
Qed.

Lemma missing_entity_no_model_call_witness :
  Leads.score_lead (B := fake_openai) {| Leads.lead_id := "lead-404" |} Fixture.w0
  = (Raise (HTTPException 404 (Text "Lead not found")), Fixture.w0)
  /\ Ai.generate_customer_embedding (B := fake_openai) "lead-404" Fixture.w0
     = (Raise (HTTPException 404 (Text "Customer not found")), Fixture.w0)
  /\ Ads.each_neighborhood (B := fake_openai) (ad_request []) ["lead-404"] [] Fixture.w0
     = (Ok [], Fixture.w0).
Proof.
  destruct (missing_entity_no_model_call (B := fake_openai) Fixture.w0 "lead-404")
    as (Hlead & Hcustomer & _ & _ & Hhood).
  split; [| split].
  - apply Hlead. reflexivity.
  - apply Hcustomer. reflexivity.
  - rewrite Hhood by reflexivity. reflexivity.
Defined.

(** C1 as stated fails: with the campaign there and the one neighborhood
    asked for absent, the ad-generation endpoint answers 200, not 404. *)
Lemma missing_neighborhood_answers_200 :
  found "neighborhoods" "hood-404" Fixture.w0 = None
  /\ Ads.generate_neighborhood_ads (B := fake_openai) (ad_request ["hood-404"]) Fixture.w0
     = (Ok [ ("message", VStr "Generated 0 ad variants across 1 neighborhoods");
             ("ads", VList []);
             ("model_used", VStr "gpt-4") ], Fixture.w0)
  /\ status_code_of
       (fst (Ads.generate_neighborhood_ads (B := fake_openai) (ad_request ["hood-404"])
               Fixture.w0)) = 200%Z.
Proof. repeat split; reflexivity. Qed.

(** ** Run equations of the primitives *)

Section Primitives.
Context {F : Type} {PF : PyFloat F} {R : Runtime F} {B : Backends F}.

Lemma lift_option_run {A : Type} (o : option A) (e : exn) (w : world F) :
  lift_option o e w = (or_raise o e, w).
Proof. destruct o; reflexivity. Qed.

Lemma getitem_run (d : dict F) (k : string) (w : world F) :
  getitem d k w = (or_raise (lookup k d) (KeyError k), w).
Proof. apply lift_option_run. Qed.

Lemma loads_run (content : string) (w : world F) :
  loads content w = (or_raise (json_loads content) JSONDecodeError, w).
Proof. apply lift_option_run. Qed.

Lemma openai_chat_run (model : string) (messages : list (string * string))
  (response_format : option string) (temperature : option Q) (w : world F) :
  let c := ChatCompletion model messages response_format temperature in
  openai_chat model messages response_format temperature w
  = (or_raise (chat_completions_create (List.length (calls w)) c)
       (UpstreamError "openai"), logged c w).
Proof.
  cbv zeta. unfold openai_chat, bind, log_call. cbn.
  apply lift_option_run.
Qed.

Lemma anthropic_message_run (model : string) (max_tokens : Z)
  (messages : list (string * string)) (w : world F) :
  let c := AnthropicMessage model max_tokens messages in
  anthropic_message model max_tokens messages w
  = (or_raise (messages_create (List.length (calls w)) c)
       (UpstreamError "anthropic"), logged c w).
Proof.
  cbv zeta. unfold anthropic_message, bind, log_call. cbn.
  apply lift_option_run.
Qed.

Lemma openai_embedding_run (input model : string) (w : world F) :
  let c := Embedding input model in
  openai_embedding input model w
  = (or_raise (embeddings_create (List.length (calls w)) c)
       (UpstreamError "openai"), logged c w).
Proof.
  cbv zeta. unfold openai_embedding, bind, log_call. cbn.
  apply lift_option_run.
Qed.

Lemma join_value_run (sep : string) (v : value F) (w : world F) :
  join_value sep v w = (joined sep v, w).
Proof.
  destruct v; try reflexivity.
  cbn. destruct (str_items l); reflexivity.
Qed.

End Primitives.

(** ** Schema keys of the model answer (routes/leads.py, routes/ads.py) *)

Section SchemaKeys.
Context {F : Type} {PF : PyFloat F} {R : Runtime F} {B : Backends F}.

Lemma score_lead_run (w : world F) (id : string) (lead : dict F)
  (services content : string) (result : dict F) :
  found "leads" id w = Some lead ->
  lead <> [] ->
  joined ", " (get_or lead "services_interested" (VList [])) = Ok services ->
  chat_completions_create (List.length (calls w)) (score_call lead services)
  = Some content ->
  json_loads content = Some (VDict result) ->
  Leads.score_lead {| Leads.lead_id := id |} w
  = (Ok (Leads.score_response id result), logged (score_call lead services) w).
Proof.
  intros Hlead Hne Hjoin Hchat Hjson.
  unfold Leads.score_lead. apply try_ok.
  unfold Leads.score_lead_body. rewrite by_id_run. cbn [Leads.lead_id].
  rewrite Hlead. destruct lead as [| kv rest]; [contradiction |].
  unfold bind at 1. rewrite join_value_run, Hjoin.
  unfold bind at 1. rewrite openai_chat_run. fold (score_call (kv :: rest) services).
  rewrite Hchat. cbn [or_raise].
  unfold bind. rewrite loads_run, Hjson. reflexivity.
Qed.

Lemma creative_data_key_error (request : Ads.AdGenerationRequest F)
  (neighborhood_id : string) (neighborhood : dict F) (context : string)
  (variant : dict F) (w : world F) :
  lacks_key variant ->
  exists k,
    Ads.creative_data request neighborhood_id neighborhood context (VDict variant) w
    = (Raise (KeyError k), w).
Proof.
  unfold lacks_key, Ads.creative_data, subscript.
  intros [Hp | [[p Hp] Hrest]].
  - exists "platform". unfold bind at 1. now rewrite getitem_run, Hp.
  - unfold bind at 1. rewrite getitem_run, Hp. cbn [or_raise].
    unfold bind at 1. cbn [Ads.title_of ret].
    unfold bind at 1. rewrite getitem_run.
    destruct (lookup "headline" variant) as [h |]; [| now exists "headline"].
    cbn [or_raise]. unfold bind at 1. rewrite getitem_run.
    destruct (lookup "body" variant) as [b |]; [| now exists "body"].
    cbn [or_raise]. unfold bind at 1. rewrite getitem_run.
    destruct (lookup "cta" variant) as [c |]; [| now exists "cta"].
    destruct Hrest as [H | [H | H]]; discriminate H.
Qed.

Lemma ads_failure_is_500 (request : Ads.AdGenerationRequest F) (w : world F) :
  let r := fst (Ads.generate_neighborhood_ads request w) in
  is_ok r = true
  \/ exists e, r = Raise (HTTPException 500 (Failed "Ad generation failed" e)).
Proof.
  cbv zeta. unfold Ads.generate_neighborhood_ads, try_except.
  destruct (Ads.generate_neighborhood_ads_body request w) as [[body | e] w'].
  - now left.
  - right. now exists e.
Qed.

End SchemaKeys.

(** C3, as the code has it.  No answer of the model is rejected by a schema
    check.  In [score_lead] a parsed JSON object is accepted whatever keys it
    has: the request succeeds and each of the five keys of the template that
    the object lacks is given its default (50, 0, an empty object, an empty
    string, an empty list).  In ad generation a variant that lacks
    [platform], [headline], [body] or [cta] raises [KeyError], and a failure
    of the handler is always the generic 500. *)
Theorem missing_keys_defaulted_or_key_error {F : Type} {PF : PyFloat F}
  {R : Runtime F} {B : Backends F} :
  (forall (w : world F) (id : string) (lead : dict F) (services content : string)
          (result : dict F),
      found "leads" id w = Some lead ->
      lead <> [] ->
      joined ", " (get_or lead "services_interested" (VList [])) = Ok services ->
      chat_completions_create (List.length (calls w)) (score_call lead services)
      = Some content ->
      json_loads content = Some (VDict result) ->
      Leads.score_lead {| Leads.lead_id := id |} w
      = (Ok [ ("lead_id", VStr id);
              ("score", get_or result "score" (VInt 50));
              ("estimated_monthly_value",
                get_or result "estimated_monthly_value" (VInt 0));
              ("factors", get_or result "factors" (VDict []));
              ("explanation", get_or result "explanation" (VStr ""));
              ("recommended_actions",
                get_or result "recommended_actions" (VList [])) ],
         logged (score_call lead services) w))
  /\ (forall (request : Ads.AdGenerationRequest F) (neighborhood_id : string)
             (neighborhood : dict F) (context : string) (variant : dict F)
             (w : world F),
         lacks_key variant ->
         exists k,
           Ads.creative_data request neighborhood_id neighborhood context
             (VDict variant) w
           = (Raise (KeyError k), w))
  /\ (forall (request : Ads.AdGenerationRequest F) (w : world F),
         is_ok (fst (Ads.generate_neighborhood_ads request w)) = true
         \/ exists e,
             fst (Ads.generate_neighborhood_ads request w)
             = Raise (HTTPException 500 (Failed "Ad generation failed" e))).
Proof.
  split; [| split].
  - intros. eapply score_lead_run; eassumption.
  - intros. now apply creative_data_key_error.
  - intros. apply ads_failure_is_500.
Qed.

Lemma missing_keys_defaulted_or_key_error_witness :
  Leads.score_lead (B := Fixture.answering "{}") {| Leads.lead_id := "lead-1" |} Fixture.w0
  = (Ok [ ("lead_id", VStr "lead-1");
          ("score", VInt 50);
          ("estimated_monthly_value", VInt 0);
          ("factors", VDict []);
          ("explanation", VStr "");
          ("recommended_actions", VList []) ],
     logged (score_call lead_1 "mowing") Fixture.w0)
  /\ exists k,
       Ads.creative_data (ad_request ["hood-30606"])
         "hood-30606" [] "prompt" (VDict [("platform", VStr "facebook")]) Fixture.w0
       = (Raise (KeyError k), Fixture.w0).
Proof.
  destruct (missing_keys_defaulted_or_key_error (B := Fixture.answering "{}"))
    as (Hscore & Hkey & _).
  split.
  - apply (Hscore Fixture.w0 "lead-1" lead_1 "mowing" "{}" []); try reflexivity.
    discriminate.
  - apply Hkey. right. split; [now exists "facebook" | now left].
Defined.

(** C3 as stated fails: the model answers with the empty object, which has
    none of the keys of the template, and [score_lead] answers 200 with the
    defaults instead of raising a schema violation. *)
Lemma empty_answer_is_accepted :
  json_loads "{}" = Some (VDict [])
  /\ fst (Leads.score_lead (B := Fixture.answering "{}")
            {| Leads.lead_id := "lead-1" |} Fixture.w0)
     = Ok [ ("lead_id", VStr "lead-1");
            ("score", VInt 50);
            ("estimated_monthly_value", VInt 0);
            ("factors", VDict []);
            ("explanation", VStr "");
            ("recommended_actions", VList []) ]
  /\ status_code_of
       (fst (Leads.score_lead (B := Fixture.answering "{}")
               {| Leads.lead_id := "lead-1" |} Fixture.w0)) = 200%Z.
Proof. repeat split; reflexivity. Qed.

(** ** Strings and prefixes *)

Section StringFacts.




Lemma slice_to_length_le (n : nat) (s : string) :
  String.length (Str.slice_to n s) <= n.
Proof.
  revert s. induction n as [| n IH]; intros s; [now destruct s |].
  destruct s as [| c s]; cbn; [lia |].
  specialize (IH s). lia.
Qed.



End StringFacts.

(** ** The datastore *)

Section DatastoreFacts.
Context {F : Type} {PF : PyFloat F} {R : Runtime F}.

Lemma rows_of_set_rows_same (name : string) (rows : list (dict F)) (s : storage F) :
  rows_of (set_rows name rows s) name = rows.
Proof.
  induction s as [| [n old] s IH]; cbn.
  - now rewrite String.eqb_refl.
  - destruct (String.eqb name n) eqn:E; cbn; rewrite E; [reflexivity | exact IH].
Qed.

Lemma rows_of_set_rows_other (name other : string) (rows : list (dict F))
  (s : storage F) :
  name <> other -> rows_of (set_rows name rows s) other = rows_of s other.
Proof.
  intros Hne. induction s as [| [n old] s IH]; cbn.
  - apply String.eqb_neq in Hne. rewrite String.eqb_sym in Hne. now rewrite Hne.
  - destruct (String.eqb name n) eqn:E; cbn.
    + apply String.eqb_eq in E. subst n.
      assert (Hon : String.eqb other name = false).
      { apply String.eqb_neq. congruence. }
      now rewrite Hon.
    + now rewrite IH.
Qed.

Lemma ensure_id_run (record : dict F) (name : string) (w : world F) :
  _ensure_id record name w
  = (Ok (with_id name (uuids w) record),
     mkWorld (store w) (calls w) (uuids_after (uuids w) record) (stdout w)).
Proof.
  unfold _ensure_id, with_id, uuids_after.
  destruct (truthy (get record "id")); cbn; [now destruct w | reflexivity].
Qed.

Lemma insert_one_run (name : string) (item : dict F) (w : world F) :
  _handle_insert name (One item) w
  = (Ok (with_id name (uuids w) item),
     appended name (with_id name (uuids w) item) (uuids_after (uuids w) item) w).
Proof.
  unfold _handle_insert. unfold bind at 1. rewrite ensure_id_run. reflexivity.
Qed.

Lemma insert_many_one_run (name : string) (item : list (string * value F))
  (w : world F) :
  _handle_insert name (Many [item]) w
  = (Ok (with_id name (uuids w) item),
     appended name (with_id name (uuids w) item) (uuids_after (uuids w) item) w).
Proof.
  unfold _handle_insert, ensure_ids. unfold bind at 1. unfold bind at 1.
  rewrite ensure_id_run. reflexivity.
Qed.

Lemma rows_of_appended_same (name : string) (record : dict F) (n : nat) (w : world F) :
  rows_of (store (appended name record n w)) name = rows_of (store w) name ++ [record].
Proof. apply rows_of_set_rows_same. Qed.

Lemma rows_of_appended_other (name other : string) (record : dict F) (n : nat)
  (w : world F) :
  name <> other ->
  rows_of (store (appended name record n w)) other = rows_of (store w) other.
Proof. apply rows_of_set_rows_other. Qed.

Lemma lookup_set_item_other (k k0 : string) (v : value F) (d : dict F) :
  k <> k0 -> lookup k (set_item k0 v d) = lookup k d.
Proof.
  intros Hk. apply String.eqb_neq in Hk.
  induction d as [| [k' v'] r IH]; cbn [set_item lookup].
  - now rewrite Hk.
  - destruct (String.eqb k0 k') eqn:E; cbn [lookup].
    + apply String.eqb_eq in E. subst k'. now rewrite Hk.
    + now rewrite IH.
Qed.

Lemma with_id_get (name : string) (n : nat) (record : dict F) (k : string) :
  k <> "id" -> get (with_id name n record) k = get record k.
Proof.
  intros Hk. unfold with_id. destruct (truthy (get record "id")); [reflexivity |].
  unfold get. now rewrite lookup_set_item_other.
Qed.

End DatastoreFacts.

(** ** Ad generation (routes/ads.py) *)

Section AdsFacts.
Context {F : Type} {PF : PyFloat F} {R : Runtime F} {B : Backends F}.

Lemma format_comma0_run (v : value F) (w : world F) :
  Ads.format_comma0 v w = (formatted v, w).
Proof. destruct v; reflexivity. Qed.

Lemma render_run (request : Ads.AdGenerationRequest F) (neighborhood : dict F)
  (w : world F) :
  Ads.render_ad_context request neighborhood w = (rendered request neighborhood, w).
Proof.
  unfold Ads.render_ad_context, rendered, bind.
  rewrite join_value_run.
  destruct (joined ", " _) as [g | e]; [| reflexivity].
  rewrite format_comma0_run.
  destruct (formatted _) as [h | e]; reflexivity.
Qed.

Lemma generate_with_run (request : Ads.AdGenerationRequest F) (context : string)
  (w : world F) :
  Ads.generate_with request context w
  = (ad_reply request (List.length (calls w)) (ad_call request context),
     logged (ad_call request context) w).
Proof.
  unfold Ads.generate_with, ad_reply, ad_call.
  destruct (Ads.uses_claude request).
  - apply anthropic_message_run.
  - apply openai_chat_run.
Qed.


(** Whatever the variant is, a creative that is built holds the prompt cut
    at 500 characters, the identifier of the neighborhood and the model
    asked for, and no identifier of its own yet. *)
Lemma creative_data_inv (request : Ads.AdGenerationRequest F)
  (neighborhood_id : string) (neighborhood : dict F) (context : string)
  (variant : value F) (w w' : world F) (r : result (dict F)) :
  Ads.creative_data request neighborhood_id neighborhood context variant w = (r, w') ->
  w' = w
  /\ forall data, r = Ok data ->
       get data "generation_prompt" = VStr (Str.slice_to 500 context)
       /\ get data "neighborhood_id" = VStr neighborhood_id
       /\ get data "ai_model" = of_option_str (Ads.use_model request)
       /\ get data "id" = VNone.
Proof.
  unfold Ads.creative_data, subscript.
  destruct variant as [| b | z | f | s | l | d];
    try (intros H; injection H as <- <-; split; [reflexivity | discriminate]).
  unfold bind. rewrite getitem_run.
  destruct (lookup "platform" d) as [p |]; cbn [or_raise];
    [| intros H; injection H as <- <-; split; [reflexivity | discriminate]].
  destruct p as [| b | z | f | s | l | d'];
    try (cbn; intros H; injection H as <- <-; split; [reflexivity | discriminate]).
  cbn [Ads.title_of ret]. rewrite getitem_run.
  destruct (lookup "headline" d) as [h |]; cbn [or_raise];
    [| intros H; injection H as <- <-; split; [reflexivity | discriminate]].
  rewrite getitem_run.
  destruct (lookup "body" d) as [bd |]; cbn [or_raise];
    [| intros H; injection H as <- <-; split; [reflexivity | discriminate]].
  rewrite getitem_run.
  destruct (lookup "cta" d) as [c |]; cbn [or_raise];
    [| intros H; injection H as <- <-; split; [reflexivity | discriminate]].
  intros H. injection H as <- <-. split; [reflexivity |].
  intros data [= <-]. repeat split; reflexivity.
Qed.


Lemma iterate_run (v : value F) (w : world F) :
  exists r, Ads.iterate v w = (r, w).
Proof. destruct v; eexists; reflexivity. Qed.

End AdsFacts.



(** ** The stored prompt (routes/ads.py) *)


Section StoredPrompt.
Context {F : Type} {PF : PyFloat F} {R : Runtime F} {B : Backends F}.
Variable request : Ads.AdGenerationRequest F.










End StoredPrompt.




(** ** Calls and records of a request (routes/leads.py, routes/garden.py) *)

Section CallsAndRecords.
Context {F : Type} {PF : PyFloat F} {R : Runtime F} {B : Backends F}.

Lemma score_lead_effects_run (request : Leads.LeadScoreRequest) (w w' : world F)
  (r : result (dict F)) :
  Leads.score_lead request w = (r, w') ->
  store w' = store w
  /\ stdout w' = stdout w
  /\ forall answer, r = Ok answer ->
       (exists c, calls w' = calls w ++ [c])
       /\ exists result,
            answer = Leads.score_response (Leads.lead_id request) result.
Proof.
  unfold Leads.score_lead, try_except, Leads.score_lead_body.
  rewrite by_id_run.
  destruct (found "leads" _ w) as [[| kv rest] |];
    try (intros [= <- <-]; repeat split; try reflexivity; discriminate).
  unfold bind at 1. rewrite join_value_run.
  destruct (joined ", " _) as [services | e];
    [| destruct e; intros [= <- <-]; (repeat split; try reflexivity; discriminate)].
  unfold bind at 1. rewrite openai_chat_run.
  destruct (chat_completions_create _ _) as [content |]; cbn [or_raise];
    [| intros [= <- <-]; repeat split; try reflexivity; discriminate].
  unfold bind at 1. rewrite loads_run.
  destruct (json_loads content) as [parsed |]; cbn [or_raise];
    [| intros [= <- <-]; repeat split; try reflexivity; discriminate].
  destruct parsed;
    try (intros [= <- <-]; repeat split; try reflexivity; discriminate).
  intros [= <- <-]. split; [reflexivity |]. split; [reflexivity |].
  intros answer [= <-]. split; eexists; reflexivity.
Qed.

Lemma score_lead_effects (request : Leads.LeadScoreRequest) (w : world F) :
  store (snd (Leads.score_lead request w)) = store w
  /\ (is_ok (fst (Leads.score_lead request w)) = true ->
      exists c, calls (snd (Leads.score_lead request w)) = calls w ++ [c]).
Proof.
  destruct (Leads.score_lead request w) as [r w'] eqn:E.
  apply score_lead_effects_run in E. destruct E as (Hstore & _ & Hok).
  split; [exact Hstore |]. cbn [fst snd].
  destruct r as [answer | e]; [| discriminate].
  intros _. now destruct (Hok answer eq_refl).
Qed.

Lemma neighborhood_of_run (prospect : dict F) (w : world F) :
  exists r, Garden.neighborhood_of prospect w = (r, w).
Proof.
  unfold Garden.neighborhood_of.
  destruct (truthy (get prospect "neighborhood_id")); [| eexists; reflexivity].
  unfold bind. rewrite getitem_run.
  destruct (lookup "neighborhood_id" prospect); eexists; reflexivity.
Qed.

Lemma count_appended_same (table : string) (record : dict F) (n : nat) (w : world F) :
  count table (appended table record n w) = S (count table w).
Proof.
  unfold count. rewrite rows_of_appended_same, List.length_app. cbn. lia.
Qed.

Lemma count_appended_other (table other : string) (record : dict F) (n : nat)
  (w : world F) :
  table <> other -> count other (appended table record n w) = count other w.
Proof. intros H. unfold count. now rewrite rows_of_appended_other. Qed.

Lemma plan_body_split (request : Garden.PersonalizedGardenRequest) :
  Garden.generate_personalized_plan_body request
  = bind (Garden.get_or_create_prospect request) (plan_from request).
Proof. reflexivity. Qed.

Lemma plan_from_effects (request : Garden.PersonalizedGardenRequest)
  (prospect body : dict F) (w w' : world F) :
  plan_from request prospect w = (Ok body, w') ->
  (exists c, calls w' = calls w ++ [c])
  /\ count "garden_plans" w' = S (count "garden_plans" w)
  /\ count "leads" w' = S (count "leads" w)
  /\ count "prospects" w' = count "prospects" w.
Proof.
  unfold plan_from. unfold bind at 1.
  destruct (neighborhood_of_run prospect w) as [rn Hrn]. rewrite Hrn.
  destruct rn as [neighborhood | e]; [| discriminate].
  unfold bind at 1. rewrite openai_chat_run.
  destruct (chat_completions_create _ _) as [content |]; [| discriminate].
  cbn [or_raise]. unfold bind at 1. rewrite loads_run.
  destruct (json_loads content) as [plan_data |]; [| discriminate].
  cbn [or_raise]. unfold bind at 1. rewrite getitem_run.
  destruct (lookup "id" prospect) as [prospect_id |] eqn:Hid; [| discriminate].
  cbn [or_raise]. unfold bind at 1. rewrite insert_many_one_run.
  unfold bind at 1. rewrite getitem_run, Hid. cbn [or_raise].
  unfold bind at 1. rewrite insert_many_one_run.
  unfold bind at 1. rewrite getitem_run.
  destruct (lookup "id" (with_id "garden_plans" _ _)) as [garden_plan_id |];
    cbn [or_raise ret]; [| discriminate]. intros [= _ <-].
  split; [eexists; reflexivity |].
  split; [| split].
  - rewrite count_appended_other by discriminate.
    now rewrite count_appended_same.
  - rewrite count_appended_same.
    now rewrite count_appended_other by discriminate.
  - now rewrite !count_appended_other by discriminate.
Qed.

Lemma plan_effects (request : Garden.PersonalizedGardenRequest) (body : dict F)
  (w w' : world F) :
  Garden.generate_personalized_plan request w = (Ok body, w') ->
  (exists c, calls w' = calls w ++ [c])
  /\ count "garden_plans" w' = S (count "garden_plans" w)
  /\ count "leads" w' = S (count "leads" w)
  /\ count "prospects" w'
     = if prospect_known request w then count "prospects" w
       else S (count "prospects" w).
Proof.
  unfold Garden.generate_personalized_plan, try_except.
  destruct (Garden.generate_personalized_plan_body request w) as [[b | e] w1] eqn:E;
    [| discriminate].
  intros [= <- <-]. rewrite plan_body_split in E.
  unfold bind at 1 in E. unfold Garden.get_or_create_prospect in E.
  unfold bind at 1 in E. rewrite select_run in E.
  unfold prospect_known.
  destruct (apply_filters _ (rows_of (store w) "prospects")) as [| prospect others].
  - rewrite insert_many_one_run in E. apply plan_from_effects in E.
    destruct E as (Hcalls & Hplans & Hleads & Hprospects).
    rewrite count_appended_same in Hprospects.
    rewrite !count_appended_other in Hplans, Hleads by discriminate.
    repeat split; assumption.
  - cbn [ret] in E. apply plan_from_effects in E. exact E.
Qed.

End CallsAndRecords.

(** C2, as the code has it.  [score_lead] makes exactly one upstream model
    call when it succeeds and persists no record, whether it succeeds or
    fails.  A [generate_personalized_plan] request that succeeds makes
    exactly one upstream model call and persists one garden-plan record and
    one lead record, and one prospect record besides when no stored prospect
    matches the address. *)
Theorem one_call_and_the_records_of_a_request {F : Type} {PF : PyFloat F}
  {R : Runtime F} {B : Backends F} (w : world F) :
  (forall request : Leads.LeadScoreRequest,
      store (snd (Leads.score_lead request w)) = store w
      /\ (is_ok (fst (Leads.score_lead request w)) = true ->
          exists c, calls (snd (Leads.score_lead request w)) = calls w ++ [c]))
  /\ (forall (request : Garden.PersonalizedGardenRequest) (body : dict F)
             (w' : world F),
         Garden.generate_personalized_plan request w = (Ok body, w') ->
         (exists c, calls w' = calls w ++ [c])
         /\ count "garden_plans" w' = S (count "garden_plans" w)
         /\ count "leads" w' = S (count "leads" w)
         /\ count "prospects" w'
            = if prospect_known request w then count "prospects" w
              else S (count "prospects" w)).
Proof.
  split.
  - intros request. apply score_lead_effects.
  - intros request body w'. apply plan_effects.
Qed.

Lemma one_call_and_the_records_of_a_request_witness :
  let w' := snd (Garden.generate_personalized_plan (B := plan_backend) garden_request
                   Fixture.w0) in
  List.length (calls w') = 1
  /\ count "garden_plans" w' = 1
  /\ count "leads" w' = 3
  /\ count "prospects" w' = 2.
Proof.
  cbv zeta.
  destruct (one_call_and_the_records_of_a_request (B := plan_backend) Fixture.w0)
    as [_ Hplan].
  assert (E : Garden.generate_personalized_plan (B := plan_backend) garden_request
                Fixture.w0
              = (Ok [ ("success", VBool true);
                      ("message", VStr "Garden plan generated successfully!");
                      ("garden_plan_id", VStr "garden_plans-uuid1");
                      ("plan", Fixture.plan_answer) ],
                 snd (Garden.generate_personalized_plan (B := plan_backend)
                        garden_request Fixture.w0))) by reflexivity.
  destruct (Hplan _ _ _ E) as ((c & Hcalls) & Hplans & Hleads & Hprospects).
  rewrite Hcalls, Hplans, Hleads, Hprospects. repeat split.
Defined.

(** C2 as stated fails: a [score_lead] request that succeeds, with its one
    model call, leaves the datastore exactly as it was: no record is
    persisted. *)
Lemma successful_score_lead_persists_nothing :
  fst (Leads.score_lead (B := Fixture.answering (Fixture.show true Fixture.score_answer))
         {| Leads.lead_id := "lead-1" |} Fixture.w0)
  = Ok [ ("lead_id", VStr "lead-1");
         ("score", VInt 82);
         ("estimated_monthly_value", VInt 240);
         ("factors", VDict [("property_size", VInt 20)]);
         ("explanation", VStr "Large lot, warm source");
         ("recommended_actions", VList [VStr "Call this week"]) ]
  /\ store (snd (Leads.score_lead
                   (B := Fixture.answering (Fixture.show true Fixture.score_answer))
                   {| Leads.lead_id := "lead-1" |} Fixture.w0))
     = Fixture.initial_store
  /\ List.length
       (calls (snd (Leads.score_lead
                      (B := Fixture.answering (Fixture.show true Fixture.score_answer))
                      {| Leads.lead_id := "lead-1" |} Fixture.w0))) = 1.
Proof. repeat split; reflexivity. Qed.

(** ** Batch scoring (routes/leads.py) *)

Section Batch.
Context {F : Type} {PF : PyFloat F} {R : Runtime F} {B : Backends F}.

Lemma value_eqb_str (v : value F) (s : string) :
  value_eqb v (VStr s) = true -> v = VStr s.
Proof.
  destruct v; cbn; try discriminate.
  intros H. apply String.eqb_eq in H. now subst.
Qed.

Lemma fetched_id (request : Leads.BatchScoreRequest) (w : world F) (lead : dict F) :
  In lead (fetched request w) ->
  exists id, In id (Leads.lead_ids request) /\ lookup "id" lead = Some (VStr id).
Proof.
  unfold fetched. cbn [apply_filters fold_left]. rewrite filter_In.
  intros [_ Hmatch]. cbn [matches] in Hmatch.
  apply existsb_exists in Hmatch. destruct Hmatch as (v & Hv & Heq).
  apply in_map_iff in Hv. destruct Hv as (id & <- & Hid).
  apply value_eqb_str in Heq. exists id. split; [exact Hid |].
  unfold get in Heq. destruct (lookup "id" lead); [now subst | discriminate].
Qed.

Lemma NoDup_map_filter {A C : Type} (f : A -> C) (p : A -> bool) (l : list A) :
  NoDup (map f l) -> NoDup (map f (List.filter p l)).
Proof.
  induction l as [| x l IH]; cbn; [trivial |].
  intros H. inversion H as [| y ys Hnotin Hrest]; subst.
  destruct (p x); cbn; [| now apply IH].
  constructor; [| now apply IH].
  intros Hin. apply Hnotin.
  apply in_map_iff in Hin. destruct Hin as (z & Hz & Hzin).
  apply filter_In in Hzin. apply in_map_iff. exists z. tauto.
Qed.

(** With identifiers that are unique in the table, no more leads are
    fetched than identifiers were asked for, and fewer when one of them is
    not in the table. *)
Lemma fetched_length (request : Leads.BatchScoreRequest) (w : world F) :
  NoDup (ids_of (rows_of (store w) "leads")) ->
  List.length (fetched request w) <= List.length (Leads.lead_ids request)
  /\ ((exists id, In id (Leads.lead_ids request)
                  /\ ~ In (VStr id) (ids_of (rows_of (store w) "leads"))) ->
      List.length (fetched request w) < List.length (Leads.lead_ids request)).
Proof.
  intros Hnodup.
  assert (Hunique : NoDup (ids_of (fetched request w))).
  { unfold fetched. cbn [apply_filters fold_left]. now apply NoDup_map_filter. }
  assert (Hincl : incl (ids_of (fetched request w)) (map VStr (Leads.lead_ids request))).
  { intros v Hv. apply in_map_iff in Hv. destruct Hv as (lead & <- & Hlead).
    destruct (fetched_id request w lead Hlead) as (id & Hid & Hlookup).
    unfold get. rewrite Hlookup. now apply in_map. }
  assert (Hlen : List.length (ids_of (fetched request w))
                 = List.length (fetched request w)) by apply length_map.
  split.
  - apply NoDup_incl_length in Hincl; [| exact Hunique].
    rewrite length_map in Hincl. lia.
  - intros (id & Hid & Habsent).
    assert (Hnotin : ~ In (VStr id) (ids_of (fetched request w))).
    { intros Hin. apply Habsent.
      apply in_map_iff in Hin. destruct Hin as (lead & Hget & Hlead).
      unfold fetched in Hlead. cbn [apply_filters fold_left] in Hlead.
      apply filter_In in Hlead. apply in_map_iff. exists lead. tauto. }
    assert (Hincl' : incl (VStr id :: ids_of (fetched request w))
                       (map VStr (Leads.lead_ids request))).
    { intros v [<- | Hv]; [now apply in_map | now apply Hincl]. }
    apply NoDup_incl_length in Hincl'; [| now constructor].
    cbn [List.length] in Hincl'. rewrite length_map in Hincl'. lia.
Qed.

Lemma update_where_run (name : string) (changes : dict F) (filters : list filter)
  (w : world F) :
  exists s, update_where name changes filters w
            = (Ok tt, mkWorld s (calls w) (uuids w) (stdout w)).
Proof. eexists. reflexivity. Qed.

Lemma score_and_store_run (lead : dict F) (id : string) (w w' : world F)
  (r : result (dict F)) :
  lookup "id" lead = Some (VStr id) ->
  Leads.score_and_store lead w = (r, w') ->
  stdout w' = stdout w
  /\ forall answer, r = Ok answer -> get answer "lead_id" = VStr id.
Proof.
  intros Hid. unfold Leads.score_and_store.
  unfold bind at 1. rewrite getitem_run, Hid. cbn [or_raise].
  unfold bind at 1. cbn [Leads.new_LeadScoreRequest ret].
  unfold bind at 1.
  destruct (Leads.score_lead {| Leads.lead_id := id |} w) as [rs w1] eqn:E.
  apply score_lead_effects_run in E. destruct E as (_ & Hout & Hok).
  destruct rs as [answer | e];
    [| intros [= <- <-]; split; [exact Hout | discriminate]].
  destruct (Hok answer eq_refl) as (_ & result & ->). cbn [Leads.lead_id].
  unfold bind at 1. rewrite getitem_run.
  change (lookup "score" (Leads.score_response id result))
    with (Some (get_or result "score" (VInt 50))).
  cbn [or_raise]. unfold bind at 1. rewrite getitem_run.
  change (lookup "factors" (Leads.score_response id result))
    with (Some (get_or result "factors" (VDict []))).
  cbn [or_raise]. unfold bind at 1. rewrite getitem_run.
  change (lookup "estimated_monthly_value" (Leads.score_response id result))
    with (Some (get_or result "estimated_monthly_value" (VInt 0))).
  cbn [or_raise]. unfold bind at 1. rewrite getitem_run, Hid. cbn [or_raise].
  unfold bind at 1.
  destruct (update_where_run "leads"
              [("score", get_or result "score" (VInt 50));
               ("score_factors", get_or result "factors" (VDict []));
               ("estimated_monthly_value",
                 get_or result "estimated_monthly_value" (VInt 0))]
              [Eq "id" (VStr id)] w1) as [s Hs].
  rewrite Hs. cbn [ret]. intros [= <- <-].
  split; [exact Hout |]. intros answer [= <-]. reflexivity.
Qed.

(** One turn of the loop for a lead that has an identifier: the score of
    [score_and_store] is passed on, or its exception is printed with the
    identifier and nothing is passed on. *)
Lemma score_item_turn (lead : dict F) (id : string) (w : world F) :
  lookup "id" lead = Some (VStr id) ->
  let r := fst (Leads.score_and_store lead w) in
  exists w' : world F,
    Leads.score_item lead w
    = (Ok (match r with Ok answer => Some answer | Raise _ => None end), w')
    /\ stdout w' = stdout w ++ match r with
                               | Ok _ => []
                               | Raise e => [failure_line lead e]
                               end
    /\ forall answer, r = Ok answer -> get answer "lead_id" = get lead "id".
Proof.
  intros Hid. cbv zeta. unfold Leads.score_item, try_except. unfold bind at 1.
  destruct (Leads.score_and_store lead w) as [r w1] eqn:E.
  apply (score_and_store_run lead id) in E; [| exact Hid].
  destruct E as (Hout & Hok). cbn [fst]. destruct r as [answer | e].
  - exists w1. split; [reflexivity |].
    split; [now rewrite app_nil_r |].
    intros a [= <-]. unfold get at 2. rewrite Hid. now apply Hok.
  - unfold bind at 1. rewrite getitem_run, Hid. cbn [or_raise].
    eexists. split; [reflexivity |]. cbn [stdout].
    split; [| discriminate].
    rewrite Hout. unfold failure_line, get. now rewrite Hid.
Qed.

Lemma score_each_turns (ids : list string) (leads : list (dict F)) :
  Forall (fun lead => exists id, In id ids /\ lookup "id" lead = Some (VStr id)) leads ->
  forall (scored_count : Z) (results : list (dict F)) (w : world F),
  let turns := turns_of leads w in
  exists w' : world F,
    Leads.score_each leads scored_count results w
    = (Ok ((scored_count + Z.of_nat (List.length (scores_of turns)))%Z,
           results ++ scores_of turns), w')
    /\ stdout w' = stdout w ++ failures_of turns
    /\ map fst turns = leads
    /\ Forall (fun turn => forall answer, snd turn = Ok answer ->
                             get answer "lead_id" = get (fst turn) "id") turns.
Proof.
  induction 1 as [| lead rest (id & Hin & Hid) _ IH]; intros c results w.
  - exists w. cbn. rewrite Z.add_0_r, !app_nil_r. repeat split. constructor.
  - cbv zeta. cbn [turns_of Leads.score_each]. unfold bind at 1.
    destruct (score_item_turn lead id w Hid) as (w1 & Hrun & Hout & Hanswer).
    rewrite Hrun. cbn [snd].
    unfold scores_of, failures_of. cbn [flat_map fst snd].
    fold (scores_of (turns_of rest w1)). fold (failures_of (turns_of rest w1)).
    destruct (fst (Leads.score_and_store lead w)) as [answer | e] eqn:Er.
    + destruct (IH (c + 1)%Z (results ++ [answer]) w1)
        as (w' & Hrest & Hout' & Hfst & Hall).
      exists w'. rewrite Hrest.
      split.
      { rewrite <- app_assoc. cbn [app List.length].
        replace (c + Z.of_nat (S (List.length (scores_of (turns_of rest w1)))))%Z
          with (c + 1 + Z.of_nat (List.length (scores_of (turns_of rest w1))))%Z by lia.
        reflexivity. }
      split; [now rewrite Hout', Hout, app_nil_r |].
      split; [cbn [map fst]; now rewrite Hfst |].
      constructor; [| exact Hall].
      cbn [fst snd]. intros a Ha. now apply Hanswer.
    + destruct (IH c results w1) as (w' & Hrest & Hout' & Hfst & Hall).
      exists w'. rewrite Hrest.
      split; [reflexivity |].
      split; [rewrite Hout', Hout, <- app_assoc; reflexivity |].
      split; [cbn [map fst]; now rewrite Hfst |].
      constructor; [| exact Hall].
      cbn [fst snd]. discriminate.
Qed.

Lemma turns_length (turns : list (dict F * result (dict F))) :
  List.length (scores_of turns) + List.length (failures_of turns) = List.length turns.
Proof.
  induction turns as [| [lead [answer | e]] rest IH]; [reflexivity | |];
    unfold scores_of, failures_of; cbn [flat_map snd app List.length];
    fold (scores_of rest); fold (failures_of rest); lia.
Qed.

Lemma in_scores_of (turns : list (dict F * result (dict F))) (answer : dict F) :
  In answer (scores_of turns) <-> exists lead, In (lead, Ok answer) turns.
Proof.
  unfold scores_of. rewrite in_flat_map. split.
  - intros ([lead [a | e]] & Hin & Ha); cbn [snd] in Ha; [| contradiction].
    destruct Ha as [<- | []]. now exists lead.
  - intros (lead & Hin). exists (lead, Ok answer). split; [exact Hin | now left].
Qed.

Lemma in_failures_of (turns : list (dict F * result (dict F))) (lead : dict F)
  (e : exn) :
  In (lead, Raise e) turns -> In (failure_line lead e) (failures_of turns).
Proof.
  intros Hin. unfold failures_of. apply in_flat_map.
  exists (lead, Raise e). split; [exact Hin | now left].
Qed.

Lemma NoDup_map_eq {A C : Type} (f : A -> C) (l : list A) (x y : A) :
  NoDup (map f l) -> In x l -> In y l -> f x = f y -> x = y.
Proof.
  induction l as [| z l IH]; [contradiction |].
  cbn [map]. intros H. inversion H as [| c cs Hnotin Hrest]; subst.
  intros [-> | Hx] [-> | Hy] Heq; trivial.
  - exfalso. apply Hnotin. rewrite Heq. now apply in_map.
  - exfalso. apply Hnotin. rewrite <- Heq. now apply in_map.
  - now apply IH.
Qed.

End Batch.

(** C5. With identifiers that are unique in the leads table, a batch-score
    request of N identifiers in which some identifier is not in the table, or
    in which the scoring of some lead failed and was printed, is answered
    200 with [scored_count] below N and equal to the number of results.  The
    loop takes one turn for each fetched lead, in the world the turn before
    left: the results are the scores of the turns that succeeded, in their
    order, each with the identifier of its lead; a turn that failed printed
    its failure and left no entry among the results, and the turns after it
    were taken; an identifier that is not in the table has no entry
    either. *)
Theorem batch_partial_failure {F : Type} {PF : PyFloat F} {R : Runtime F}
  {B : Backends F} (w : world F) (request : Leads.BatchScoreRequest) :
  NoDup (ids_of (rows_of (store w) "leads")) ->
  (exists id, In id (Leads.lead_ids request)
              /\ ~ In (VStr id) (ids_of (rows_of (store w) "leads")))
  \/ stdout (snd (Leads.batch_score_leads request w)) <> stdout w ->
  exists (results : list (dict F)) (failures : list detail),
    let scored_count := Z.of_nat (List.length results) in
    let n := Z.of_nat (List.length (Leads.lead_ids request)) in
    let turns := turns_of (fetched request w) w in
    fst (Leads.batch_score_leads request w)
    = Ok [ ("message",
             VStr ("Scored " ++ Str.of_Z scored_count ++ " of " ++ Str.of_Z n
                   ++ " leads"));
           ("scored_count", VInt scored_count);
           ("results", VList (map VDict results)) ]
    /\ status_code_of (fst (Leads.batch_score_leads request w)) = 200%Z
    /\ (scored_count < n)%Z
    /\ stdout (snd (Leads.batch_score_leads request w)) = stdout w ++ failures
    /\ List.length results + List.length failures = List.length (fetched request w)
    /\ Forall (fun answer =>
                 exists id, In id (Leads.lead_ids request)
                            /\ get answer "lead_id" = VStr id) results
    /\ map fst turns = fetched request w
    /\ results = scores_of turns
    /\ failures = failures_of turns
    /\ Forall (fun turn =>
                 match snd turn with
                 | Ok answer =>
                     In answer results
                     /\ get answer "lead_id" = get (fst turn) "id"
                 | Raise e =>
                     In (failure_line (fst turn) e) failures
                     /\ forall answer, In answer results ->
                                       get answer "lead_id" <> get (fst turn) "id"
                 end) turns
    /\ (forall id, In id (Leads.lead_ids request) ->
                   ~ In (VStr id) (ids_of (rows_of (store w) "leads")) ->
                   forall answer, In answer results ->
                                  get answer "lead_id" <> VStr id).
Proof.
  intros Hnodup Hfails.
  assert (Hleads : Forall (fun lead => exists id, In id (Leads.lead_ids request)
                                       /\ lookup "id" lead = Some (VStr id))
                     (fetched request w)).
  { apply Forall_forall. intros lead. apply fetched_id. }
  destruct (score_each_turns (Leads.lead_ids request) (fetched request w) Hleads
              0%Z [] w) as (w' & Hrun & Hout & Hfst & Hall).
  set (turns := turns_of (fetched request w) w) in *.
  assert (Hbatch :
           Leads.batch_score_leads request w
           = (Ok [ ("message",
                     VStr ("Scored "
                           ++ Str.of_Z (Z.of_nat (List.length (scores_of turns)))
                           ++ " of "
                           ++ Str.of_Z (Z.of_nat (List.length (Leads.lead_ids request)))
                           ++ " leads"));
                   ("scored_count", VInt (Z.of_nat (List.length (scores_of turns))));
                   ("results", VList (map VDict (scores_of turns))) ], w')).
  { unfold Leads.batch_score_leads. apply try_ok.
    unfold bind at 1. rewrite select_run. fold (fetched request w).
    unfold bind at 1. rewrite Hrun. reflexivity. }
  rewrite Hbatch in *. cbn [fst snd] in *.
  assert (Hunique : NoDup (map (fun turn => get (fst turn) "id") turns)).
  { rewrite <- (map_map fst (fun lead => get lead "id")), Hfst.
    unfold fetched. cbn [apply_filters fold_left].
    now apply (NoDup_map_filter (fun row => get row "id")). }
  assert (Hlen : List.length (scores_of turns) + List.length (failures_of turns)
                 = List.length (fetched request w)).
  { rewrite turns_length, <- Hfst. apply eq_sym, length_map. }
  assert (Hscored : forall answer, In answer (scores_of turns) ->
             exists lead, In (lead, Ok answer) turns
                          /\ In lead (fetched request w)
                          /\ get answer "lead_id" = get lead "id").
  { intros answer Hin. apply in_scores_of in Hin. destruct Hin as (lead & Hin).
    exists lead. split; [exact Hin |]. split.
    - rewrite <- Hfst. apply in_map_iff. now exists (lead, Ok answer).
    - rewrite Forall_forall in Hall. now apply (Hall _ Hin). }
  exists (scores_of turns), (failures_of turns). cbv zeta.
  destruct (fetched_length request w Hnodup) as (Hle & Hlt).
  split; [reflexivity |]. split; [reflexivity |].
  split.
  { destruct Hfails as [Habsent | Hprinted].
    - specialize (Hlt Habsent). lia.
    - destruct (failures_of turns) as [| line failures] eqn:Ef.
      + rewrite app_nil_r in Hout. contradiction.
      + cbn [List.length] in Hlen. lia. }
  split; [exact Hout |]. split; [exact Hlen |].
  split.
  { apply Forall_forall. intros answer Hin.
    destruct (Hscored answer Hin) as (lead & _ & Hlead & Hanswer).
    destruct (fetched_id request w lead Hlead) as (id & Hid & Hlookup).
    exists id. split; [exact Hid |]. rewrite Hanswer. unfold get. now rewrite Hlookup. }
  split; [exact Hfst |]. split; [reflexivity |]. split; [reflexivity |].
  split.
  { apply Forall_forall. intros [lead [answer | e]] Hturn; cbn [fst snd].
    - split; [apply in_scores_of; now exists lead |].
      rewrite Forall_forall in Hall. now apply (Hall _ Hturn).
    - split; [now apply in_failures_of |].
      intros answer Hin Heq.
      destruct (Hscored answer Hin) as (lead' & Hturn' & _ & Hanswer).
      assert (Hsame : (lead, Raise e) = (lead', Ok answer)).
      { apply (NoDup_map_eq (fun turn => get (fst turn) "id") turns); trivial.
        cbn [fst]. congruence. }
      discriminate Hsame. }
  intros id Hid Habsent answer Hin Heq.
  destruct (Hscored answer Hin) as (lead & _ & Hlead & Hanswer).
  apply Habsent. unfold fetched in Hlead. cbn [apply_filters fold_left] in Hlead.
  apply filter_In in Hlead. apply in_map_iff. exists lead.
  split; [congruence | tauto].
Qed.

Lemma batch_partial_failure_witness :
  let run := Leads.batch_score_leads
               (B := Fixture.failing_at 0 (Fixture.show true Fixture.score_answer))
               {| Leads.lead_ids := ["lead-1"; "lead-9"; "lead-2"] |} Fixture.w0 in
  exists (results : list (dict Q)) (failures : list detail),
    fst run
    = Ok [ ("message",
             VStr ("Scored " ++ Str.of_Z (Z.of_nat (List.length results)) ++ " of "
                   ++ Str.of_Z 3 ++ " leads"));
           ("scored_count", VInt (Z.of_nat (List.length results)));
           ("results", VList (map VDict results)) ]
    /\ (Z.of_nat (List.length results) < 3)%Z
    /\ map (fun answer => get answer "lead_id") results = [VStr "lead-2"]
    /\ failures
       = [Failed "Failed to score lead lead-1"
            (HTTPException 500
               (Failed "Lead scoring failed" (UpstreamError "openai")))]
    /\ stdout (snd run) = failures.
Proof.
  cbv zeta.
  destruct (batch_partial_failure
              (B := Fixture.failing_at 0 (Fixture.show true Fixture.score_answer))
              Fixture.w0 {| Leads.lead_ids := ["lead-1"; "lead-9"; "lead-2"] |})
    as (results & failures & Hrun & _ & Hlt & Hout & _ & _ & _ & Hres & Hfail & _).
  - repeat constructor; cbn; intuition discriminate.
  - left. exists "lead-9". split; cbn; intuition discriminate.
  - exists results, failures. split; [exact Hrun |]. split; [exact Hlt |].
    split; [rewrite Hres; vm_compute; reflexivity |].
    split; [rewrite Hfail; vm_compute; reflexivity | exact Hout].
Defined.

(** ** The embedding upsert (routes/ai.py, tests/test_ads.py) *)

Section Upsert.
Context {F : Type} {PF : PyFloat F} {R : Runtime F} {B : Backends F}.

Lemma merge_first_no_key (record : dict F) (rows : list (dict F)) :
  merge_first [] record rows = None.
Proof.
  induction rows as [| stored rest IH]; [reflexivity |].
  cbn [merge_first conflicts andb]. now rewrite IH.
Qed.

(** An upsert that names no conflict key never finds a stored row: it
    appends. *)
Lemma upsert_without_key_appends (name : string) (record : dict F) (w : world F) :
  _handle_upsert name record None w
  = (Ok (with_id name (uuids w) record),
     appended name (with_id name (uuids w) record) (uuids_after (uuids w) record) w).
Proof.
  unfold _handle_upsert. cbn [key_fields_of].
  unfold bind at 1. cbn [get_store]. rewrite merge_first_no_key.
  unfold bind at 1. rewrite ensure_id_run. reflexivity.
Qed.

(** Every successful call of the customer-embedding endpoint adds a row for
    the customer, whatever rows are stored for that customer already. *)
Lemma customer_embedding_appends (customer_id : string) (body : dict F)
  (w w' : world F) :
  Ai.generate_customer_embedding customer_id w = (Ok body, w') ->
  exists row,
    rows_of (store w') "customer_embeddings"
    = rows_of (store w) "customer_embeddings" ++ [row]
    /\ get row "customer_id" = VStr customer_id.
Proof.
  unfold Ai.generate_customer_embedding, try_except.
  destruct (Ai.generate_customer_embedding_body customer_id w) as [[b | e] w1] eqn:E;
    [| destruct e; discriminate].
  intros [= <- <-]. revert E. unfold Ai.generate_customer_embedding_body.
  rewrite by_id_run.
  destruct (found "customers" customer_id w) as [[| kv rest] |]; try discriminate.
  unfold bind at 1.
  destruct (get_or (kv :: rest) "billing_address" (VDict [])) as [| | | | | | address];
    try discriminate.
  cbn [Ai.value_get ret]. unfold bind at 1. rewrite join_value_run.
  destruct (joined ", " _) as [tags | e]; [| discriminate].
  unfold bind at 1. rewrite openai_embedding_run.
  destruct (embeddings_create _ _) as [embedding |]; [| discriminate].
  cbn [or_raise]. unfold bind at 1. rewrite upsert_without_key_appends.
  cbn [ret]. intros [= _ <-].
  eexists. split; [rewrite rows_of_appended_same; reflexivity |].
  rewrite with_id_get by discriminate. reflexivity.
Qed.

End Upsert.

(** C4, the code at the failing input.  The endpoint calls [upsert] with no
    [on_conflict], so the store finds no stored row to merge into: called
    twice for the customer [cust-1], it succeeds twice and leaves two rows
    for that customer in [customer_embeddings], where the claim says one. *)
Theorem customer_embedding_twice_two_rows :
  let first := Ai.generate_customer_embedding (B := fake_openai) "cust-1" Fixture.w0 in
  let second := Ai.generate_customer_embedding (B := fake_openai) "cust-1" (snd first) in
  is_ok (fst first) = true
  /\ is_ok (fst second) = true
  /\ map (fun row => (get row "customer_id", get row "id"))
       (rows_of (store (snd second)) "customer_embeddings")
     = [ (VStr "cust-1", VStr "customer_embeddings-uuid0");
         (VStr "cust-1", VStr "customer_embeddings-uuid1") ].
Proof. cbv zeta. repeat split; reflexivity. Qed.

(** With the conflict key named, the same store merges: one row, the fields
    of the second record over those of the first, the others kept. *)
Example upsert_with_conflict_key_merges :
  let first := [ ("customer_id", VStr "cust-1");
                 ("embedding", VList [VFloat (1 # 8)%Q]);
                 ("model", VStr "text-embedding-3-small") ] in
  let second := [ ("customer_id", VStr "cust-1");
                  ("embedding", VList [VFloat (3 # 8)%Q]) ] in
  let w1 := snd (_handle_upsert "customer_embeddings" first (Some "customer_id")
                   Fixture.w0) in
  rows_of (store (snd (_handle_upsert "customer_embeddings" second
                         (Some "customer_id") w1))) "customer_embeddings"
  = [[ ("customer_id", VStr "cust-1");
       ("embedding", VList [VFloat (3 # 8)%Q]);
       ("model", VStr "text-embedding-3-small");
       ("id", VStr "customer_embeddings-uuid0") ]].
Proof. reflexivity. Qed.

(** ** Defaults of optional prompt fields (routes/ads.py, routes/garden.py,
    routes/maintenance.py) *)

Section PromptDefaults.
Context {F : Type} {PF : PyFloat F} {R : Runtime F} {B : Backends F}.

(** The ad prompt of a neighborhood record that has none of its optional
    fields: each takes the default of its [get], and rendering raises
    nothing. *)
Lemma ad_prompt_defaults (request : Ads.AdGenerationRequest F) (neighborhood : dict F) :
  lookup "soil_type" neighborhood = None ->
  lookup "usda_hardiness_zone" neighborhood = None ->
  lookup "common_grass_types" neighborhood = None ->
  lookup "avg_home_value" neighborhood = None ->
  py_str (get_or neighborhood "soil_type" (VStr "mixed")) = "mixed"
  /\ py_str (get_or neighborhood "usda_hardiness_zone" (VStr "5b")) = "5b"
  /\ rendered request neighborhood = Ok (Ads.ad_context request neighborhood "" "0").
Proof.
  intros Hsoil Hzone Hgrass Hvalue. unfold rendered, get_or.
  rewrite Hsoil, Hzone, Hgrass, Hvalue. repeat split.
Qed.

(** The garden prompt: the defaults [5b] and [loam] for a neighborhood
    record without the fields, and the estimates when no neighborhood is
    known. *)
Lemma garden_prompt_defaults (neighborhood : dict F) :
  neighborhood <> [] ->
  lookup "soil_type" neighborhood = None ->
  lookup "usda_hardiness_zone" neighborhood = None ->
  Garden.zone_line (Some neighborhood) = "- USDA Zone: 5b"
  /\ Garden.soil_line (Some neighborhood) = "- Soil Type: loam"
  /\ Garden.zone_line (F := F) None = "- USDA Zone: 5b (estimate)"
  /\ Garden.soil_line (F := F) None = "- Soil Type: loam (estimate)".
Proof.
  intros Hne Hsoil Hzone. destruct neighborhood as [| kv rest]; [contradiction |].
  unfold Garden.zone_line, Garden.soil_line, get_or. rewrite Hsoil, Hzone.
  repeat split.
Qed.

(** The lawn-schedule prompt reads the soil type with no default: for a
    neighborhood record without the field it is [None]. *)
Lemma schedule_soil_type_missing (neighborhood : dict F) (w : world F) :
  neighborhood <> [] ->
  lookup "soil_type" neighborhood = None ->
  lookup "usda_hardiness_zone" neighborhood = None ->
  Maintenance.schedule_soil_type (VDict neighborhood) w = (Ok VNone, w)
  /\ Maintenance.schedule_usda_zone (VDict neighborhood) w = (Ok (VStr "5b"), w)
  /\ Maintenance.schedule_soil_type VNone w = (Ok (VStr "loam"), w).
Proof.
  intros Hne Hsoil Hzone. destruct neighborhood as [| kv rest]; [contradiction |].
  unfold Maintenance.schedule_soil_type, Maintenance.schedule_usda_zone.
  cbn [truthy Ai.value_get ret]. unfold get_or. rewrite Hsoil, Hzone.
  repeat split.
Qed.

End PromptDefaults.

(** C8, the code at the failing input.  The prospect [pros-1] has a
    neighborhood record with a hardiness zone and no soil type.  The prompt
    of the lawn-schedule endpoint then reads [- Soil Type: None], where the
    default of the template is [loam], and the same [None] is stored with
    the schedule. *)
Theorem lawn_schedule_prompt_soil_type_None :
  let run := Maintenance.generate_lawn_maintenance_schedule (B := schedule_backend)
               "pros-1" "Fescue" 5000 Fixture.w0 in
  get (hd [] (rows_of Fixture.initial_store "prospects")) "neighborhoods"
  = VDict [("usda_hardiness_zone", VStr "6a")]
  /\ is_ok (fst run) = true
  /\ calls (snd run)
     = [ ChatCompletion "gpt-4"
           [ ("system", "You are a lawn care expert.");
             ("user", Maintenance.schedule_context 5000 "Fescue" VNone (VStr "6a")) ]
           (Some "json_object") None ]
  /\ (exists n,
        String.index 0 ("- Soil Type: None" ++ Str.nl)
          (Maintenance.schedule_context 5000 "Fescue" VNone (VStr "6a")) = Some n)
  /\ map (fun row => get row "soil_type")
       (rows_of (store (snd run)) "lawn_maintenance_schedules") = [VNone].
Proof.
  cbv zeta. repeat split; try reflexivity.
  eexists. vm_compute. reflexivity.
Qed.

(** ** The helpers on concrete inputs *)

Example title_facebook : Str.title "facebook" = "Facebook".
Proof. reflexivity. Qed.

Example comma0_325000 : Str.comma0_of_Z 325000 = "325,000".
Proof. reflexivity. Qed.

Example strip_example : Str.strip ("  a b " ++ Str.nl) = "a b".
Proof. reflexivity. Qed.

Example round2_half_even_down : ExactFloat.round2 (1125 # 1000)%Q = (112 # 100)%Q.
Proof. reflexivity. Qed.

Example round2_half_even_up : ExactFloat.round2 (1135 # 1000)%Q = (114 # 100)%Q.
Proof. reflexivity. Qed.

Example update_merges :
  Py.update (F := Q) [("a", VInt 1); ("b", VInt 2)] [("b", VInt 3); ("c", VInt 4)]
  = [("a", VInt 1); ("b", VInt 3); ("c", VInt 4)].
Proof. reflexivity. Qed.

Example like_ignores_case :
  Fixture.like (list_ascii_of_string "%oak lane%") (list_ascii_of_string "12 Oak Lane")
  = true.
Proof. reflexivity. Qed.

Example stored_prompt_of_the_fixture :
  map (fun row =>
         match get row "generation_prompt" with
         | VStr stored => String.length stored
         | _ => 0
         end)
    (rows_of
       (store (snd (Ads.generate_neighborhood_ads (B := fake_openai)
                      (ad_request ["hood-30606"]) Fixture.w0))) "ad_creatives")
  = [500].
Proof. vm_compute. reflexivity. Qed.

(** No rollback: a garden-plan request whose model call raises is answered
    500 and leaves behind the prospect it created. *)
Example failed_plan_leaves_the_prospect :
  let run := Garden.generate_personalized_plan
               (B := Fixture.failing_at 0 (Fixture.show true Fixture.plan_answer))
               garden_request Fixture.w0 in
  status_code_of (fst run) = 500%Z
  /\ count "prospects" (snd run) = 2
  /\ count "prospects" Fixture.w0 = 1.
Proof. vm_compute. repeat split. Qed.

(** Ad generation makes one model call for each neighborhood it finds and
    stores one creative for each variant. *)
Example two_neighborhoods_two_calls :
  let run := Ads.generate_neighborhood_ads (B := fake_openai)
               (ad_request ["hood-30606"; "hood-404"; "hood-30606"]) Fixture.w0 in
  status_code_of (fst run) = 200%Z
  /\ List.length (calls (snd run)) = 2
  /\ count "ad_creatives" (snd run) = 2.
Proof. vm_compute. repeat split. Qed.

(** * More properties of the datastore (tests/test_ads.py) *)

Section QueryFacts.
Context {F : Type} {PF : PyFloat F} {R : Runtime F}.

Lemma filter_twice {A : Type} (p q : A -> bool) (l : list A) :
  List.filter p (List.filter q l) = List.filter (fun x => (q x && p x)%bool) l.
Proof.
  induction l as [| x l IH]; [reflexivity |].
  cbn [List.filter]. destruct (q x); cbn [List.filter andb]; [| exact IH].
  destruct (p x); now rewrite IH.
Qed.

Lemma apply_filters_filter (filters : list filter) (rows : list (dict F)) :
  apply_filters filters rows = List.filter (satisfies filters) rows.
Proof.
  unfold apply_filters, satisfies. revert rows.
  induction filters as [| f fs IH]; intros rows; cbn [fold_left forallb].
  - induction rows as [| r rows IHr]; [reflexivity |]. cbn. now rewrite <- IHr.
  - rewrite IH. apply filter_twice.
Qed.

Lemma satisfies_iff (filters : list filter) (row : dict F) :
  satisfies filters row = true <-> forall f, In f filters -> matches f row = true.
Proof. unfold satisfies. apply forallb_forall. Qed.

End QueryFacts.

Section FakeTableFacts.
Context {F : Type} {PF : PyFloat F} {R : Runtime F}.

Lemma filter_all {A : Type} (l : list A) : List.filter (fun _ => true) l = l.
Proof. induction l as [| x l IH]; [reflexivity |]. cbn. now rewrite IH. Qed.

Lemma run_filters_eqs (eqs : list (string * value F)) (rows : list (dict F)) :
  FakeTable.run_filters (fake_eqs eqs) rows = Ok (List.filter (equal_on eqs) rows).
Proof.
  revert rows. induction eqs as [| fv eqs IH]; intros rows.
  - cbn. now rewrite filter_all.
  - cbn [fake_eqs map FakeTable.run_filters FakeTable.run_filter].
    fold (fake_eqs eqs). rewrite IH, filter_twice. reflexivity.
Qed.

Lemma satisfies_eq_filters (eqs : list (string * value F)) (row : dict F) :
  satisfies (eq_filters eqs) row = equal_on eqs row.
Proof.
  unfold satisfies, equal_on, eq_filters.
  induction eqs as [| fv eqs IH]; [reflexivity |].
  cbn [map forallb matches]. now rewrite IH.
Qed.

Lemma equal_on_iff (eqs : list (string * value F)) (row : dict F) :
  equal_on eqs row = true
  <-> forall fv, In fv eqs -> value_eqb (get row (fst fv)) (snd fv) = true.
Proof. unfold equal_on. apply forallb_forall. Qed.

End FakeTableFacts.

(** X1. [FakeTable.execute] on a read query whose filters all come from
    [eq] never raises and leaves the world as it was.  Its rows are the rows
    of the table equal to the value on every filtered field, in the order of
    the table, whatever the order of the [eq] calls, cut by [limit(n)] to
    the first [n] for [n >= 0]; with [single()] the data is the first of
    them or [None].  Without a limit these are the rows that [select] and
    [select_single] of the handlers give. *)
Theorem fake_execute_on_eq_filters {F : Type} {PF : PyFloat F} {R : Runtime F}
  (q : FakeTable.t) (eqs : list (string * value F)) (w : world F) :
  FakeTable._pending_insert q = None ->
  FakeTable._pending_upsert q = None ->
  FakeTable._filters q = fake_eqs eqs ->
  let table := rows_of (store w) (FakeTable.name q) in
  let rows := List.filter (equal_on eqs) table in
  let cut := match FakeTable._limit q with
             | Some n => FakeTable.slice_to n rows
             | None => rows
             end in
  FakeTable.execute q w
  = (Ok (if FakeTable._single q
         then match cut with first :: _ => VDict first | [] => VNone end
         else VList (map VDict cut)), w)
  /\ (forall row, In row rows
                  <-> In row table
                      /\ forall fv, In fv eqs -> value_eqb (get row (fst fv)) (snd fv) = true)
  /\ (forall eqs', (forall fv, In fv eqs <-> In fv eqs') ->
                   List.filter (equal_on eqs') table = rows)
  /\ (forall n, FakeTable._limit q = Some n -> (0 <= n)%Z ->
                cut = firstn (Z.to_nat n) rows)
  /\ (FakeTable._limit q = None ->
      select (FakeTable.name q) (eq_filters eqs) w = (Ok cut, w)
      /\ select_single (FakeTable.name q) (eq_filters eqs) w = (Ok (hd_error cut), w)).
Proof.
  intros Hinsert Hupsert Hfilters table rows cut.
  split.
  { unfold FakeTable.execute. rewrite Hinsert, Hupsert, Hfilters.
    unfold bind, get_store. rewrite run_filters_eqs.
    reflexivity. }
  split.
  { intros row. unfold rows. now rewrite filter_In, equal_on_iff. }
  split.
  { intros eqs' Hsame. unfold rows. apply filter_ext. intros row.
    apply eq_true_iff_eq. rewrite !equal_on_iff.
    split; intros H fv Hfv; apply H; now apply Hsame. }
  split.
  { intros n Hn Hpos. unfold cut. rewrite Hn. unfold FakeTable.slice_to.
    now rewrite (proj2 (Z.leb_le 0 n) Hpos). }
  intros Hnone. unfold cut. rewrite Hnone.
  rewrite select_single_run, select_run, apply_filters_filter.
  fold table.
  rewrite (filter_ext _ _ (satisfies_eq_filters eqs)).
  split; reflexivity.
Qed.

Lemma fake_execute_on_eq_filters_witness :
  FakeTable.execute
    (FakeTable.limit 2
       (FakeTable.eq "zip_code" (VStr "30606") (FakeTable.table "weather_data")))
    Fixture.w0
  = (Ok (VList [ VDict [ ("zip_code", VStr "30606"); ("date", VStr "2024-06-10");
                         ("rainfall_inches", VFloat (1 # 4)%Q) ];
                 VDict [ ("zip_code", VStr "30606"); ("date", VStr "2024-06-12") ] ]),
     Fixture.w0).
Proof.
  refine (eq_trans
            (proj1 (fake_execute_on_eq_filters
                      (FakeTable.limit 2
                         (FakeTable.eq "zip_code" (VStr "30606")
                            (FakeTable.table "weather_data")))
                      [("zip_code", VStr "30606")] Fixture.w0 _ _ _)) _);
    reflexivity.
Defined.

Section WriteFacts.
Context {F : Type} {PF : PyFloat F} {R : Runtime F}.

Lemma lookup_set_item_same (k : string) (v : value F) (d : dict F) :
  lookup k (set_item k v d) = Some v.
Proof.
  induction d as [| [k' v'] r IH]; cbn [set_item lookup].
  - now rewrite String.eqb_refl.
  - destruct (String.eqb k k') eqn:E; cbn [lookup]; rewrite ?String.eqb_refl, ?E;
      [reflexivity | exact IH].
Qed.

Lemma lookup_set_item (k k0 : string) (v : value F) (d : dict F) :
  lookup k (set_item k0 v d) = if String.eqb k k0 then Some v else lookup k d.
Proof.
  destruct (String.eqb k k0) eqn:E.
  - apply String.eqb_eq in E. subst. apply lookup_set_item_same.
  - apply String.eqb_neq in E. now apply lookup_set_item_other.
Qed.

Lemma lookup_app (k : string) (d e : dict F) :
  lookup k (d ++ e)
  = match lookup k d with Some v => Some v | None => lookup k e end.
Proof.
  induction d as [| [k' v'] r IH]; cbn [app lookup]; [reflexivity |].
  now destruct (String.eqb k k').
Qed.

Lemma lookup_update (k : string) (stored record : dict F) :
  lookup k (Py.update stored record) = merged_lookup k stored record.
Proof.
  unfold Py.update, merged_lookup. revert stored.
  induction record as [| [k0 v0] r IH]; intros stored; cbn [fold_left rev fst snd].
  - reflexivity.
  - rewrite IH, lookup_app. destruct (lookup k (rev r)); [reflexivity |].
    rewrite lookup_set_item. cbn [lookup]. now destruct (String.eqb k k0).
Qed.

Lemma set_item_not_empty (k : string) (v : value F) (d : dict F) :
  set_item k v d <> [].
Proof.
  destruct d as [| [k' v'] r]; cbn [set_item]; [discriminate |].
  destruct (String.eqb k k'); discriminate.
Qed.

Lemma update_not_empty (stored record : dict F) :
  stored <> [] -> Py.update stored record <> [].
Proof.
  unfold Py.update. revert stored.
  induction record as [| [k v] r IH]; intros stored Hs; cbn [fold_left]; [exact Hs |].
  apply IH, set_item_not_empty.
Qed.

Lemma fresh_name_not_empty (name u : string) :
  String.eqb (name ++ "-" ++ u) "" = false.
Proof. now destruct name. Qed.

Lemma with_id_truthy (name : string) (n : nat) (record : dict F) :
  truthy (get (with_id name n record) "id") = true.
Proof.
  unfold with_id. destruct (truthy (get record "id")) eqn:E; [exact E |].
  unfold get. rewrite lookup_set_item_same. cbn [truthy].
  now rewrite fresh_name_not_empty.
Qed.

Lemma with_id_not_empty (name : string) (n : nat) (record : dict F) :
  with_id name n record <> [].
Proof.
  intros H. pose proof (with_id_truthy name n record) as T. now rewrite H in T.
Qed.

Lemma ensure_ids_run (items : list (dict F)) (name : string) (w : world F) :
  ensure_ids items name w
  = (Ok (fst (with_ids name (uuids w) items)),
     mkWorld (store w) (calls w) (snd (with_ids name (uuids w) items)) (stdout w)).
Proof.
  revert w. induction items as [| item rest IH]; intros w; cbn [ensure_ids with_ids].
  - now destruct w.
  - unfold bind at 1. rewrite ensure_id_run. unfold bind at 1. rewrite IH.
    cbn [uuids store calls stdout].
    now destruct (with_ids name (uuids_after (uuids w) item) rest).
Qed.

Lemma with_ids_each (name : string) (n : nat) (items : list (dict F)) :
  Forall2 (fun item record =>
             truthy (get record "id") = true
             /\ forall k, k <> "id" -> get record k = get item k)
    items (fst (with_ids name n items)).
Proof.
  revert n. induction items as [| item rest IH]; intros n; cbn [with_ids].
  - constructor.
  - specialize (IH (uuids_after n item)).
    destruct (with_ids name (uuids_after n item) rest) as [records n'].
    cbn [fst] in *. constructor; [| exact IH].
    split; [apply with_id_truthy | intros k Hk; now apply with_id_get].
Qed.

Lemma filter_none {A : Type} (p : A -> bool) (l : list A) :
  (forall x, In x l -> p x = false) -> List.filter p l = [].
Proof.
  induction l as [| x l IH]; intros H; [reflexivity |].
  cbn [List.filter]. rewrite (H x (or_introl eq_refl)).
  apply IH. intros y Hy. apply H. now right.
Qed.

Lemma value_eqb_str_refl (s : string) : value_eqb (F := F) (VStr s) (VStr s) = true.
Proof. cbn. apply String.eqb_refl. Qed.

Lemma merge_first_spec (key_fields : list string) (record stored : dict F)
  (before after : list (dict F)) :
  Forall (fun r => conflicts key_fields record r = false) before ->
  conflicts key_fields record stored = true ->
  stored <> [] ->
  merge_first key_fields record (before ++ stored :: after)
  = Some (before ++ Py.update stored record :: after, Py.update stored record).
Proof.
  intros Hb Hc Hs. induction Hb as [| r before Hr Hb IH]; cbn [app merge_first].
  - rewrite Hc. destruct stored; [congruence | reflexivity].
  - now rewrite Hr, IH.
Qed.

Lemma merge_first_none (key_fields : list string) (record : dict F)
  (rows : list (dict F)) :
  Forall (fun r => conflicts key_fields record r = false) rows ->
  merge_first key_fields record rows = None.
Proof.
  intros H. induction H as [| r rows Hr H IH]; cbn [merge_first]; [reflexivity |].
  now rewrite Hr, IH.
Qed.

Lemma conflicts_ext (key_fields : list string) (a b stored : dict F) :
  (forall f, In f key_fields -> get a f = get b f) ->
  conflicts key_fields a stored = conflicts key_fields b stored.
Proof.
  intros H. unfold conflicts. f_equal.
  induction key_fields as [| f fs IH]; [reflexivity |]. cbn [forallb].
  rewrite (H f (or_introl eq_refl)). f_equal. apply IH.
  intros g Hg. apply H. now right.
Qed.

Lemma upsert_merge_run (name : string) (record : dict F) (on_conflict : option string)
  (before after : list (dict F)) (stored : dict F) (w : world F) :
  rows_of (store w) name = before ++ stored :: after ->
  Forall (fun r => conflicts (key_fields_of on_conflict) record r = false) before ->
  conflicts (key_fields_of on_conflict) record stored = true ->
  stored <> [] ->
  _handle_upsert name record on_conflict w
  = (Ok (Py.update stored record),
     mkWorld (set_rows name (before ++ Py.update stored record :: after) (store w))
       (calls w) (uuids w) (stdout w)).
Proof.
  intros Hrows Hb Hc Hs. unfold _handle_upsert.
  unfold bind at 1. cbn [get_store]. rewrite Hrows, merge_first_spec by assumption.
  reflexivity.
Qed.

Lemma upsert_append_run (name : string) (record : dict F) (on_conflict : option string)
  (w : world F) :
  Forall (fun r => conflicts (key_fields_of on_conflict) record r = false)
    (rows_of (store w) name) ->
  _handle_upsert name record on_conflict w
  = (Ok (with_id name (uuids w) record),
     appended name (with_id name (uuids w) record) (uuids_after (uuids w) record) w).
Proof.
  intros Hb. unfold _handle_upsert.
  unfold bind at 1. cbn [get_store]. rewrite merge_first_none by assumption.
  unfold bind at 1. rewrite ensure_id_run. reflexivity.
Qed.

End WriteFacts.

(** X2. A record inserted without an identifier is stored with a fresh
    one, its other fields as given; when no row of the table carried that
    identifier, a [single()] query by it returns the stored record. *)
Theorem insert_then_select_by_id {F : Type} {PF : PyFloat F} {R : Runtime F}
  (name : string) (record : dict F) (w : world F) :
  truthy (get record "id") = false ->
  (forall row, In row (rows_of (store w) name) ->
               get row "id" <> VStr (name ++ "-" ++ uuid4 (uuids w))) ->
  exists stored w',
    _handle_insert name (One record) w = (Ok stored, w')
    /\ get stored "id" = VStr (name ++ "-" ++ uuid4 (uuids w))
    /\ (forall k, k <> "id" -> get stored k = get record k)
    /\ rows_of (store w') name = rows_of (store w) name ++ [stored]
    /\ select_single name [Eq "id" (get stored "id")] w' = (Ok (Some stored), w').
Proof.
  intros Hid Hfresh. rewrite insert_one_run. eexists. eexists.
  split; [reflexivity |].
  assert (Hget : get (with_id name (uuids w) record) "id"
                 = VStr (name ++ "-" ++ uuid4 (uuids w))).
  { unfold with_id. rewrite Hid. unfold get. now rewrite lookup_set_item_same. }
  split; [exact Hget |].
  split; [intros k Hk; now apply with_id_get |].
  split; [apply rows_of_appended_same |].
  rewrite select_single_run, rows_of_appended_same, Hget.
  cbn [apply_filters fold_left]. rewrite filter_app, filter_none.
  - cbn [List.filter matches app]. rewrite Hget, value_eqb_str_refl. reflexivity.
  - intros row Hrow. cbn [matches].
    destruct (value_eqb (get row "id") (VStr (name ++ "-" ++ uuid4 (uuids w)))) eqn:E;
      [| reflexivity].
    apply value_eqb_str in E. now apply Hfresh in E.
Qed.

Lemma insert_then_select_by_id_witness :
  exists stored w',
    _handle_insert (F := Q) "ad_creatives" (One [("headline", VStr "Green")]) Fixture.w0
    = (Ok stored, w')
    /\ select_single "ad_creatives" [Eq "id" (get stored "id")] w' = (Ok (Some stored), w').
Proof.
  destruct (insert_then_select_by_id "ad_creatives" [("headline", VStr "Green")]
              Fixture.w0) as (stored & w' & H1 & _ & _ & _ & H5).
  - reflexivity.
  - intros row Hrow. vm_compute in Hrow. destruct Hrow.
  - exists stored, w'. split; assumption.
Defined.

(** X3. Inserting a list stores one record for each item, in order and
    after the rows already there, each with an identifier and with the
    item's other fields, and answers the first; for the empty list it
    raises IndexError and leaves every table's rows as they were. *)
Theorem insert_list_appends_in_order {F : Type} {PF : PyFloat F} {R : Runtime F}
  (name : string) (items : list (dict F)) (w : world F) :
  exists records w',
    _handle_insert name (Many items) w
    = (match records with first :: _ => Ok first | [] => Raise IndexError end, w')
    /\ rows_of (store w') name = rows_of (store w) name ++ records
    /\ (forall other, name <> other ->
                      rows_of (store w') other = rows_of (store w) other)
    /\ Forall2 (fun item stored =>
                  truthy (get stored "id") = true
                  /\ forall k, k <> "id" -> get stored k = get item k)
         items records
    /\ calls w' = calls w.
Proof.
  exists (fst (with_ids name (uuids w) items)).
  exists (mkWorld
            (set_rows name (rows_of (store w) name ++ fst (with_ids name (uuids w) items))
               (store w))
            (calls w) (snd (with_ids name (uuids w) items)) (stdout w)).
  split.
  { unfold _handle_insert. unfold bind at 1. rewrite ensure_ids_run.
    unfold bind at 1. cbn [get_store store]. unfold bind at 1. cbn [put_store].
    destruct (fst (with_ids name (uuids w) items)); reflexivity. }
  cbn [store calls].
  split; [apply rows_of_set_rows_same |].
  split.
  { intros other Hne. now apply rows_of_set_rows_other. }
  split; [apply with_ids_each | reflexivity].
Qed.

(** X4. An upsert whose conflict fields agree with a stored row that is not
    empty writes into the first such row, in its place: a field of the
    record overrides the stored one, every other stored field is kept, no
    row is added and no identifier is drawn. *)
Theorem upsert_merges_into_first_conflict {F : Type} {PF : PyFloat F} {R : Runtime F}
  (name : string) (record : dict F) (on_conflict : option string)
  (before after : list (dict F)) (stored : dict F) (w : world F) :
  rows_of (store w) name = before ++ stored :: after ->
  Forall (fun r => conflicts (key_fields_of on_conflict) record r = false) before ->
  conflicts (key_fields_of on_conflict) record stored = true ->
  stored <> [] ->
  exists target w',
    _handle_upsert name record on_conflict w = (Ok target, w')
    /\ rows_of (store w') name = before ++ target :: after
    /\ (forall k, lookup k target = merged_lookup k stored record)
    /\ (forall other, name <> other ->
                      rows_of (store w') other = rows_of (store w) other)
    /\ uuids w' = uuids w
    /\ calls w' = calls w.
Proof.
  intros Hrows Hb Hc Hs.
  rewrite (upsert_merge_run name record on_conflict before after stored w Hrows Hb Hc Hs).
  eexists. eexists. split; [reflexivity |].
  cbn [store uuids calls].
  split; [apply rows_of_set_rows_same |].
  split; [intros k; apply lookup_update |].
  split; [intros other Hne; now apply rows_of_set_rows_other | now split].
Qed.

Lemma upsert_merges_into_first_conflict_witness :
  exists target w',
    _handle_upsert (F := Q) "ad_campaigns" [("id", VStr "camp-123"); ("status", VStr "live")]
      (Some "id") Fixture.w0 = (Ok target, w')
    /\ rows_of (store w') "ad_campaigns" = [] ++ target :: []
    /\ get target "name" = VStr "Spring Push"
    /\ get target "status" = VStr "live".
Proof.
  destruct (upsert_merges_into_first_conflict "ad_campaigns"
              [("id", VStr "camp-123"); ("status", VStr "live")] (Some "id")
              [] [] [("id", VStr "camp-123"); ("name", VStr "Spring Push")] Fixture.w0)
    as (target & w' & H1 & H2 & H3 & _).
  - reflexivity.
  - constructor.
  - reflexivity.
  - discriminate.
  - exists target, w'. split; [exact H1 |]. split; [exact H2 |].
    unfold get. rewrite !H3. split; reflexivity.
Defined.

(** X5. Two upserts on the same conflict fields, which both records fill
    with the same non-empty strings and which no stored row matched before,
    leave one added row: the first record with the fields of the second
    written over it. *)
Theorem keyed_upsert_twice_one_row {F : Type} {PF : PyFloat F} {R : Runtime F}
  (name : string) (first second : dict F) (on_conflict : option string)
  (w : world F) :
  key_fields_of on_conflict <> [] ->
  (forall f, In f (key_fields_of on_conflict) ->
             exists s, s <> "" /\ get first f = VStr s /\ get second f = VStr s) ->
  Forall (fun r => conflicts (key_fields_of on_conflict) first r = false)
    (rows_of (store w) name) ->
  exists r1 w1 r2 w2,
    _handle_upsert name first on_conflict w = (Ok r1, w1)
    /\ _handle_upsert name second on_conflict w1 = (Ok r2, w2)
    /\ rows_of (store w1) name = rows_of (store w) name ++ [r1]
    /\ rows_of (store w2) name = rows_of (store w) name ++ [r2]
    /\ (forall k, lookup k r2 = merged_lookup k r1 second).
Proof.
  intros Hkf Hkeys Hnone.
  set (kf := key_fields_of on_conflict) in *.
  set (r1 := with_id name (uuids w) first).
  set (w1 := appended name r1 (uuids_after (uuids w) first) w).
  assert (H1 : _handle_upsert name first on_conflict w = (Ok r1, w1))
    by now apply upsert_append_run.
  assert (Hr1 : forall f, In f kf -> get r1 f = get first f).
  { intros f Hf. unfold r1, with_id.
    destruct (truthy (get first "id")) eqn:T; [reflexivity |].
    unfold get at 1. rewrite lookup_set_item_other; [reflexivity |].
    intros ->. destruct (Hkeys "id" Hf) as (s & Hs & Hg & _).
    rewrite Hg in T. cbn [truthy] in T.
    apply Bool.negb_false_iff, String.eqb_eq in T. contradiction. }
  assert (Hsame : forall f, In f kf -> get second f = get first f).
  { intros f Hf. destruct (Hkeys f Hf) as (s & _ & Hg1 & Hg2). congruence. }
  assert (Hrows1 : rows_of (store w1) name = rows_of (store w) name ++ r1 :: [])
    by apply rows_of_appended_same.
  assert (H2 : _handle_upsert name second on_conflict w1
               = (Ok (Py.update r1 second),
                  mkWorld (set_rows name (rows_of (store w) name
                                          ++ Py.update r1 second :: []) (store w1))
                    (calls w1) (uuids w1) (stdout w1))).
  { apply upsert_merge_run; [exact Hrows1 | | | apply with_id_not_empty].
    - fold kf. eapply Forall_impl; [| exact Hnone]. cbn beta.
      intros r Hr. now rewrite (conflicts_ext kf second first r Hsame).
    - fold kf. unfold conflicts. destruct kf as [| f0 fs] eqn:Ekf; [congruence |].
      cbn [andb]. apply forallb_forall. intros f Hf.
      rewrite Hr1 by exact Hf. destruct (Hkeys f Hf) as (s & _ & Hg1 & Hg2).
      rewrite Hg1, Hg2. apply value_eqb_str_refl. }
  exists r1, w1. eexists. eexists.
  split; [exact H1 |]. split; [exact H2 |]. split; [exact Hrows1 |].
  cbn [store]. split; [apply rows_of_set_rows_same | intros k; apply lookup_update].
Qed.

Lemma keyed_upsert_twice_one_row_witness :
  exists r1 w1 r2 w2,
    _handle_upsert (F := Q) "customer_embeddings"
      [("customer_id", VStr "cust-1"); ("text", VStr "old")] (Some "customer_id")
      Fixture.w0 = (Ok r1, w1)
    /\ _handle_upsert "customer_embeddings"
         [("customer_id", VStr "cust-1"); ("text", VStr "new")] (Some "customer_id")
         w1 = (Ok r2, w2)
    /\ rows_of (store w2) "customer_embeddings"
       = rows_of (store Fixture.w0) "customer_embeddings" ++ [r2]
    /\ get r2 "text" = VStr "new".
Proof.
  destruct (keyed_upsert_twice_one_row "customer_embeddings"
              [("customer_id", VStr "cust-1"); ("text", VStr "old")]
              [("customer_id", VStr "cust-1"); ("text", VStr "new")]
              (Some "customer_id") Fixture.w0)
    as (r1 & w1 & r2 & w2 & H1 & H2 & _ & H4 & H5).
  - discriminate.
  - intros f Hf. vm_compute in Hf. destruct Hf as [<- | []].
    exists "cust-1"%string. repeat split. discriminate.
  - vm_compute. constructor.
  - exists r1, w1, r2, w2. split; [exact H1 |]. split; [exact H2 |].
    split; [exact H4 |]. unfold get. rewrite H5. reflexivity.
Defined.

(** * More properties of the handlers *)

Section StatusFacts.
Context {F : Type} {PF : PyFloat F} {R : Runtime F} {B : Backends F}.

Lemma missing_false (data : option (dict F)) :
  missing data = false -> exists kv rest, data = Some (kv :: rest).
Proof. destruct data as [[| kv rest] |]; try discriminate. intros _. now eexists _, _. Qed.

Lemma joined_raises (sep : string) (v : value F) (e : exn) :
  joined sep v = Raise e -> exists what, e = TypeError what.
Proof.
  destruct v as [| | | | | l |]; cbn [joined]; try (intros [= <-]; now eexists).
  destruct (str_items l); [discriminate | intros [= <-]; now eexists].
Qed.

(** The outcome of [score_lead] for a lead that is there: 200 or 500, and
    the world as it was or with one more call. *)
Lemma score_lead_found (w : world F) (id : string) :
  missing (found "leads" id w) = false ->
  exists r w',
    Leads.score_lead {| Leads.lead_id := id |} w = (r, w')
    /\ (status_code_of r = 200%Z \/ status_code_of r = 500%Z)
    /\ (w' = w \/ exists c, w' = logged c w).
Proof.
  intros H. apply missing_false in H. destruct H as (kv & rest & Hf).
  unfold Leads.score_lead, try_except, Leads.score_lead_body.
  rewrite by_id_run. cbn [Leads.lead_id]. rewrite Hf.
  unfold bind at 1. rewrite join_value_run.
  destruct (joined ", " _) as [services | e] eqn:Ej;
    [| apply joined_raises in Ej; destruct Ej as [what ->];
       eexists _, _; (split; [reflexivity |]); cbn; tauto].
  unfold bind at 1. rewrite openai_chat_run.
  destruct (chat_completions_create _ _) as [content |]; cbn [or_raise];
    [| eexists _, _; (split; [reflexivity |]); cbn; split; [tauto | right; now eexists]].
  unfold bind at 1. rewrite loads_run.
  destruct (json_loads content) as [parsed |]; cbn [or_raise];
    [| eexists _, _; (split; [reflexivity |]); cbn; split; [tauto | right; now eexists]].
  destruct parsed;
    eexists _, _; (split; [reflexivity |]); cbn; (split; [tauto | right; now eexists]).
Qed.

Lemma customer_embedding_found (w : world F) (id : string) :
  missing (found "customers" id w) = false ->
  exists r w',
    Ai.generate_customer_embedding id w = (r, w')
    /\ (status_code_of r = 200%Z \/ status_code_of r = 500%Z)
    /\ (calls w' = calls w \/ exists c, calls w' = calls w ++ [c]).
Proof.
  intros H. apply missing_false in H. destruct H as (kv & rest & Hf).
  unfold Ai.generate_customer_embedding, try_except,
    Ai.generate_customer_embedding_body.
  rewrite by_id_run. rewrite Hf.
  unfold bind at 1.
  destruct (get_or (kv :: rest) "billing_address" (VDict [])) as [| | | | | | address];
    try (eexists _, _; (split; [reflexivity |]); cbn; tauto).
  cbn [Ai.value_get ret]. unfold bind at 1. rewrite join_value_run.
  destruct (joined ", " _) as [tags | e] eqn:Ej;
    [| apply joined_raises in Ej; destruct Ej as [what ->];
       eexists _, _; (split; [reflexivity |]); cbn; tauto].
  unfold bind at 1. rewrite openai_embedding_run.
  destruct (embeddings_create _ _) as [embedding |]; cbn [or_raise];
    [| eexists _, _; (split; [reflexivity |]); cbn; split; [tauto | right; now eexists]].
  unfold bind at 1. rewrite upsert_without_key_appends. cbn [ret].
  eexists _, _. split; [reflexivity |]. cbn. split; [tauto | right; now eexists].
Qed.

End StatusFacts.

(** X6. [score_lead] and [generate_customer_embedding] answer 404 exactly
    when the lead, or the customer, is missing; otherwise they answer 200 or
    500, and whatever the outcome they make at most one model call. *)
Theorem not_found_exactly_when_missing {F : Type} {PF : PyFloat F} {R : Runtime F}
  {B : Backends F} (w : world F) (id : string) :
  let scored := Leads.score_lead {| Leads.lead_id := id |} w in
  let embedded := Ai.generate_customer_embedding id w in
  (status_code_of (fst scored) = 404%Z <-> absent "leads" id w)
  /\ (status_code_of (fst embedded) = 404%Z <-> absent "customers" id w)
  /\ In (status_code_of (fst scored)) [200; 404; 500]%Z
  /\ In (status_code_of (fst embedded)) [200; 404; 500]%Z
  /\ (exists cs, calls (snd scored) = calls w ++ cs /\ List.length cs <= 1)
  /\ (exists cs, calls (snd embedded) = calls w ++ cs /\ List.length cs <= 1).
Proof.
  cbv zeta.
  assert (Hs : (status_code_of (fst (Leads.score_lead {| Leads.lead_id := id |} w)) = 404%Z
                <-> absent "leads" id w)
               /\ In (status_code_of (fst (Leads.score_lead {| Leads.lead_id := id |} w)))
                    [200; 404; 500]%Z
               /\ exists cs, calls (snd (Leads.score_lead {| Leads.lead_id := id |} w))
                             = calls w ++ cs /\ List.length cs <= 1).
  { unfold absent. destruct (missing (found "leads" id w)) eqn:E.
    - rewrite (score_lead_not_found w id E). cbn [fst snd status_code_of].
      split; [tauto |]. split; [cbn; tauto |].
      exists []. split; [now rewrite app_nil_r | cbn; lia].
    - destruct (score_lead_found w id E) as (r & w' & -> & Hst & Hw). cbn [fst snd].
      split; [split; [destruct Hst as [-> | ->]; discriminate | discriminate] |].
      split; [destruct Hst as [-> | ->]; cbn; tauto |].
      destruct Hw as [-> | [c ->]];
        [exists []; split; [now rewrite app_nil_r | cbn; lia]
        | exists [c]; split; [reflexivity | cbn; lia]]. }
  assert (He : (status_code_of (fst (Ai.generate_customer_embedding id w)) = 404%Z
                <-> absent "customers" id w)
               /\ In (status_code_of (fst (Ai.generate_customer_embedding id w)))
                    [200; 404; 500]%Z
               /\ exists cs, calls (snd (Ai.generate_customer_embedding id w))
                             = calls w ++ cs /\ List.length cs <= 1).
  { unfold absent. destruct (missing (found "customers" id w)) eqn:E.
    - rewrite (customer_embedding_not_found w id E). cbn [fst snd status_code_of].
      split; [tauto |]. split; [cbn; tauto |].
      exists []. split; [now rewrite app_nil_r | cbn; lia].
    - destruct (customer_embedding_found w id E) as (r & w' & -> & Hst & Hw).
      cbn [fst snd].
      split; [split; [destruct Hst as [-> | ->]; discriminate | discriminate] |].
      split; [destruct Hst as [-> | ->]; cbn; tauto |].
      destruct Hw as [-> | [c ->]];
        [exists []; split; [now rewrite app_nil_r | cbn; lia]
        | exists [c]; split; [reflexivity | cbn; lia]]. }
  tauto.
Qed.

Section ReadOnlyFacts.
Context {F : Type} {PF : PyFloat F} {R : Runtime F}.

Lemma py_sub_run (a b : value F) (w : world F) :
  exists r, Properties.py_sub a b w = (r, w)
            /\ is_ok r = (numeric a && numeric b)%bool.
Proof.
  unfold Properties.py_sub, numeric.
  destruct (as_num a) as [[x | x] |]; destruct (as_num b) as [[y | y] |];
    eexists; split; reflexivity.
Qed.

Lemma py_float_run (v : value F) (w : world F) :
  exists r, Maintenance.py_float v w = (r, w) /\ is_ok r = readable v.
Proof.
  destruct v as [| | | | s | |]; cbn [Maintenance.py_float readable];
    try (eexists; split; reflexivity).
  rewrite lift_option_run. eexists. split; [reflexivity |].
  now destruct (float_of_str s).
Qed.

Lemma rainfall_values_total (data : list (dict F)) (w : world F) :
  exists r, Maintenance.rainfall_values data w = (r, w)
            /\ is_ok r
               = forallb (fun day => readable (get_or day "rainfall_inches" (VInt 0)))
                   data.
Proof.
  induction data as [| day rest (r & Hrest & Hok)];
    [eexists; split; reflexivity |].
  cbn [Maintenance.rainfall_values forallb]. unfold bind at 1.
  destruct (py_float_run (get_or day "rainfall_inches" (VInt 0)) w) as (rx & -> & <-).
  destruct rx as [x | e]; [| eexists; split; reflexivity].
  unfold bind at 1. rewrite Hrest. rewrite <- Hok.
  destruct r; eexists; split; reflexivity.
Qed.


Lemma estimate_lawn_area_run (w : world F) (property_id : string) :
  exists r,
    Properties.estimate_lawn_area property_id w = (r, w)
    /\ (is_ok r = true
        <-> exists property_data,
              found "properties" property_id w = Some property_data
              /\ property_data <> []
              /\ numeric (get_or property_data "lot_size_sqft" (VInt 0)) = true
              /\ numeric (get_or property_data "building_area_sqft" (VInt 0)) = true)
    /\ (is_ok r = false ->
        exists e, r = Raise (HTTPException 500 (Failed "Lawn area estimation failed" e))).
Proof.
  unfold Properties.estimate_lawn_area, try_except.
  rewrite by_id_run.
  destruct (found "properties" property_id w) as [[| kv rest] |].
  - eexists. split; [reflexivity |]. split; [| intros _; now eexists].
    split; [discriminate | intros (pd & [= <-] & Hne & _); contradiction].
  - unfold bind at 1.
    destruct (py_sub_run (get_or (kv :: rest) "lot_size_sqft" (VInt 0))
                (get_or (kv :: rest) "building_area_sqft" (VInt 0)) w)
      as (r & -> & Hok).
    destruct r as [n | e]; cbn [is_ok] in Hok; eexists; (split; [reflexivity |]).
    + split; [| discriminate].
      split; [| reflexivity]. intros _. exists (kv :: rest).
      symmetry in Hok. apply Bool.andb_true_iff in Hok.
      split; [reflexivity |]. split; [discriminate | exact Hok].
    + split; [| intros _; now eexists].
      split; [discriminate |]. intros (pd & [= <-] & _ & Hl & Hb).
      rewrite Hl, Hb in Hok. discriminate.
  - eexists. split; [reflexivity |]. split; [| intros _; now eexists].
    split; [discriminate | intros (pd & [=] & _)].
Qed.

Lemma get_rainfall_summary_run (w : world F) (zip_code : string) (days : Z) :
  exists r,
    Maintenance.get_rainfall_summary zip_code days w = (r, w)
    /\ is_ok r
       = (days_in_range days
          && forallb (fun day => readable (get_or day "rainfall_inches" (VInt 0)))
               (Rainfall.summary_records zip_code days w))%bool
    /\ (days_in_range days = false ->
        r = Raise (HTTPException 500 (StrOf (OverflowError "date value out of range"))))
    /\ (is_ok r = false -> exists e, r = Raise (HTTPException 500 (StrOf e))).
Proof.
  unfold Maintenance.get_rainfall_summary, Maintenance.start_date_of, try_except.
  destruct (days_in_range days).
  - unfold bind at 1. cbn [ret].
    unfold bind at 1. rewrite select_ordered_run.
    fold (Rainfall.daily_records zip_code days w).
    fold (Rainfall.summary_records zip_code days w).
    unfold bind at 1.
    destruct (rainfall_values_total (Rainfall.summary_records zip_code days w) w)
      as (r & -> & <-).
    destruct r as [xs | e]; eexists; (split; [reflexivity |]).
    + split; [reflexivity |]. split; discriminate.
    + split; [reflexivity |]. split; [discriminate | intros _; now eexists].
  - eexists. split; [reflexivity |]. split; [reflexivity |].
    split; [reflexivity | intros _; now eexists].
Qed.

End ReadOnlyFacts.

(** X7. The lawn-area endpoint never changes the world.  It succeeds
    exactly when the property is there and its lot size and building area
    are numbers, a field that is absent counting as the number 0 and a field
    that is null not; every failure, the missing property among them, is
    answered 500. *)
Theorem lawn_area_succeeds_on_numbers {F : Type} {PF : PyFloat F} {R : Runtime F}
  (w : world F) (property_id : string) :
  let run := Properties.estimate_lawn_area property_id w in
  snd run = w
  /\ (is_ok (fst run) = true
      <-> exists property_data,
            found "properties" property_id w = Some property_data
            /\ property_data <> []
            /\ numeric (get_or property_data "lot_size_sqft" (VInt 0)) = true
            /\ numeric (get_or property_data "building_area_sqft" (VInt 0)) = true)
  /\ (is_ok (fst run) = false ->
      exists e, fst run
                = Raise (HTTPException 500 (Failed "Lawn area estimation failed" e))).
Proof.
  cbv zeta. destruct (estimate_lawn_area_run w property_id) as (r & -> & H).
  split; [reflexivity | exact H].
Qed.

(** X8. The rainfall summary never changes the world.  It succeeds exactly
    when the start date is in the range of [datetime] and the rainfall of
    every daily record of the query can be read as a float, so one record
    with a null rainfall fails the whole summary; every failure is answered
    500, a number of days out of range with the [OverflowError] of the
    subtraction. *)
Theorem rainfall_summary_succeeds_on_readable {F : Type} {PF : PyFloat F}
  {R : Runtime F} (w : world F) (zip_code : string) (days : Z) :
  let run := Maintenance.get_rainfall_summary zip_code days w in
  snd run = w
  /\ is_ok (fst run)
     = (days_in_range days
        && forallb (fun day => readable (get_or day "rainfall_inches" (VInt 0)))
             (Rainfall.summary_records zip_code days w))%bool
  /\ (days_in_range days = false ->
      fst run
      = Raise (HTTPException 500 (StrOf (OverflowError "date value out of range"))))
  /\ (is_ok (fst run) = false ->
      exists e, fst run = Raise (HTTPException 500 (StrOf e))).
Proof.
  cbv zeta. destruct (get_rainfall_summary_run w zip_code days) as (r & -> & H).
  split; [reflexivity | exact H].
Qed.

Section StoredUnderItsId.
Context {F : Type} {PF : PyFloat F} {R : Runtime F} {B : Backends F}.

Lemma value_get_run (v : value F) (k : string) (default : value F) (w : world F) :
  exists r, Ai.value_get v k default w = (r, w).
Proof. destruct v; eexists; reflexivity. Qed.

Lemma schedule_soil_type_run (neighborhood : value F) (w : world F) :
  exists r, Maintenance.schedule_soil_type neighborhood w = (r, w).
Proof.
  unfold Maintenance.schedule_soil_type.
  destruct (truthy neighborhood); [apply value_get_run | eexists; reflexivity].
Qed.

Lemma schedule_usda_zone_run (neighborhood : value F) (w : world F) :
  exists r, Maintenance.schedule_usda_zone neighborhood w = (r, w).
Proof.
  unfold Maintenance.schedule_usda_zone.
  destruct (truthy neighborhood); [apply value_get_run | eexists; reflexivity].
Qed.

Lemma with_id_lookup_id (name : string) (n : nat) (record : dict F) :
  exists id, lookup "id" (with_id name n record) = Some id /\ truthy id = true.
Proof.
  pose proof (with_id_truthy name n record) as T. unfold get in T.
  destruct (lookup "id" (with_id name n record)) as [id |]; [| discriminate].
  now exists id.
Qed.

Lemma lawn_schedule_run (prospect_id grass_type : string) (lawn_size_sqft : Z)
  (body : dict F) (w w' : world F) :
  Maintenance.generate_lawn_maintenance_schedule prospect_id grass_type lawn_size_sqft w
  = (Ok body, w') ->
  exists row c,
    w' = appended "lawn_maintenance_schedules" row (S (uuids w)) (logged c w)
    /\ get body "schedule_id" = get row "id"
    /\ truthy (get row "id") = true
    /\ get row "prospect_id" = VStr prospect_id
    /\ get row "grass_type" = VStr grass_type
    /\ get row "lawn_size_sqft" = VInt lawn_size_sqft
    /\ get row "ai_schedule" = get body "schedule".
Proof.
  unfold Maintenance.generate_lawn_maintenance_schedule, try_except.
  rewrite by_id_run.
  destruct (found "prospects" prospect_id w) as [prospect |];
    [| discriminate].
  cbn [lift_option]. unfold bind at 1. cbn [ret].
  unfold bind at 1.
  destruct (schedule_soil_type_run (get prospect "neighborhoods") w) as (rs & ->).
  destruct rs as [soil_type | e]; [| discriminate].
  unfold bind at 1.
  destruct (schedule_usda_zone_run (get prospect "neighborhoods") w) as (rz & ->).
  destruct rz as [usda_zone | e]; [| discriminate].
  unfold bind at 1. rewrite openai_chat_run.
  destruct (chat_completions_create _ _) as [content |]; cbn [or_raise];
    [| discriminate].
  unfold bind at 1. rewrite loads_run.
  destruct (json_loads content) as [schedule_data |]; cbn [or_raise];
    [| discriminate].
  unfold bind at 1. rewrite insert_many_one_run.
  unfold bind at 1. rewrite getitem_run.
  match goal with
  | |- context [with_id ?name ?n ?record] =>
      destruct (with_id_lookup_id name n record) as (id & Hid & Htruthy);
      pose proof (with_id_get name n record) as Hget;
      set (row := with_id name n record) in *
  end.
  rewrite Hid. cbn [or_raise ret]. intros [= <- <-].
  assert (Hrowid : get row "id" = id) by (unfold get; now rewrite Hid).
  eexists row, _. split; [reflexivity |]. rewrite Hrowid.
  split; [reflexivity |]. split; [exact Htruthy |].
  rewrite !Hget by discriminate. repeat split; reflexivity.
Qed.

End StoredUnderItsId.

Section GardenPlanFacts.
Context {F : Type} {PF : PyFloat F} {R : Runtime F} {B : Backends F}.

Lemma found_appended (table id : string) (record : dict F) (n : nat) (w : world F) :
  (forall row, In row (rows_of (store w) table) -> get row "id" <> VStr id) ->
  get record "id" = VStr id ->
  found table id (appended table record n w) = Some record.
Proof.
  intros Hfresh Hid. unfold found. rewrite rows_of_appended_same.
  cbn [apply_filters fold_left]. rewrite filter_app, filter_none.
  - cbn [List.filter matches app]. rewrite Hid, value_eqb_str_refl. reflexivity.
  - intros row Hrow. cbn [matches].
    destruct (value_eqb (get row "id") (VStr id)) eqn:E; [| reflexivity].
    apply value_eqb_str in E. now apply Hfresh in E.
Qed.

Lemma found_appended_other (table other id : string) (record : dict F) (n : nat)
  (w : world F) :
  other <> table ->
  found table id (appended other record n w) = found table id w.
Proof. intros H. unfold found. now rewrite rows_of_appended_other. Qed.

Lemma plan_from_stored (request : Garden.PersonalizedGardenRequest)
  (prospect body : dict F) (w w' : world F) :
  plan_from request prospect w = (Ok body, w') ->
  exists c plan lead,
    w' = appended "leads" lead (S (S (uuids w)))
           (appended "garden_plans" plan (S (uuids w)) (logged c w))
    /\ get plan "id" = VStr ("garden_plans-" ++ uuid4 (uuids w))
    /\ get body "garden_plan_id" = get plan "id"
    /\ get plan "ai_generated_plan" = get body "plan"
    /\ lookup "id" prospect = Some (get plan "prospect_id")
    /\ get lead "prospect_id" = get plan "prospect_id"
    /\ get lead "email" = VStr (Garden.email request)
    /\ get lead "source" = VStr "garden_planner"
    /\ get lead "status" = VStr "new".
Proof.
  unfold plan_from. unfold bind at 1.
  destruct (neighborhood_of_run prospect w) as [rn Hrn]. rewrite Hrn.
  destruct rn as [neighborhood | e]; [| discriminate].
  unfold bind at 1. rewrite openai_chat_run.
  destruct (chat_completions_create _ _) as [content |]; [| discriminate].
  cbn [or_raise]. unfold bind at 1. rewrite loads_run.
  destruct (json_loads content) as [plan_data |]; [| discriminate].
  cbn [or_raise]. unfold bind at 1. rewrite getitem_run.
  destruct (lookup "id" prospect) as [prospect_id |] eqn:Hid; [| discriminate].
  cbn [or_raise]. unfold bind at 1. rewrite insert_many_one_run.
  unfold bind at 1. rewrite getitem_run, Hid. cbn [or_raise].
  unfold bind at 1. rewrite insert_many_one_run.
  unfold bind at 1. rewrite getitem_run.
  cbn [or_raise ret]. intros [= <- <-].
  eexists _, _, _. split; [reflexivity |]. repeat split; reflexivity.
Qed.

Lemma get_garden_plan_run (plan_id : string) (plan : dict F) (w : world F) :
  found "garden_plans" plan_id w = Some plan ->
  plan <> [] ->
  GardenPlans.get_garden_plan plan_id w = (Ok plan, w).
Proof.
  intros Hf Hne. unfold GardenPlans.get_garden_plan, try_except.
  rewrite by_id_run, Hf. destruct plan; [contradiction | reflexivity].
Qed.

End GardenPlanFacts.

(** X9. A lawn-schedule request that succeeds made one model call and added
    one row to [lawn_maintenance_schedules] and nothing else: the row has
    the identifier the response gives as [schedule_id], the prospect, grass
    type and lawn size of the request, and the schedule of the response.
    For a prospect that is not there the request fails with 500 before any
    call or write. *)
Theorem schedule_is_stored_under_its_id {F : Type} {PF : PyFloat F} {R : Runtime F}
  {B : Backends F} (prospect_id grass_type : string) (lawn_size_sqft : Z)
  (w : world F) :
  let run := Maintenance.generate_lawn_maintenance_schedule prospect_id grass_type
               lawn_size_sqft w in
  (found "prospects" prospect_id w = None ->
   run = (Raise (HTTPException 500 (StrOf (AttributeError "get"))), w))
  /\ (forall body w', run = (Ok body, w') ->
      exists row c,
        rows_of (store w') "lawn_maintenance_schedules"
        = rows_of (store w) "lawn_maintenance_schedules" ++ [row]
        /\ (forall table, table <> "lawn_maintenance_schedules" ->
                          rows_of (store w') table = rows_of (store w) table)
        /\ calls w' = calls w ++ [c]
        /\ get body "schedule_id" = get row "id"
        /\ truthy (get row "id") = true
        /\ get row "prospect_id" = VStr prospect_id
        /\ get row "grass_type" = VStr grass_type
        /\ get row "lawn_size_sqft" = VInt lawn_size_sqft
        /\ get row "ai_schedule" = get body "schedule").
Proof.
  cbv zeta. split.
  - intros Hf. unfold Maintenance.generate_lawn_maintenance_schedule, try_except.
    rewrite by_id_run, Hf. reflexivity.
  - intros body w' Hrun. apply lawn_schedule_run in Hrun.
    destruct Hrun as (row & c & -> & Hrest). exists row, c.
    split; [rewrite rows_of_appended_same; reflexivity |].
    split; [intros table Hne; rewrite rows_of_appended_other by congruence;
            reflexivity |].
    split; [reflexivity | exact Hrest].
Qed.

(** X10. A garden-plan request that succeeds stores the plan of the
    response under the identifier the response gives, linked, as is the
    lead it stores for the email of the request, to a stored prospect; when
    no plan had that identifier before, [get_garden_plan] of it then answers
    the stored plan. *)
Theorem plan_is_stored_under_its_id {F : Type} {PF : PyFloat F} {R : Runtime F}
  {B : Backends F} (request : Garden.PersonalizedGardenRequest) (body : dict F)
  (w w' : world F) :
  Garden.generate_personalized_plan request w = (Ok body, w') ->
  exists plan lead prospect plan_id,
    rows_of (store w') "garden_plans" = rows_of (store w) "garden_plans" ++ [plan]
    /\ rows_of (store w') "leads" = rows_of (store w) "leads" ++ [lead]
    /\ In prospect (rows_of (store w') "prospects")
    /\ get body "garden_plan_id" = VStr plan_id
    /\ get plan "id" = VStr plan_id
    /\ get plan "ai_generated_plan" = get body "plan"
    /\ lookup "id" prospect = Some (get plan "prospect_id")
    /\ get lead "prospect_id" = get plan "prospect_id"
    /\ get lead "email" = VStr (Garden.email request)
    /\ get lead "source" = VStr "garden_planner"
    /\ ((forall row, In row (rows_of (store w) "garden_plans") ->
                     get row "id" <> VStr plan_id) ->
        GardenPlans.get_garden_plan plan_id w' = (Ok plan, w')).
Proof.
  unfold Garden.generate_personalized_plan, try_except.
  destruct (Garden.generate_personalized_plan_body request w) as [[b | e] w1] eqn:E;
    [| discriminate].
  intros [= <- <-]. rewrite plan_body_split in E.
  unfold bind at 1 in E. unfold Garden.get_or_create_prospect in E.
  unfold bind at 1 in E. rewrite select_run in E.
  assert (Hmain : forall (prospect : dict F) (w0 : world F),
             plan_from request prospect w0 = (Ok b, w1) ->
             rows_of (store w0) "garden_plans" = rows_of (store w) "garden_plans" ->
             rows_of (store w0) "leads" = rows_of (store w) "leads" ->
             In prospect (rows_of (store w0) "prospects") ->
             exists plan lead prospect plan_id,
               rows_of (store w1) "garden_plans" = rows_of (store w) "garden_plans" ++ [plan]
               /\ rows_of (store w1) "leads" = rows_of (store w) "leads" ++ [lead]
               /\ In prospect (rows_of (store w1) "prospects")
               /\ get b "garden_plan_id" = VStr plan_id
               /\ get plan "id" = VStr plan_id
               /\ get plan "ai_generated_plan" = get b "plan"
               /\ lookup "id" prospect = Some (get plan "prospect_id")
               /\ get lead "prospect_id" = get plan "prospect_id"
               /\ get lead "email" = VStr (Garden.email request)
               /\ get lead "source" = VStr "garden_planner"
               /\ ((forall row, In row (rows_of (store w) "garden_plans") ->
                                get row "id" <> VStr plan_id) ->
                   GardenPlans.get_garden_plan plan_id w1 = (Ok plan, w1))).
  { intros prospect w0 Hplan Hplans Hleads Hin.
    apply plan_from_stored in Hplan.
    destruct Hplan as (c & plan & lead & -> & Hid & Hbody & Hai & Hpid & Hl1 & Hl2 & Hl3 & _).
    exists plan, lead, prospect, ("garden_plans-" ++ uuid4 (uuids w0))%string.
    split.
    { rewrite rows_of_appended_other by discriminate.
      rewrite rows_of_appended_same. cbn [logged store]. now rewrite Hplans. }
    split.
    { rewrite rows_of_appended_same.
      rewrite rows_of_appended_other by discriminate. cbn [logged store].
      now rewrite Hleads. }
    split.
    { now rewrite !rows_of_appended_other by discriminate. }
    split; [congruence |]. split; [exact Hid |]. split; [exact Hai |].
    split; [exact Hpid |]. split; [exact Hl1 |]. split; [exact Hl2 |].
    split; [exact Hl3 |].
    intros Hfresh. apply get_garden_plan_run.
    - rewrite found_appended_other by discriminate.
      apply found_appended; [| exact Hid].
      cbn [logged store]. rewrite Hplans. exact Hfresh.
    - intros ->. discriminate Hid. }
  destruct (apply_filters _ (rows_of (store w) "prospects")) as [| prospect others] eqn:Ef.
  - rewrite insert_many_one_run in E. eapply Hmain; [exact E | | |].
    + now rewrite rows_of_appended_other by discriminate.
    + now rewrite rows_of_appended_other by discriminate.
    + rewrite rows_of_appended_same. apply in_or_app. right. now left.
  - cbn [ret] in E. eapply Hmain; [exact E | reflexivity | reflexivity |].
    assert (Hin : In prospect (apply_filters
                     [Ilike "street_address" ("%" ++ Garden.address request ++ "%")]
                     (rows_of (store w) "prospects"))) by (rewrite Ef; now left).
    rewrite apply_filters_filter in Hin. now apply filter_In in Hin.
Qed.

Lemma plan_is_stored_under_its_id_witness :
  let run := Garden.generate_personalized_plan (B := plan_backend) garden_request
               Fixture.w0 in
  exists plan,
    run = (Ok (body_of (fst run)), snd run)
    /\ get (body_of (fst run)) "garden_plan_id" = get plan "id"
    /\ GardenPlans.get_garden_plan "garden_plans-uuid1" (snd run) = (Ok plan, snd run).
Proof.
  cbv zeta.
  set (run := Garden.generate_personalized_plan (B := plan_backend) garden_request
                Fixture.w0).
  assert (E : run = (Ok (body_of (fst run)), snd run)) by (vm_compute; reflexivity).
  destruct (plan_is_stored_under_its_id (B := plan_backend) garden_request
              (body_of (fst run)) Fixture.w0 (snd run) E)
    as (plan & lead & prospect & plan_id & _ & _ & _ & Hb & Hp & _ & _ & _ & _ & _ & Hget).
  exists plan. split; [exact E |]. split; [congruence |].
  assert (Hid : plan_id = "garden_plans-uuid1"%string)
    by (vm_compute in Hb; now injection Hb).
  subst plan_id. apply Hget. intros row Hrow. vm_compute in Hrow. destruct Hrow.
Defined.

Section MyPlans.
Context {F : Type} {PF : PyFloat F} {R : Runtime F} {B : Backends F}.

Lemma filter_eq_none (field : string) (v : string) (rows : list (dict F)) :
  (forall row, In row rows -> get row field <> VStr v) ->
  apply_filters [Eq field (VStr v)] rows = [].
Proof.
  intros H. cbn [apply_filters fold_left]. apply filter_none.
  intros row Hrow. cbn [matches].
  destruct (value_eqb (get row field) (VStr v)) eqn:E; [| reflexivity].
  apply value_eqb_str in E. now apply H in E.
Qed.

Lemma my_plans_unknown_email (email : string) (w : world F) :
  (forall p, In p (rows_of (store w) "prospects") -> get p "email" <> VStr email) ->
  GardenPlans.get_my_garden_plans email w = (Ok [("plans", VList [])], w).
Proof.
  intros H. unfold GardenPlans.get_my_garden_plans, try_except.
  unfold bind at 1. rewrite select_run, (filter_eq_none "email" _ _ H). reflexivity.
Qed.

Lemma garden_plan_not_found (plan_id : string) (w : world F) :
  absent "garden_plans" plan_id w ->
  GardenPlans.get_garden_plan plan_id w
  = (Raise (HTTPException 500
              (StrOf (HTTPException 404 (Text "Garden plan not found")))), w).
Proof.
  unfold absent, GardenPlans.get_garden_plan, try_except. intros H.
  rewrite by_id_run.
  destruct (found "garden_plans" plan_id w) as [[| kv rest] |]; try reflexivity.
  discriminate H.
Qed.


End MyPlans.

(** X11. After a garden-plan request that succeeded for an address no
    stored prospect matched and an email no stored prospect had,
    [get_my_garden_plans] for that email lists the new plan, with the
    identifier and the plan of the response, after plans that were stored
    already. *)
Theorem new_plan_is_among_my_plans {F : Type} {PF : PyFloat F} {R : Runtime F}
  {B : Backends F} (request : Garden.PersonalizedGardenRequest)
  (body : dict F) (w w' : world F) :
  Garden.generate_personalized_plan request w = (Ok body, w') ->
  prospect_known request w = false ->
  (forall p, In p (rows_of (store w) "prospects") ->
             get p "email" <> VStr (Garden.email request)) ->
  exists plan older,
    GardenPlans.get_my_garden_plans (Garden.email request) w'
    = (Ok [("plans", VList (map VDict (older ++ [plan])))], w')
    /\ rows_of (store w') "garden_plans" = rows_of (store w) "garden_plans" ++ [plan]
    /\ get plan "id" = get body "garden_plan_id"
    /\ get plan "ai_generated_plan" = get body "plan"
    /\ incl older (rows_of (store w) "garden_plans").
Proof.
  unfold Garden.generate_personalized_plan, try_except.
  destruct (Garden.generate_personalized_plan_body request w) as [[b | e] w1] eqn:E;
    [| discriminate].
  intros [= <- <-] Hknown Hemail. rewrite plan_body_split in E.
  unfold bind at 1 in E. unfold Garden.get_or_create_prospect in E.
  unfold bind at 1 in E. rewrite select_run in E.
  unfold prospect_known in Hknown.
  destruct (apply_filters _ (rows_of (store w) "prospects")) as [| p others];
    [clear Hknown | discriminate].
  rewrite insert_many_one_run in E.
  set (prospect := with_id "prospects" (uuids w) _) in E.
  apply plan_from_stored in E.
  destruct E as (c & plan & lead & -> & Hid & Hbody & Hai & Hpid & _).
  assert (Hprospects :
            apply_filters [Eq "email" (VStr (Garden.email request))]
              (rows_of (store w) "prospects" ++ [prospect]) = [prospect]).
  { cbn [apply_filters fold_left]. rewrite filter_app.
    change (List.filter (matches (Eq "email" (VStr (Garden.email request))))
              (rows_of (store w) "prospects"))
      with (apply_filters [Eq "email" (VStr (Garden.email request))]
              (rows_of (store w) "prospects")).
    rewrite (filter_eq_none "email" _ _ Hemail).
    cbn [app List.filter matches].
    replace (get prospect "email") with (VStr (F := F) (Garden.email request))
      by reflexivity.
    now rewrite value_eqb_str_refl. }
  assert (Hplan_pid : get plan "prospect_id"
                      = VStr ("prospects-" ++ uuid4 (uuids w))).
  { change (lookup "id" prospect)
      with (Some (VStr (F := F) ("prospects-" ++ uuid4 (uuids w)))) in Hpid.
    now injection Hpid. }
  exists plan,
    (apply_filters [Eq "prospect_id" (VStr ("prospects-" ++ uuid4 (uuids w)))]
       (rows_of (store w) "garden_plans")).
  split.
  { unfold GardenPlans.get_my_garden_plans, try_except.
    unfold bind at 1. rewrite select_run.
    rewrite !rows_of_appended_other by discriminate. cbn [logged store].
    rewrite rows_of_appended_same, Hprospects.
    unfold bind at 1. rewrite getitem_run.
    change (lookup "id" prospect)
      with (Some (VStr (F := F) ("prospects-" ++ uuid4 (uuids w)))).
    cbn [or_raise]. unfold bind at 1. rewrite select_run.
    rewrite rows_of_appended_other by discriminate.
    rewrite rows_of_appended_same. cbn [logged store appended].
    rewrite rows_of_set_rows_other by discriminate.
    cbn [apply_filters fold_left ret]. rewrite filter_app.
    cbn [List.filter matches]. rewrite Hplan_pid, value_eqb_str_refl.
    reflexivity. }
  split.
  { rewrite rows_of_appended_other by discriminate.
    rewrite rows_of_appended_same. cbn [logged store appended].
    now rewrite rows_of_set_rows_other by discriminate. }
  split; [congruence |]. split; [exact Hai |].
  intros row Hrow. rewrite apply_filters_filter in Hrow.
  now apply filter_In in Hrow.
Qed.

Lemma new_plan_is_among_my_plans_witness :
  let run := Garden.generate_personalized_plan (B := plan_backend) garden_request
               Fixture.w0 in
  exists plan older,
    run = (Ok (body_of (fst run)), snd run)
    /\ GardenPlans.get_my_garden_plans "elm@example.org" (snd run)
       = (Ok [("plans", VList (map VDict (older ++ [plan])))], snd run)
    /\ get plan "id" = get (body_of (fst run)) "garden_plan_id".
Proof.
  cbv zeta.
  set (run := Garden.generate_personalized_plan (B := plan_backend) garden_request
                Fixture.w0).
  assert (E : run = (Ok (body_of (fst run)), snd run)) by (vm_compute; reflexivity).
  destruct (new_plan_is_among_my_plans (B := plan_backend) garden_request
              (body_of (fst run)) Fixture.w0 (snd run) E)
    as (plan & older & H1 & _ & H3 & _).
  - reflexivity.
  - intros p Hp. vm_compute in Hp. destruct Hp as [<- | []]. discriminate.
  - exists plan, older. split; [exact E |]. split; assumption.
Defined.

(** X12. The two readers of garden plans never change the world.  A plan
    that is not there is answered 500, the 404 raised for it being caught
    and wrapped, so [get_garden_plan] never answers 404; an email no stored
    prospect has is answered 200 with an empty list. *)
Theorem plan_readers_on_missing {F : Type} {PF : PyFloat F} {R : Runtime F}
  (w : world F) :
  (forall plan_id,
      absent "garden_plans" plan_id w ->
      GardenPlans.get_garden_plan plan_id w
      = (Raise (HTTPException 500
                  (StrOf (HTTPException 404 (Text "Garden plan not found")))), w))
  /\ (forall plan_id,
         snd (GardenPlans.get_garden_plan plan_id w) = w
         /\ In (status_code_of (fst (GardenPlans.get_garden_plan plan_id w)))
              [200; 500]%Z)
  /\ (forall email,
         (forall p, In p (rows_of (store w) "prospects") -> get p "email" <> VStr email) ->
         GardenPlans.get_my_garden_plans email w = (Ok [("plans", VList [])], w))
  /\ (forall email, snd (GardenPlans.get_my_garden_plans email w) = w).
Proof.
  split; [intros plan_id; apply garden_plan_not_found |].
  split.
  { intros plan_id. unfold GardenPlans.get_garden_plan, try_except.
    rewrite by_id_run.
    destruct (found "garden_plans" plan_id w) as [[| kv rest] |]; cbn; tauto. }
  split; [intros email; apply my_plans_unknown_email |].
  intros email. unfold GardenPlans.get_my_garden_plans, try_except.
  unfold bind at 1. rewrite select_run.
  destruct (apply_filters _ _) as [| first others]; [reflexivity |].
  unfold bind at 1. rewrite getitem_run.
  destruct (lookup "id" first); reflexivity.
Qed.

Section StripFacts.

Lemma rstrip_idempotent (s : string) : Str.rstrip (Str.rstrip s) = Str.rstrip s.
Proof.
  induction s as [| c r IH]; [reflexivity |].
  cbn [Str.rstrip]. destruct (Str.rstrip r) as [| d r'] eqn:E.
  - destruct (Str.is_space c) eqn:Ec; [reflexivity |].
    cbn [Str.rstrip]. now rewrite Ec.
  - change (Str.rstrip (String c (String d r')))
      with (match Str.rstrip (String d r') with
            | EmptyString => if Str.is_space c then EmptyString else String c EmptyString
            | r'' => String c r''
            end).
    now rewrite IH.
Qed.

Lemma lstrip_head (s : string) :
  match Str.lstrip s with
  | EmptyString => True
  | String c _ => Str.is_space c = false
  end.
Proof.
  induction s as [| c r IH]; [exact I |].
  cbn [Str.lstrip]. destruct (Str.is_space c) eqn:E; [exact IH | exact E].
Qed.

Lemma rstrip_head (c : ascii) (r : string) :
  Str.is_space c = false -> exists r', Str.rstrip (String c r) = String c r'.
Proof.
  intros H. cbn [Str.rstrip]. destruct (Str.rstrip r); rewrite ?H; now eexists.
Qed.

(** [strip] leaves a stripped string as it is. *)
Lemma strip_idempotent (s : string) : Str.strip (Str.strip s) = Str.strip s.
Proof.
  unfold Str.strip. pose proof (lstrip_head s) as H.
  destruct (Str.lstrip s) as [| c r]; [reflexivity |].
  destruct (rstrip_head c r H) as [r' E]. rewrite E.
  cbn [Str.lstrip]. rewrite H, <- E. apply rstrip_idempotent.
Qed.

End StripFacts.

(** X13. A customer-embedding request that succeeds made one embedding
    call, with the configured model, and added one row for the customer to
    [customer_embeddings] and nothing else: the row holds the vector the
    backend answered and, as [embedding_text], exactly the text that was
    sent, which has no white space left at its ends. *)
Theorem embedding_row_is_what_was_embedded {F : Type} {PF : PyFloat F}
  {R : Runtime F} {B : Backends F} (customer_id : string) (body : dict F)
  (w w' : world F) :
  Ai.generate_customer_embedding customer_id w = (Ok body, w') ->
  exists row input vector,
    calls w' = calls w ++ [Embedding input "text-embedding-3-small"]
    /\ embeddings_create (List.length (calls w))
         (Embedding input "text-embedding-3-small") = Some vector
    /\ rows_of (store w') "customer_embeddings"
       = rows_of (store w) "customer_embeddings" ++ [row]
    /\ (forall table, table <> "customer_embeddings" ->
                      rows_of (store w') table = rows_of (store w) table)
    /\ get row "customer_id" = VStr customer_id
    /\ get row "embedding_text" = VStr input
    /\ get row "embedding" = VList (map VFloat vector)
    /\ get row "model" = VStr "text-embedding-3-small"
    /\ Str.strip input = input
    /\ get body "customer_id" = VStr customer_id.
Proof.
  unfold Ai.generate_customer_embedding, try_except.
  destruct (Ai.generate_customer_embedding_body customer_id w) as [[b | e] w1] eqn:E;
    [| destruct e; discriminate].
  intros [= <- <-]. revert E. unfold Ai.generate_customer_embedding_body.
  rewrite by_id_run.
  destruct (found "customers" customer_id w) as [[| kv rest] |]; try discriminate.
  unfold bind at 1.
  destruct (get_or (kv :: rest) "billing_address" (VDict [])) as [| | | | | | address];
    try discriminate.
  cbn [Ai.value_get ret]. unfold bind at 1. rewrite join_value_run.
  destruct (joined ", " _) as [tags | e]; [| discriminate].
  unfold bind at 1. rewrite openai_embedding_run.
  destruct (embeddings_create _ _) as [embedding |] eqn:Ev; [| discriminate].
  cbn [or_raise]. unfold bind at 1. rewrite upsert_without_key_appends.
  cbn [ret]. intros [= <- <-].
  eexists _, _, embedding. split; [reflexivity |].
  split; [exact Ev |].
  split; [rewrite rows_of_appended_same; reflexivity |].
  split; [intros table Hne; rewrite rows_of_appended_other by congruence;
          reflexivity |].
  rewrite !with_id_get by discriminate.
  split; [reflexivity |]. split; [reflexivity |]. split; [reflexivity |].
  split; [reflexivity |]. split; [apply strip_idempotent | reflexivity].
Qed.

Lemma embedding_row_is_what_was_embedded_witness :
  let run := Ai.generate_customer_embedding (B := fake_openai) "cust-1" Fixture.w0 in
  exists row input,
    run = (Ok (body_of (fst run)), snd run)
    /\ rows_of (store (snd run)) "customer_embeddings" = [] ++ [row]
    /\ get row "embedding_text" = VStr input
    /\ Str.strip input = input.
Proof.
  cbv zeta.
  set (run := Ai.generate_customer_embedding (B := fake_openai) "cust-1" Fixture.w0).
  assert (E : run = (Ok (body_of (fst run)), snd run)) by (vm_compute; reflexivity).
  destruct (embedding_row_is_what_was_embedded (B := fake_openai) "cust-1"
              (body_of (fst run)) Fixture.w0 (snd run) E)
    as (row & input & vector & _ & _ & H3 & _ & _ & H6 & _ & _ & H9 & _).
  exists row, input. split; [exact E |]. split; [exact H3 |]. split; assumption.
Defined.

Section WrittenBack.
Context {F : Type} {PF : PyFloat F} {R : Runtime F} {B : Backends F}.

Lemma update_where_rows (name : string) (changes : dict F) (filters : list filter)
  (w : world F) :
  update_where name changes filters w
  = (Ok tt,
     mkWorld
       (set_rows name
          (map (fun r => if satisfies filters r then Py.update r changes else r)
             (rows_of (store w) name)) (store w))
       (calls w) (uuids w) (stdout w)).
Proof. reflexivity. Qed.

Lemma score_and_store_rows (lead : dict F) (id : string) (w w' : world F)
  (r : result (dict F)) :
  lookup "id" lead = Some (VStr id) ->
  Leads.score_and_store lead w = (r, w') ->
  match r with
  | Ok answer =>
      get answer "lead_id" = VStr id
      /\ store w' = set_rows "leads" (scored_rows id answer (rows_of (store w) "leads"))
                      (store w)
  | Raise _ => store w' = store w
  end.
Proof.
  intros Hid. unfold Leads.score_and_store.
  unfold bind at 1. rewrite getitem_run, Hid. cbn [or_raise].
  unfold bind at 1. cbn [Leads.new_LeadScoreRequest ret].
  unfold bind at 1.
  destruct (Leads.score_lead {| Leads.lead_id := id |} w) as [rs w1] eqn:E.
  apply score_lead_effects_run in E. destruct E as (Hstore & Hout & Hok).
  destruct rs as [answer | e]; [| intros [= <- <-]; exact Hstore].
  destruct (Hok answer eq_refl) as (_ & result & ->). cbn [Leads.lead_id].
  unfold bind at 1. rewrite getitem_run.
  change (lookup "score" (Leads.score_response id result))
    with (Some (get_or result "score" (VInt 50))).
  cbn [or_raise]. unfold bind at 1. rewrite getitem_run.
  change (lookup "factors" (Leads.score_response id result))
    with (Some (get_or result "factors" (VDict []))).
  cbn [or_raise]. unfold bind at 1. rewrite getitem_run.
  change (lookup "estimated_monthly_value" (Leads.score_response id result))
    with (Some (get_or result "estimated_monthly_value" (VInt 0))).
  cbn [or_raise]. unfold bind at 1. rewrite getitem_run, Hid. cbn [or_raise].
  unfold bind at 1. rewrite update_where_rows. cbn [ret]. intros [= <- <-].
  split; [reflexivity |]. cbn [store]. rewrite Hstore. reflexivity.
Qed.

Lemma score_item_rows (lead : dict F) (id : string) (w : world F) :
  lookup "id" lead = Some (VStr id) ->
  exists o w',
    Leads.score_item lead w = (Ok o, w')
    /\ match o with
       | Some answer =>
           get answer "lead_id" = VStr id
           /\ store w' = set_rows "leads"
                           (scored_rows id answer (rows_of (store w) "leads")) (store w)
       | None => store w' = store w
       end.
Proof.
  intros Hid. unfold Leads.score_item, try_except. unfold bind at 1.
  destruct (Leads.score_and_store lead w) as [r w1] eqn:E.
  apply (score_and_store_rows lead id) in E; [| exact Hid].
  destruct r as [answer | e].
  - exists (Some answer), w1. split; [reflexivity | exact E].
  - unfold bind at 1. rewrite getitem_run, Hid. cbn [or_raise].
    eexists None, _. split; [reflexivity |]. exact E.
Qed.

Lemma update_keeps_id (row answer : dict F) :
  get (Py.update row (score_fields answer)) "id" = get row "id".
Proof. unfold get. now rewrite lookup_update. Qed.

Lemma scored_rows_ids (id : string) (answer : dict F) (rows : list (dict F)) :
  ids_of (scored_rows id answer rows) = ids_of rows.
Proof.
  unfold ids_of, scored_rows. rewrite map_map. apply map_ext.
  intros r. destruct (satisfies _ r); [apply update_keeps_id | reflexivity].
Qed.

Lemma scored_rows_written (id : string) (answer : dict F) (rows : list (dict F)) :
  get answer "lead_id" = VStr id ->
  written_back (scored_rows id answer rows) answer.
Proof.
  intros Hlead row Hrow Hrowid. unfold scored_rows in Hrow.
  apply in_map_iff in Hrow. destruct Hrow as (r & <- & _).
  unfold satisfies in *. cbn [forallb matches] in *.
  destruct (value_eqb (get r "id") (VStr id)) eqn:E; cbn [andb] in *.
  - unfold get at 1 3 5. rewrite !lookup_update. repeat split; reflexivity.
  - rewrite Hrowid, Hlead, value_eqb_str_refl in E. discriminate.
Qed.

Lemma scored_rows_others (id : string) (answer : dict F) (rows : list (dict F))
  (row : dict F) :
  In row (scored_rows id answer rows) -> get row "id" <> VStr id -> In row rows.
Proof.
  intros Hrow Hne. unfold scored_rows in Hrow.
  apply in_map_iff in Hrow. destruct Hrow as (r & <- & Hr).
  unfold satisfies in *. cbn [forallb matches] in *.
  destruct (value_eqb (get r "id") (VStr id)) eqn:E; cbn [andb] in *; [| exact Hr].
  apply value_eqb_str in E. rewrite update_keeps_id in Hne. contradiction.
Qed.

Lemma score_each_rows (leads : list (dict F)) :
  Forall (fun lead => exists id, lookup "id" lead = Some (VStr id)) leads ->
  NoDup (ids_of leads) ->
  forall (scored_count : Z) (results : list (dict F)) (w : world F),
  exists (new : list (dict F)) (w' : world F),
    Leads.score_each leads scored_count results w
    = (Ok ((scored_count + Z.of_nat (List.length new))%Z, results ++ new), w')
    /\ ids_of (rows_of (store w') "leads") = ids_of (rows_of (store w) "leads")
    /\ (forall table, table <> "leads" ->
                      rows_of (store w') table = rows_of (store w) table)
    /\ (forall row, In row (rows_of (store w') "leads") ->
                    ~ In (get row "id") (ids_of leads) ->
                    In row (rows_of (store w) "leads"))
    /\ Forall (fun answer => In (get answer "lead_id") (ids_of leads)
                             /\ written_back (rows_of (store w') "leads") answer) new.
Proof.
  induction 1 as [| lead rest (id & Hid) _ IH]; intros Hnodup c results w.
  - exists [], w. cbn. rewrite Z.add_0_r, !app_nil_r. repeat split; auto.
  - inversion Hnodup as [| v vs Hnotin Hrest]; subst.
    assert (Hleadid : get lead "id" = VStr id) by (unfold get; now rewrite Hid).
    rewrite Hleadid in Hnotin.
    cbn [Leads.score_each]. unfold bind at 1.
    destruct (score_item_rows lead id w Hid) as (o & w1 & Hrun & Ho). rewrite Hrun.
    destruct o as [answer |].
    + destruct Ho as (Hanswer & Hstore).
      destruct (IH Hrest (c + 1)%Z (results ++ [answer]) w1)
        as (new & w' & Hloop & Hids & Hother & Hkept & Hall).
      assert (Hrows1 : rows_of (store w1) "leads"
                       = scored_rows id answer (rows_of (store w) "leads"))
        by (rewrite Hstore; apply rows_of_set_rows_same).
      exists (answer :: new), w'. rewrite Hloop.
      split.
      { rewrite <- app_assoc. cbn [app List.length].
        replace (c + Z.of_nat (S (List.length new)))%Z
          with (c + 1 + Z.of_nat (List.length new))%Z by lia.
        reflexivity. }
      split; [rewrite Hids, Hrows1; apply scored_rows_ids |].
      split.
      { intros table Hne. rewrite Hother by exact Hne. rewrite Hstore.
        apply rows_of_set_rows_other. congruence. }
      split.
      { intros row Hrow Hout. cbn [ids_of map] in Hout. rewrite Hleadid in Hout.
        apply (scored_rows_others id answer).
        - rewrite <- Hrows1. apply Hkept; [exact Hrow |]. intros Hin. apply Hout.
          now right.
        - intros Heq. apply Hout. now left. }
      constructor.
      * split; [cbn [ids_of map]; left; congruence |].
        intros row Hrow Hrowid. rewrite Hanswer in Hrowid.
        assert (Hin1 : In row (rows_of (store w1) "leads")).
        { apply Hkept; [exact Hrow |]. now rewrite Hrowid. }
        rewrite Hrows1 in Hin1.
        apply (scored_rows_written id answer _ Hanswer row Hin1). congruence.
      * eapply Forall_impl; [| exact Hall]. cbn beta.
        intros a [Ha Hw]. split; [cbn [ids_of map]; now right | exact Hw].
    + destruct (IH Hrest c results w1) as (new & w' & Hloop & Hids & Hother & Hkept & Hall).
      exists new, w'. rewrite Hloop. rewrite Ho in *.
      split; [reflexivity |]. split; [exact Hids |]. split; [exact Hother |].
      split.
      { intros row Hrow Hout. apply Hkept; [exact Hrow |]. intros Hin. apply Hout.
        cbn [ids_of map]. now right. }
      eapply Forall_impl; [| exact Hall]. cbn beta.
      intros a [Ha Hw]. split; [cbn [ids_of map]; now right | exact Hw].
Qed.

End WrittenBack.

(** X14. With identifiers that are unique in the leads table, batch scoring
    writes every score it answers into the rows of its lead: each result
    has a row with its [lead_id], and every such row holds the score, the
    factors and the estimated monthly value of the result.  No lead row is
    added or removed, and no other table changes. *)
Theorem batch_scores_are_written_back {F : Type} {PF : PyFloat F} {R : Runtime F}
  {B : Backends F} (w : world F) (request : Leads.BatchScoreRequest) :
  NoDup (ids_of (rows_of (store w) "leads")) ->
  exists (body : dict F) (results : list (dict F)) (w' : world F),
    Leads.batch_score_leads request w = (Ok body, w')
    /\ get body "results" = VList (map VDict results)
    /\ get body "scored_count" = VInt (Z.of_nat (List.length results))
    /\ ids_of (rows_of (store w') "leads") = ids_of (rows_of (store w) "leads")
    /\ (forall table, table <> "leads" ->
                      rows_of (store w') table = rows_of (store w) table)
    /\ Forall (fun answer =>
                 (exists row, In row (rows_of (store w') "leads")
                              /\ get row "id" = get answer "lead_id")
                 /\ written_back (rows_of (store w') "leads") answer) results.
Proof.
  intros Hnodup.
  assert (Hleads : Forall (fun lead => exists id, lookup "id" lead = Some (VStr id))
                     (fetched request w)).
  { apply Forall_forall. intros lead Hlead.
    destruct (fetched_id request w lead Hlead) as (id & _ & Hid). now exists id. }
  assert (Hunique : NoDup (ids_of (fetched request w))).
  { unfold fetched. cbn [apply_filters fold_left]. now apply NoDup_map_filter. }
  destruct (score_each_rows (fetched request w) Hleads Hunique 0%Z [] w)
    as (new & w' & Hloop & Hids & Hother & _ & Hall).
  unfold Leads.batch_score_leads, try_except.
  unfold bind at 1. rewrite select_run. fold (fetched request w).
  unfold bind at 1. rewrite Hloop. cbn [app ret].
  eexists _, new, w'. split; [reflexivity |].
  split; [reflexivity |]. split; [reflexivity |].
  split; [exact Hids |]. split; [exact Hother |].
  eapply Forall_impl; [| exact Hall]. cbn beta. intros answer [Hin Hw].
  split; [| exact Hw].
  assert (Hin' : In (get answer "lead_id") (ids_of (rows_of (store w') "leads"))).
  { rewrite Hids. unfold ids_of in *. apply in_map_iff in Hin.
    destruct Hin as (lead & Hget & Hlead). apply in_map_iff. exists lead.
    split; [exact Hget |]. unfold fetched in Hlead.
    rewrite apply_filters_filter in Hlead. now apply filter_In in Hlead. }
  unfold ids_of in Hin'. apply in_map_iff in Hin'.
  destruct Hin' as (row & Hrow & Hrowin). now exists row.
Qed.

Lemma batch_scores_are_written_back_witness :
  exists body results w',
    Leads.batch_score_leads
      (B := Fixture.answering (Fixture.show true Fixture.score_answer))
      {| Leads.lead_ids := ["lead-1"; "lead-404"] |} Fixture.w0 = (Ok body, w')
    /\ get body "scored_count" = VInt (Z.of_nat (List.length results))
    /\ Forall (written_back (rows_of (store w') "leads")) results.
Proof.
  destruct (batch_scores_are_written_back
              (B := Fixture.answering (Fixture.show true Fixture.score_answer))
              Fixture.w0 {| Leads.lead_ids := ["lead-1"; "lead-404"] |})
    as (body & results & w' & H1 & _ & H3 & _ & _ & H6).
  - vm_compute. repeat constructor; cbn; intuition discriminate.
  - exists body, results, w'. split; [exact H1 |]. split; [exact H3 |].
    eapply Forall_impl; [| exact H6]. cbn beta. now intros answer [_ H].
Defined.

Section AdEffects.
Context {F : Type} {PF : PyFloat F} {R : Runtime F} {B : Backends F}.
Variable request : Ads.AdGenerationRequest F.

Lemma ad_effects_none (w : world F) : ad_effects request [] [] w w.
Proof.
  unfold ad_effects. rewrite !app_nil_r. repeat split; auto.
Qed.

Lemma ad_effects_then (a1 a2 : list (dict F)) (c1 c2 : list call)
  (w w1 w2 : world F) :
  ad_effects request a1 c1 w w1 -> ad_effects request a2 c2 w1 w2 ->
  ad_effects request (a1 ++ a2) (c1 ++ c2) w w2.
Proof.
  intros (Hr1 & Ho1 & Hc1 & Hm1 & Ha1) (Hr2 & Ho2 & Hc2 & Hm2 & Ha2).
  unfold ad_effects.
  split; [now rewrite Hr2, Hr1, app_assoc |].
  split; [intros table Hne; now rewrite Ho2, Ho1 |].
  split; [now rewrite Hc2, Hc1, app_assoc |].
  split; apply Forall_app; now split.
Qed.

Lemma ad_effects_call (c : call) (context : string) (w : world F) :
  c = ad_call request context -> ad_effects request [] [c] w (logged c w).
Proof.
  intros Hc. unfold ad_effects. cbn [logged store calls]. rewrite app_nil_r.
  repeat split; auto. constructor; [now exists context | constructor].
Qed.

Lemma store_variants_effects (neighborhood_id : string) (neighborhood : dict F)
  (context : string) (variants : list (value F)) :
  forall (generated_ads : list (dict F)) (w w' : world F) (r : result (list (dict F))),
    Ads.store_variants request neighborhood_id neighborhood context variants
      generated_ads w = (r, w') ->
    exists added,
      ad_effects request added [] w w'
      /\ forall ads, r = Ok ads -> ads = generated_ads ++ added.
Proof.
  induction variants as [| variant rest IH]; intros ads w w' r; cbn [Ads.store_variants].
  - intros [= <- <-]. exists []. split; [apply ad_effects_none |].
    intros ads' [= <-]. now rewrite app_nil_r.
  - unfold bind at 1.
    destruct (Ads.creative_data request neighborhood_id neighborhood context variant w)
      as [rd w1] eqn:E.
    apply creative_data_inv in E. destruct E as [-> Hdata].
    destruct rd as [data | e].
    + destruct (Hdata data eq_refl) as (_ & _ & Hmodel & _).
      unfold bind at 1. rewrite insert_one_run. intros Hrest.
      apply IH in Hrest. destruct Hrest as (added & Heff & Hok).
      exists ([with_id "ad_creatives" (uuids w) data] ++ added).
      split.
      * replace (@nil call) with (@nil call ++ []) by reflexivity.
        eapply ad_effects_then; [| exact Heff].
        unfold ad_effects. rewrite rows_of_appended_same, app_nil_r.
        split; [reflexivity |].
        split; [intros table Hne; apply rows_of_appended_other; congruence |].
        split; [reflexivity |]. split; [constructor |].
        constructor; [| constructor].
        split; [apply with_id_truthy |].
        now rewrite with_id_get by discriminate.
      * intros ads' Hads. rewrite (Hok ads' Hads). now rewrite <- app_assoc.
    + intros [= <- <-]. exists []. split; [apply ad_effects_none | discriminate].
Qed.

Lemma generate_for_effects (neighborhood_id : string) (neighborhood : dict F)
  (generated_ads : list (dict F)) (w w' : world F) (r : result (list (dict F))) :
  Ads.generate_for request neighborhood_id neighborhood generated_ads w = (r, w') ->
  exists added made,
    ad_effects request added made w w'
    /\ List.length made <= 1
    /\ forall ads, r = Ok ads -> ads = generated_ads ++ added.
Proof.
  unfold Ads.generate_for. unfold bind at 1. rewrite render_run.
  destruct (rendered request neighborhood) as [context | e] eqn:Hctx;
    [| intros [= <- <-]; exists [], [];
       (split; [apply ad_effects_none | split; [cbn; lia | discriminate]])].
  unfold bind at 1. rewrite generate_with_run.
  assert (Hcall : ad_effects request [] [ad_call request context] w
                    (logged (ad_call request context) w))
    by now apply (ad_effects_call _ context).
  destruct (ad_reply request _ _) as [content | e];
    [| intros [= <- <-]; exists [], [ad_call request context];
       (split; [exact Hcall | split; [cbn; lia | discriminate]])].
  unfold bind at 1. rewrite loads_run.
  destruct (json_loads content) as [parsed |]; cbn [or_raise];
    [| intros [= <- <-]; exists [], [ad_call request context];
       (split; [exact Hcall | split; [cbn; lia | discriminate]])].
  destruct parsed as [| b | z | f | s | l | answer];
    try (intros [= <- <-]; exists [], [ad_call request context];
         (split; [exact Hcall | split; [cbn; lia | discriminate]])).
  unfold bind at 1.
  destruct (iterate_run (get_or answer "variants" (VList []))
              (logged (ad_call request context) w)) as [rv Hrv].
  rewrite Hrv. destruct rv as [variants | e];
    [| intros [= <- <-]; exists [], [ad_call request context];
       (split; [exact Hcall | split; [cbn; lia | discriminate]])].
  intros Hstore. apply store_variants_effects in Hstore.
  destruct Hstore as (added & Heff & Hok).
  exists added, [ad_call request context].
  split; [| split; [cbn; lia | exact Hok]].
  change added with ([] ++ added).
  replace [ad_call request context] with ([ad_call request context] ++ [])
    by apply app_nil_r.
  eapply ad_effects_then; [exact Hcall | exact Heff].
Qed.

Lemma each_neighborhood_effects (ids : list string) :
  forall (generated_ads : list (dict F)) (w w' : world F) (r : result (list (dict F))),
    Ads.each_neighborhood request ids generated_ads w = (r, w') ->
    exists added made,
      ad_effects request added made w w'
      /\ List.length made <= List.length ids
      /\ forall ads, r = Ok ads -> ads = generated_ads ++ added.
Proof.
  induction ids as [| id rest IH]; intros ads w w' r; cbn [Ads.each_neighborhood].
  - intros [= <- <-]. exists [], []. split; [apply ad_effects_none |].
    split; [cbn; lia |]. intros ads' [= <-]. now rewrite app_nil_r.
  - rewrite by_id_run.
    assert (Hskip :
             Ads.each_neighborhood request rest ads w = (r, w') ->
             exists added made,
               ad_effects request added made w w'
               /\ List.length made <= List.length (id :: rest)
               /\ forall ads', r = Ok ads' -> ads' = ads ++ added).
    { intros Hrest. apply IH in Hrest. destruct Hrest as (added & made & He & Hl & Hok).
      exists added, made. split; [exact He |]. split; [cbn; lia | exact Hok]. }
    destruct (found "neighborhoods" id w) as [[| kv more] |] eqn:Hfound;
      try exact Hskip.
    unfold bind at 1.
    destruct (Ads.generate_for request id (kv :: more) ads w) as [rg w1] eqn:G.
    apply generate_for_effects in G. destruct G as (added1 & made1 & He1 & Hl1 & Hok1).
    destruct rg as [ads1 | e].
    + intros Hrest. apply IH in Hrest.
      destruct Hrest as (added & made & He & Hl & Hok).
      exists (added1 ++ added), (made1 ++ made).
      split; [eapply ad_effects_then; eassumption |].
      split; [rewrite List.length_app; cbn; lia |].
      intros ads' Hads. rewrite (Hok ads' Hads), (Hok1 ads1 eq_refl).
      now rewrite <- app_assoc.
    + intros [= <- <-]. exists added1, made1.
      split; [exact He1 |]. split; [cbn; lia | discriminate].
Qed.

Lemma generate_neighborhood_ads_effects (w w' : world F) (r : result (dict F)) :
  Ads.generate_neighborhood_ads request w = (r, w') ->
  exists added made,
    ad_effects request added made w w'
    /\ List.length made <= List.length (Ads.neighborhood_ids request)
    /\ forall body, r = Ok body ->
         get body "ads" = VList (map VDict added)
         /\ get body "model_used" = of_option_str (Ads.use_model request).
Proof.
  unfold Ads.generate_neighborhood_ads, try_except,
    Ads.generate_neighborhood_ads_body.
  rewrite by_id_run.
  destruct (found "ad_campaigns" _ w) as [[| kv more] |];
    try (intros [= <- <-]; exists [], [];
         (split; [apply ad_effects_none | split; [cbn; lia | discriminate]])).
  unfold bind at 1.
  destruct (Ads.each_neighborhood request (Ads.neighborhood_ids request) [] w)
    as [re w1] eqn:E.
  apply each_neighborhood_effects in E. destruct E as (added & made & He & Hl & Hok).
  destruct re as [ads | e]; cbn [ret raise]; intros [= <- <-];
    exists added, made; (split; [exact He |]); (split; [exact Hl |]);
    [| discriminate].
  intros body [= <-]. rewrite (Hok ads eq_refl). split; reflexivity.
Qed.

End AdEffects.

(** X15. Whatever the outcome of an ad-generation request, the rows it
    added to [ad_creatives] all have an identifier and the model name of the
    request, no other table changed, and it made at most one model call for
    each neighborhood asked for, each to the backend the request chooses.
    When the request succeeds, the [ads] of the response are exactly the
    rows added, in the order stored. *)
Theorem ads_response_lists_the_stored_rows {F : Type} {PF : PyFloat F}
  {R : Runtime F} {B : Backends F} (request : Ads.AdGenerationRequest F)
  (w : world F) :
  let run := Ads.generate_neighborhood_ads request w in
  exists added made,
    rows_of (store (snd run)) "ad_creatives" = rows_of (store w) "ad_creatives" ++ added
    /\ (forall table, table <> "ad_creatives" ->
                      rows_of (store (snd run)) table = rows_of (store w) table)
    /\ calls (snd run) = calls w ++ made
    /\ List.length made <= List.length (Ads.neighborhood_ids request)
    /\ Forall (fun c => exists context, c = ad_call request context) made
    /\ Forall (fun row => truthy (get row "id") = true
                          /\ get row "ai_model" = of_option_str (Ads.use_model request))
         added
    /\ (forall body, fst run = Ok body ->
          get body "ads" = VList (map VDict added)
          /\ get body "model_used" = of_option_str (Ads.use_model request)).
Proof.
  cbv zeta.
  destruct (Ads.generate_neighborhood_ads request w) as [r w'] eqn:E.
  apply generate_neighborhood_ads_effects in E.
  destruct E as (added & made & (H1 & H2 & H3 & H4 & H5) & Hl & Hok).
  exists added, made. cbn [fst snd]. repeat (split; [assumption |]). exact Hok.
Qed.

Section VariantFacts.
Context {F : Type} {PF : PyFloat F} {R : Runtime F} {B : Backends F}.

Lemma lookup_not_in (k : string) (d : dict F) :
  ~ In k (keys d) -> lookup k d = None.
Proof.
  induction d as [| [k' v] r IH]; [reflexivity |]. cbn [keys map fst In lookup].
  intros H. destruct (String.eqb k k') eqn:E.
  - apply String.eqb_eq in E. subst. exfalso. apply H. now left.
  - apply IH. intros Hin. apply H. now right.
Qed.

Lemma merged_lookup_other (k : string) (stored record : dict F) :
  ~ In k (keys record) -> merged_lookup k stored record = lookup k stored.
Proof.
  intros H. unfold merged_lookup. rewrite lookup_not_in; [reflexivity |].
  unfold keys. rewrite map_rev. intros Hin. apply in_rev in Hin. exact (H Hin).
Qed.

Lemma with_id_lookup (name : string) (n : nat) (record : dict F) (k : string) :
  k <> "id" -> lookup k (with_id name n record) = lookup k record.
Proof.
  intros Hk. unfold with_id. destruct (truthy (get record "id")); [reflexivity |].
  now apply lookup_set_item_other.
Qed.

Lemma subscript_run (v : value F) (k : string) (w : world F) :
  exists r, subscript v k w = (r, w).
Proof.
  destruct v; try (eexists; reflexivity). cbn [subscript]. rewrite getitem_run.
  eexists. reflexivity.
Qed.

Lemma variant_creative_inv (original : dict F) (variant : value F) (w w' : world F)
  (r : result (dict F)) :
  AdVariants.variant_creative original variant w = (r, w') ->
  w' = w
  /\ forall data, r = Ok data ->
       get data "id" = VNone
       /\ get data "is_control" = VBool false
       /\ forall k, ~ In k variant_keys -> lookup k data = lookup k original.
Proof.
  unfold AdVariants.variant_creative.
  unfold bind at 1. rewrite getitem_run.
  destruct (lookup "name" original) as [name |]; cbn [or_raise];
    [| intros [= <- <-]; split; [reflexivity | discriminate]].
  unfold bind at 1.
  destruct (subscript_run variant "variant_name" w) as [r1 H1]. rewrite H1.
  destruct r1 as [variant_name | e];
    [| intros [= <- <-]; split; [reflexivity | discriminate]].
  unfold bind at 1.
  destruct (subscript_run variant "headline" w) as [r2 H2]. rewrite H2.
  destruct r2 as [headline | e];
    [| intros [= <- <-]; split; [reflexivity | discriminate]].
  unfold bind at 1.
  destruct (subscript_run variant "body" w) as [r3 H3]. rewrite H3.
  destruct r3 as [body | e];
    [| intros [= <- <-]; split; [reflexivity | discriminate]].
  unfold bind at 1.
  destruct (subscript_run variant "cta" w) as [r4 H4]. rewrite H4.
  destruct r4 as [cta | e];
    [| intros [= <- <-]; split; [reflexivity | discriminate]].
  unfold bind at 1. rewrite H1. set (data0 := Py.update original _).
  unfold ret. intros [= <- <-].
  split; [reflexivity |]. intros data [= <-]. unfold data0.
  split; [unfold get; now rewrite lookup_update |].
  split; [unfold get; now rewrite lookup_update |].
  intros k Hk. rewrite lookup_update. now apply merged_lookup_other.
Qed.

Lemma create_variants_effects (original : dict F) (variants : list (value F)) :
  forall (created_variants : list (dict F)) (w w' : world F)
         (r : result (list (dict F))),
    AdVariants.create_variants original variants created_variants w = (r, w') ->
    exists added,
      rows_of (store w') "ad_creatives" = rows_of (store w) "ad_creatives" ++ added
      /\ (forall table, table <> "ad_creatives" ->
                        rows_of (store w') table = rows_of (store w) table)
      /\ calls w' = calls w
      /\ Forall (variant_of original) added
      /\ List.length added <= List.length variants
      /\ forall out, r = Ok out ->
           exists new, out = created_variants ++ new /\ Forall2 reported added new.
Proof.
  induction variants as [| variant rest IH]; intros created w w' r;
    cbn [AdVariants.create_variants].
  - intros [= <- <-]. exists []. rewrite app_nil_r.
    repeat split; auto. intros out [= <-]. exists []. rewrite app_nil_r.
    split; [reflexivity | constructor].
  - unfold bind at 1.
    destruct (AdVariants.variant_creative original variant w) as [rd w1] eqn:E.
    apply variant_creative_inv in E. destruct E as [-> Hdata].
    destruct rd as [data | e];
      [| intros [= <- <-]; exists []; rewrite app_nil_r; repeat split; auto;
         [cbn; lia | discriminate]].
    destruct (Hdata data eq_refl) as (Hid & Hcontrol & Hinherit).
    unfold bind at 1. rewrite insert_one_run.
    set (row := with_id "ad_creatives" (uuids w) data).
    assert (Hrow : variant_of original row).
    { split; [apply with_id_truthy |].
      split; [unfold row; now rewrite with_id_get by discriminate |].
      intros k Hk. unfold row. rewrite with_id_lookup; [now apply Hinherit |].
      intros ->. apply Hk. cbn. tauto. }
    unfold bind at 1.
    destruct (subscript_run variant "changes_made"
                (appended "ad_creatives" row (uuids_after (uuids w) data) w))
      as [rc Hc]. rewrite Hc.
    destruct rc as [changes_made | e].
    + intros Hrest. apply IH in Hrest.
      destruct Hrest as (added & Hrows & Hother & Hcalls & Hall & Hlen & Hok).
      exists (row :: added).
      split; [rewrite Hrows, rows_of_appended_same, <- app_assoc; reflexivity |].
      split; [intros table Hne; rewrite Hother by exact Hne;
              apply rows_of_appended_other; congruence |].
      split; [exact Hcalls |]. split; [now constructor |].
      split; [cbn [List.length]; lia |].
      intros out Hout. destruct (Hok out Hout) as (new & -> & Hnew).
      exists (Py.update row [("changes_made", changes_made)] :: new).
      split; [now rewrite <- app_assoc |].
      constructor; [| exact Hnew].
      split.
      * rewrite lookup_update. unfold merged_lookup. cbn. discriminate.
      * intros k Hk. rewrite lookup_update. apply merged_lookup_other.
        cbn. intros [H | []]. congruence.
    + intros [= <- <-]. exists [row].
      split; [apply rows_of_appended_same |].
      split; [intros table Hne; apply rows_of_appended_other; congruence |].
      split; [reflexivity |]. split; [now constructor |].
      split; [cbn [List.length]; lia | discriminate].
Qed.

(** The identifier of the original is removed from a variant, and the store
    gives it the next one it hands out. *)
Lemma create_variants_ids (original : dict F) (variants : list (value F)) :
  forall (created_variants : list (dict F)) (w w' : world F)
         (r : result (list (dict F))),
    AdVariants.create_variants original variants created_variants w = (r, w') ->
    exists added,
      rows_of (store w') "ad_creatives" = rows_of (store w) "ad_creatives" ++ added
      /\ ids_of added = fresh_ids "ad_creatives" (uuids w) (List.length added)
      /\ uuids w' = uuids w + List.length added.
Proof.
  induction variants as [| variant rest IH]; intros created w w' r;
    cbn [AdVariants.create_variants].
  - intros [= <- <-]. exists []. rewrite app_nil_r. cbn. repeat split. lia.
  - unfold bind at 1.
    destruct (AdVariants.variant_creative original variant w) as [rd w1] eqn:E.
    apply variant_creative_inv in E. destruct E as [-> Hdata].
    destruct rd as [data | e];
      [| intros [= <- <-]; exists []; rewrite app_nil_r; cbn; repeat split; lia].
    destruct (Hdata data eq_refl) as (Hid & _ & _).
    unfold bind at 1. rewrite insert_one_run.
    assert (Hrow : get (with_id "ad_creatives" (uuids w) data) "id"
                   = VStr ("ad_creatives-" ++ uuid4 (uuids w))).
    { unfold with_id. rewrite Hid. cbn [truthy]. unfold get.
      now rewrite lookup_set_item_same. }
    assert (Hafter : uuids_after (uuids w) data = S (uuids w)).
    { unfold uuids_after. now rewrite Hid. }
    rewrite Hafter.
    set (row := with_id "ad_creatives" (uuids w) data) in *.
    unfold bind at 1.
    destruct (subscript_run variant "changes_made"
                (appended "ad_creatives" row (S (uuids w)) w)) as [rc Hc].
    rewrite Hc.
    destruct rc as [changes_made | e].
    + intros Hrest. apply IH in Hrest.
      destruct Hrest as (added & Hrows & Hids & Huuids).
      exists (row :: added).
      split; [rewrite Hrows, rows_of_appended_same, <- app_assoc; reflexivity |].
      cbn [appended uuids] in Hids, Huuids.
      split.
      * unfold fresh_ids. cbn [ids_of List.length seq map].
        fold (ids_of added). rewrite Hrow, Hids. reflexivity.
      * cbn [List.length]. lia.
    + intros [= <- <-]. exists [row].
      split; [apply rows_of_appended_same |].
      split; [unfold fresh_ids; cbn; now rewrite Hrow | cbn; lia].
Qed.

Lemma ab_test_variants_ids (request : AdVariants.AdVariantRequest) (w w' : world F)
  (r : result (dict F)) :
  AdVariants.generate_ab_test_variants request w = (r, w') ->
  exists added,
    rows_of (store w') "ad_creatives" = rows_of (store w) "ad_creatives" ++ added
    /\ ids_of added = fresh_ids "ad_creatives" (uuids w) (List.length added)
    /\ uuids w' = uuids w + List.length added.
Proof.
  assert (Hnone : forall w0 : world F,
             exists added,
               rows_of (store w0) "ad_creatives" = rows_of (store w0) "ad_creatives" ++ added
               /\ ids_of added = fresh_ids "ad_creatives" (uuids w0) (List.length added)
               /\ uuids w0 = uuids w0 + List.length added).
  { intros w0. exists []. rewrite app_nil_r. cbn. repeat split. lia. }
  unfold AdVariants.generate_ab_test_variants, try_except.
  rewrite by_id_run.
  destruct (found "ad_creatives" (AdVariants.creative_id request) w)
    as [[| kv more] |];
    try (cbn [raise]; intros [= <- <-]; apply Hnone).
  unfold bind at 1. rewrite openai_chat_run.
  set (c := ChatCompletion _ _ _ _).
  destruct (chat_completions_create _ _) as [content |]; cbn [or_raise];
    [| intros [= <- <-]; apply (Hnone w)].
  unfold bind at 1. rewrite loads_run.
  destruct (json_loads content) as [parsed |]; cbn [or_raise];
    [| intros [= <- <-]; apply (Hnone w)].
  destruct parsed as [| b | z | f | s | l | answer];
    try (intros [= <- <-]; apply (Hnone w)).
  unfold bind at 1.
  destruct (iterate_run (get_or answer "variants" (VList [])) (logged c w))
    as [rv Hrv].
  rewrite Hrv. destruct rv as [variants | e];
    [| intros [= <- <-]; apply (Hnone w)].
  unfold bind at 1.
  destruct (AdVariants.create_variants (kv :: more) variants [] (logged c w))
    as [rc w1] eqn:E.
  apply create_variants_ids in E.
  destruct rc as [created | e]; cbn [ret raise]; intros [= <- <-]; exact E.
Qed.

Lemma ab_test_variants_run (request : AdVariants.AdVariantRequest) (w w' : world F)
  (r : result (dict F)) :
  AdVariants.generate_ab_test_variants request w = (r, w') ->
  exists added made,
    rows_of (store w') "ad_creatives" = rows_of (store w) "ad_creatives" ++ added
    /\ (forall table, table <> "ad_creatives" ->
                      rows_of (store w') table = rows_of (store w) table)
    /\ calls w' = calls w ++ made
    /\ List.length made <= 1
    /\ (forall original,
          found "ad_creatives" (AdVariants.creative_id request) w = Some original ->
          Forall (variant_of original) added)
    /\ (absent "ad_creatives" (AdVariants.creative_id request) w ->
        added = [] /\ made = []
        /\ r = Raise (HTTPException 500
                        (Failed "Variant generation failed"
                           (HTTPException 404 (Text "Creative not found")))))
    /\ (forall body, r = Ok body ->
          exists entries,
            get body "variants" = VList (map VDict entries)
            /\ Forall2 reported added entries).
Proof.
  assert (Hnone : forall (w0 : world F) (made : list call),
             List.length made <= 1 ->
             exists added made',
               rows_of (store w0) "ad_creatives" = rows_of (store w0) "ad_creatives" ++ added
               /\ (forall table, table <> "ad_creatives" ->
                                 rows_of (store w0) table = rows_of (store w0) table)
               /\ calls w0 ++ made = calls w0 ++ made'
               /\ List.length made' <= 1
               /\ added = []).
  { intros w0 made Hl. exists [], made. rewrite app_nil_r. repeat split; auto. }
  unfold AdVariants.generate_ab_test_variants, try_except.
  rewrite by_id_run. unfold absent.
  destruct (found "ad_creatives" (AdVariants.creative_id request) w)
    as [[| kv more] |] eqn:Hfound.
  - cbn [raise]. intros [= <- <-]. exists [], []. rewrite !app_nil_r.
    repeat split; auto. discriminate.
  - set (original := kv :: more) in *.
    unfold bind at 1. rewrite openai_chat_run.
    set (c := ChatCompletion _ _ _ _).
    assert (Hfail : forall e : exn,
               exists added made,
                 rows_of (store (logged c w)) "ad_creatives"
                 = rows_of (store w) "ad_creatives" ++ added
                 /\ (forall table, table <> "ad_creatives" ->
                       rows_of (store (logged c w)) table = rows_of (store w) table)
                 /\ calls (logged c w) = calls w ++ made
                 /\ List.length made <= 1
                 /\ (forall original0, Some original = Some original0 ->
                                       Forall (variant_of original0) added)
                 /\ (missing (Some original) = true ->
                     added = [] /\ made = []
                     /\ Raise (A := dict F)
                          (HTTPException 500 (Failed "Variant generation failed" e))
                        = Raise (HTTPException 500
                                   (Failed "Variant generation failed"
                                      (HTTPException 404 (Text "Creative not found")))))
                 /\ (forall body,
                       Raise (HTTPException 500 (Failed "Variant generation failed" e))
                       = Ok body ->
                       exists entries,
                         get body "variants" = VList (map VDict entries)
                         /\ Forall2 reported added entries)).
    { intros e. exists [], [c]. cbn [logged store calls]. rewrite app_nil_r.
      repeat split; auto; discriminate. }
    destruct (chat_completions_create _ _) as [content |]; cbn [or_raise];
      [| intros [= <- <-]; apply Hfail].
    unfold bind at 1. rewrite loads_run.
    destruct (json_loads content) as [parsed |]; cbn [or_raise];
      [| intros [= <- <-]; apply Hfail].
    destruct parsed as [| b | z | f | s | l | answer];
      try (intros [= <- <-]; apply Hfail).
    unfold bind at 1.
    destruct (iterate_run (get_or answer "variants" (VList [])) (logged c w))
      as [rv Hrv].
    rewrite Hrv. destruct rv as [variants | e];
      [| intros [= <- <-]; apply Hfail].
    unfold bind at 1.
    destruct (AdVariants.create_variants original variants [] (logged c w))
      as [rc w1] eqn:E.
    apply create_variants_effects in E.
    destruct E as (added & Hrows & Hother & Hcalls & Hall & _ & Hok).
    destruct rc as [created | e]; cbn [ret raise]; intros [= <- <-];
      exists added, [c]; (split; [exact Hrows |]); (split; [exact Hother |]);
      (split; [exact Hcalls |]); (split; [cbn; lia |]);
      (split; [intros o [= <-]; exact Hall |]); (split; [discriminate |]).
    + intros body [= <-]. destruct (Hok created eq_refl) as (new & -> & Hnew).
      exists new. split; [reflexivity | exact Hnew].
    + discriminate.
  - cbn [raise]. intros [= <- <-]. exists [], []. rewrite !app_nil_r.
    repeat split; auto. discriminate.
Qed.

End VariantFacts.

(** X16. Whatever the outcome of a variants request, every row it added to
    [ad_creatives] is a variant of the original creative: it is marked as no
    control, has every field of the original but its name, headline, body
    text, call to action and variant name, and has an identifier of its
    own, the identifier of the original being removed and the store giving
    each row the next one it hands out; the rows stored before are kept, no
    other table changes and at most one model call is made.  For a creative
    that is not there the request is answered 500 with no call and no write.
    When it succeeds, the response lists the rows added, each with the
    changes the model reports. *)
Theorem variants_inherit_the_original {F : Type} {PF : PyFloat F} {R : Runtime F}
  {B : Backends F} (request : AdVariants.AdVariantRequest) (w : world F) :
  let run := AdVariants.generate_ab_test_variants request w in
  exists added made,
    rows_of (store (snd run)) "ad_creatives" = rows_of (store w) "ad_creatives" ++ added
    /\ (forall table, table <> "ad_creatives" ->
                      rows_of (store (snd run)) table = rows_of (store w) table)
    /\ calls (snd run) = calls w ++ made
    /\ List.length made <= 1
    /\ (forall original,
          found "ad_creatives" (AdVariants.creative_id request) w = Some original ->
          Forall (variant_of original) added)
    /\ (absent "ad_creatives" (AdVariants.creative_id request) w ->
        added = [] /\ made = []
        /\ fst run = Raise (HTTPException 500
                              (Failed "Variant generation failed"
                                 (HTTPException 404 (Text "Creative not found")))))
    /\ (forall body, fst run = Ok body ->
          exists entries,
            get body "variants" = VList (map VDict entries)
            /\ Forall2 reported added entries)
    /\ ids_of added = fresh_ids "ad_creatives" (uuids w) (List.length added)
    /\ uuids (snd run) = uuids w + List.length added.
Proof.
  cbv zeta.
  destruct (AdVariants.generate_ab_test_variants request w) as [r w'] eqn:E.
  pose proof (ab_test_variants_ids _ _ _ _ E) as (added' & Hrows' & Hids & Huuids).
  apply ab_test_variants_run in E.
  destruct E as (added & made & Hrows & H2 & H3 & H4 & H5 & H6 & H7).
  cbn [fst snd] in *.
  assert (Hsame : added' = added).
  { rewrite Hrows in Hrows'. now apply app_inv_head in Hrows'. }
  subst added'.
  exists added, made. repeat (split; [assumption |]). exact Huuids.
Qed.

Lemma variants_inherit_the_original_witness :
  let run := AdVariants.generate_ab_test_variants (R := ab_runtime)
               (B := Fixture.answering (Fixture.show true ab_answer))
               ab_request ab_world in
  exists row : dict Q,
    rows_of (store (snd run)) "ad_creatives"
    = rows_of (store ab_world) "ad_creatives" ++ [row]
    /\ get row "id" = VStr "ad_creatives-uuid0"
    /\ ids_of (rows_of (store ab_world) "ad_creatives") = [VStr "cr-1"].
Proof.
  cbv zeta.
  destruct (variants_inherit_the_original (R := ab_runtime)
              (B := Fixture.answering (Fixture.show true ab_answer))
              ab_request ab_world)
    as (added & made & Hrows & _ & _ & _ & _ & _ & _ & Hids & Huuids).
  assert (Hone : uuids (snd (AdVariants.generate_ab_test_variants (R := ab_runtime)
                               (B := Fixture.answering (Fixture.show true ab_answer))
                               ab_request ab_world)) = 1) by (vm_compute; reflexivity).
  rewrite Hone in Huuids. cbn [ab_world uuids] in Huuids.
  destruct added as [| row [| row' rest]]; try discriminate Huuids.
  exists row. split; [exact Hrows |].
  split; [| vm_compute; reflexivity].
  injection Hids as Hid. rewrite Hid. vm_compute. reflexivity.
Defined.

(** X17. A variant that has its name, headline, body and call to action
    but no [changes_made] is stored before the missing key is met: the
    request is answered 500 for the [KeyError], and the row of that variant
    stays in [ad_creatives]. *)
Theorem variant_stored_before_key_error {F : Type} {PF : PyFloat F} {R : Runtime F}
  {B : Backends F} (request : AdVariants.AdVariantRequest) (w : world F)
  (original answer variant : dict F) (content : string) (rest : list (value F))
  (name variant_name headline body cta : value F) :
  found "ad_creatives" (AdVariants.creative_id request) w = Some original ->
  original <> [] ->
  chat_completions_create (List.length (calls w)) (variants_call request original)
  = Some content ->
  json_loads content = Some (VDict answer) ->
  get_or answer "variants" (VList []) = VList (VDict variant :: rest) ->
  lookup "name" original = Some name ->
  lookup "variant_name" variant = Some variant_name ->
  lookup "headline" variant = Some headline ->
  lookup "body" variant = Some body ->
  lookup "cta" variant = Some cta ->
  lookup "changes_made" variant = None ->
  exists row w',
    AdVariants.generate_ab_test_variants request w
    = (Raise (HTTPException 500
                (Failed "Variant generation failed" (KeyError "changes_made"))), w')
    /\ rows_of (store w') "ad_creatives" = rows_of (store w) "ad_creatives" ++ [row]
    /\ variant_of original row
    /\ get row "headline" = headline
    /\ get row "variant_name" = variant_name.
Proof.
  intros Hfound Hne Hchat Hjson Hvariants Hname Hvn Hh Hb Hc Hmissing.
  unfold AdVariants.generate_ab_test_variants, try_except.
  rewrite by_id_run, Hfound. destruct original as [| kv more]; [contradiction |].
  set (original := kv :: more) in *.
  unfold bind at 1. rewrite openai_chat_run.
  fold (variants_call request original). rewrite Hchat. cbn [or_raise].
  unfold bind at 1. rewrite loads_run, Hjson. cbn [or_raise].
  unfold bind at 1. rewrite Hvariants. cbn [Ads.iterate ret].
  unfold bind at 1. cbn [AdVariants.create_variants].
  unfold bind at 1.
  destruct (AdVariants.variant_creative original (VDict variant)
              (logged (variants_call request original) w)) as [rd w1] eqn:E.
  pose proof (variant_creative_inv _ _ _ _ _ E) as [-> Hdata].
  assert (Hdata_eq : exists data, rd = Ok data
                                  /\ get data "headline" = headline
                                  /\ get data "variant_name" = variant_name).
  { revert E. unfold AdVariants.variant_creative. cbn [subscript].
    unfold bind at 1. rewrite getitem_run, Hname. cbn [or_raise].
    unfold bind at 1. rewrite getitem_run, Hvn. cbn [or_raise].
    unfold bind at 1. rewrite getitem_run, Hh. cbn [or_raise].
    unfold bind at 1. rewrite getitem_run, Hb. cbn [or_raise].
    unfold bind at 1. rewrite getitem_run, Hc. cbn [or_raise].
    unfold bind at 1. rewrite getitem_run, Hvn. cbn [or_raise].
    set (data0 := Py.update original _). unfold ret. intros [= <-].
    exists data0. split; [reflexivity |]. unfold data0, get.
    rewrite !lookup_update. split; reflexivity. }
  destruct Hdata_eq as (data & -> & Hdh & Hdv).
  destruct (Hdata data eq_refl) as (Hid & Hcontrol & Hinherit).
  unfold bind at 1. rewrite insert_one_run.
  unfold bind at 1. cbn [subscript]. rewrite getitem_run, Hmissing.
  cbn [or_raise raise].
  eexists _, _. split; [reflexivity |].
  split; [rewrite rows_of_appended_same; reflexivity |].
  split.
  { split; [apply with_id_truthy |].
    split; [now rewrite with_id_get by discriminate |].
    intros k Hk. rewrite with_id_lookup; [now apply Hinherit |].
    intros ->. apply Hk. cbn. tauto. }
  rewrite !with_id_get by discriminate. now split.
Qed.

Lemma variant_stored_before_key_error_witness :
  exists row w',
    AdVariants.generate_ab_test_variants (R := ab_runtime)
      (B := Fixture.answering (Fixture.show true ab_answer)) ab_request ab_world
    = (Raise (HTTPException 500
                (Failed "Variant generation failed" (KeyError "changes_made"))), w')
    /\ rows_of (store w') "ad_creatives" = rows_of (store ab_world) "ad_creatives" ++ [row]
    /\ get row "headline" = VStr "Five Points, meet your lawn crew"
    /\ get row "status" = VStr "draft".
Proof.
  destruct (variant_stored_before_key_error (R := ab_runtime)
              (B := Fixture.answering (Fixture.show true ab_answer))
              ab_request ab_world
              (hd [] (rows_of (store ab_world) "ad_creatives"))
              [("variants", VList [VDict ab_variant])] ab_variant
              (Fixture.show true ab_answer) []
              (VStr "Five Points - Facebook") (VStr "A")
              (VStr "Five Points, meet your lawn crew")
              (VStr "Clay loam holds water. We mow around it.") (VStr "Book Now"))
    as (row & w' & H1 & H2 & (_ & _ & H3) & H4 & _);
    try reflexivity; try discriminate.
  exists row, w'. split; [exact H1 |]. split; [exact H2 |]. split; [exact H4 |].
  unfold get. rewrite H3; [reflexivity |]. cbn. intuition discriminate.
Defined.

Section AnalysisFacts.
Context {F : Type} {PF : PyFloat F} {R : Runtime F} {B : Backends F}.

Lemma filter_map_commute {A : Type} (p : A -> bool) (f : A -> A) (l : list A) :
  (forall x, p (f x) = p x) ->
  List.filter p (map f l) = map f (List.filter p l).
Proof.
  intros H. induction l as [| x l IH]; [reflexivity |].
  cbn [map List.filter]. rewrite H. destruct (p x); cbn [map]; now rewrite IH.
Qed.

Lemma analyze_property_run (request : PropertyAnalysis.PropertyAnalysisRequest)
  (body : dict F) (w w' : world F) :
  PropertyAnalysis.analyze_property request w = (Ok body, w') ->
  exists property_data content analysis,
    found "properties" (PropertyAnalysis.property_id request) w = Some property_data
    /\ property_data <> []
    /\ chat_completions_create (List.length (calls w)) (analysis_call property_data)
       = Some content
    /\ json_loads content = Some (VDict analysis)
    /\ body = [ ("property_id", VStr (PropertyAnalysis.property_id request));
                ("analysis", VDict analysis);
                ("model", VStr "gpt-4") ]
    /\ w' = mkWorld
              (set_rows "properties"
                 (map (fun r =>
                         if satisfies
                              [Eq "id" (VStr (PropertyAnalysis.property_id request))] r
                         then Py.update r (analysis_fields analysis) else r)
                    (rows_of (store w) "properties")) (store w))
              (calls w ++ [analysis_call property_data]) (uuids w) (stdout w).
Proof.
  unfold PropertyAnalysis.analyze_property, try_except.
  rewrite by_id_run.
  destruct (found "properties" (PropertyAnalysis.property_id request) w)
    as [[| kv more] |]; try discriminate.
  unfold bind at 1. rewrite openai_chat_run.
  fold (analysis_call (kv :: more)).
  destruct (chat_completions_create _ _) as [content |] eqn:Hchat; cbn [or_raise];
    [| discriminate].
  unfold bind at 1. rewrite loads_run.
  destruct (json_loads content) as [parsed |] eqn:Hjson; cbn [or_raise];
    [| discriminate].
  unfold bind at 1.
  destruct parsed as [| b | z | f | s | l | analysis]; try discriminate.
  cbn [Ai.value_get ret]. unfold bind at 1. rewrite update_where_rows.
  cbn [ret]. intros [= <- <-].
  exists (kv :: more), content, analysis.
  split; [reflexivity |]. split; [discriminate |]. split; [exact Hchat |].
  split; [exact Hjson |]. split; reflexivity.
Qed.

Lemma analysis_keeps_id (row analysis : dict F) :
  get (Py.update row (analysis_fields analysis)) "id" = get row "id".
Proof. unfold get. now rewrite lookup_update. Qed.

Lemma found_after_analysis (id : string) (analysis : dict F) (rows : list (dict F)) :
  hd_error
    (apply_filters [Eq "id" (VStr id)]
       (map (fun r => if satisfies [Eq "id" (VStr id)] r
                      then Py.update r (analysis_fields analysis) else r) rows))
  = option_map (fun r => Py.update r (analysis_fields analysis))
      (hd_error (apply_filters [Eq "id" (VStr id)] rows)).
Proof.
  rewrite !apply_filters_filter. rewrite filter_map_commute.
  - induction rows as [| r rows IH]; [reflexivity |].
    cbn [List.filter]. destruct (satisfies [Eq "id" (VStr id)] r) eqn:E.
    + cbn [map hd_error option_map]. now rewrite E.
    + exact IH.
  - intros r. destruct (satisfies [Eq "id" (VStr id)] r) eqn:E; [| exact E].
    unfold satisfies in *. cbn [forallb matches] in *.
    now rewrite analysis_keeps_id.
Qed.

Lemma py_sub_pure (a b : value F) (w1 w2 : world F) :
  fst (Properties.py_sub a b w1) = fst (Properties.py_sub a b w2).
Proof.
  unfold Properties.py_sub.
  destruct (as_num a) as [[x | x] |]; destruct (as_num b) as [[y | y] |]; reflexivity.
Qed.

Lemma estimate_lawn_area_found (id : string) (w : world F) :
  fst (Properties.estimate_lawn_area id w)
  = match found "properties" id w with
    | Some ((_ :: _) as property_data) =>
        match fst (Properties.py_sub (get_or property_data "lot_size_sqft" (VInt 0))
                     (get_or property_data "building_area_sqft" (VInt 0)) w) with
        | Ok n =>
            Ok [ ("property_id", VStr id);
                 ("lot_size_sqft", get_or property_data "lot_size_sqft" (VInt 0));
                 ("building_area_sqft",
                   get_or property_data "building_area_sqft" (VInt 0));
                 ("estimated_lawn_area_sqft",
                   VFloat (round2 (Properties.times_half n)));
                 ("note", VStr Properties.lawn_note) ]
        | Raise e =>
            Raise (HTTPException 500 (Failed "Lawn area estimation failed" e))
        end
    | _ => Raise (HTTPException 500
                    (Failed "Lawn area estimation failed"
                       (HTTPException 404 (Text "Property not found"))))
    end.
Proof.
  unfold Properties.estimate_lawn_area, try_except. rewrite by_id_run.
  destruct (found "properties" id w) as [[| kv more] |]; try reflexivity.
  unfold bind at 1.
  destruct (Properties.py_sub _ _ w) as [[n | e] w1]; reflexivity.
Qed.

End AnalysisFacts.

(** X18. A property analysis that succeeds made one model call and wrote
    the analysis into the property: read back by its identifier, the
    property holds the analysis as [detected_features] and its
    [property_condition], and every other field as before.  No property is
    added or removed, the rows of other properties are kept, and no other
    table changes. *)
Theorem analysis_is_written_to_the_property {F : Type} {PF : PyFloat F}
  {R : Runtime F} {B : Backends F}
  (request : PropertyAnalysis.PropertyAnalysisRequest) (body : dict F)
  (w w' : world F) :
  PropertyAnalysis.analyze_property request w = (Ok body, w') ->
  let id := PropertyAnalysis.property_id request in
  exists property_data analysis updated,
    found "properties" id w = Some property_data
    /\ get body "analysis" = VDict analysis
    /\ calls w' = calls w ++ [analysis_call property_data]
    /\ found "properties" id w' = Some updated
    /\ get updated "detected_features" = VDict analysis
    /\ get updated "property_condition" = get analysis "property_condition"
    /\ (forall k, k <> "property_condition" -> k <> "detected_features" ->
                  lookup k updated = lookup k property_data)
    /\ ids_of (rows_of (store w') "properties") = ids_of (rows_of (store w) "properties")
    /\ (forall row, In row (rows_of (store w) "properties") ->
                    get row "id" <> VStr id ->
                    In row (rows_of (store w') "properties"))
    /\ (forall table, table <> "properties" ->
                      rows_of (store w') table = rows_of (store w) table).
Proof.
  intros Hrun id. apply analyze_property_run in Hrun.
  destruct Hrun as (pd & content & analysis & Hfound & Hne & _ & _ & -> & ->).
  fold id. fold id in Hfound.
  exists pd, analysis, (Py.update pd (analysis_fields analysis)).
  split; [exact Hfound |]. split; [reflexivity |]. split; [reflexivity |].
  cbn [store].
  split.
  { unfold found. cbn [store]. rewrite rows_of_set_rows_same, found_after_analysis.
    unfold found in Hfound. now rewrite Hfound. }
  split; [unfold get; now rewrite lookup_update |].
  split; [unfold get at 1; now rewrite lookup_update |].
  split.
  { intros k H1 H2. rewrite lookup_update. apply merged_lookup_other.
    cbn. intros [H | [H | []]]; congruence. }
  split.
  { rewrite rows_of_set_rows_same. unfold ids_of. rewrite map_map.
    apply map_ext. intros r.
    destruct (satisfies _ r); [apply analysis_keeps_id | reflexivity]. }
  split.
  { intros row Hrow Hid. rewrite rows_of_set_rows_same. apply in_map_iff.
    exists row. split; [| exact Hrow].
    unfold satisfies. cbn [forallb matches].
    destruct (value_eqb (get row "id") (VStr id)) eqn:E; [| reflexivity].
    apply value_eqb_str in E. contradiction. }
  intros table Hne'. apply rows_of_set_rows_other. congruence.
Qed.

Lemma analysis_is_written_to_the_property_witness :
  let run := PropertyAnalysis.analyze_property (B := Fixture.answering "{}")
               {| PropertyAnalysis.property_id := "prop-1";
                  PropertyAnalysis.analysis_type := "full" |} Fixture.w0 in
  exists updated,
    run = (Ok [ ("property_id", VStr "prop-1"); ("analysis", VDict []);
                ("model", VStr "gpt-4") ], snd run)
    /\ found "properties" "prop-1" (snd run) = Some updated
    /\ get updated "detected_features" = VDict []
    /\ get updated "lot_size_sqft" = VInt 8000.
Proof.
  cbv zeta.
  set (run := PropertyAnalysis.analyze_property (B := Fixture.answering "{}")
                {| PropertyAnalysis.property_id := "prop-1";
                   PropertyAnalysis.analysis_type := "full" |} Fixture.w0).
  assert (E : run = (Ok [ ("property_id", VStr "prop-1"); ("analysis", VDict []);
                          ("model", VStr "gpt-4") ], snd run))
    by (vm_compute; reflexivity).
  destruct (analysis_is_written_to_the_property (B := Fixture.answering "{}")
              _ _ Fixture.w0 (snd run) E)
    as (pd & analysis & updated & H1 & H2 & _ & H4 & H5 & _ & H7 & _).
  exists updated. split; [exact E |]. split; [exact H4 |].
  split; [rewrite H5; symmetry; exact H2 |].
  unfold get. rewrite H7 by discriminate.
  vm_compute in H1. injection H1 as <-. reflexivity.
Defined.

(** X19. A property analysis that succeeds leaves the lawn-area estimate of
    the property as it was: it writes neither the lot size nor the building
    area. *)
Theorem analysis_keeps_the_lawn_estimate {F : Type} {PF : PyFloat F}
  {R : Runtime F} {B : Backends F}
  (request : PropertyAnalysis.PropertyAnalysisRequest) (body : dict F)
  (w w' : world F) :
  PropertyAnalysis.analyze_property request w = (Ok body, w') ->
  fst (Properties.estimate_lawn_area (PropertyAnalysis.property_id request) w')
  = fst (Properties.estimate_lawn_area (PropertyAnalysis.property_id request) w).
Proof.
  intros Hrun. apply analyze_property_run in Hrun.
  destruct Hrun as (pd & content & analysis & Hfound & Hne & _ & _ & _ & ->).
  rewrite !estimate_lawn_area_found. rewrite Hfound.
  unfold found at 1. cbn [store]. rewrite rows_of_set_rows_same, found_after_analysis.
  unfold found in Hfound. rewrite Hfound. cbn [option_map].
  pose proof (update_not_empty pd (analysis_fields analysis) Hne) as Hne'.
  assert (Hlot : get_or (Py.update pd (analysis_fields analysis)) "lot_size_sqft" (VInt 0)
                 = get_or pd "lot_size_sqft" (VInt 0))
    by (unfold get_or; now rewrite lookup_update).
  assert (Hbuilding :
            get_or (Py.update pd (analysis_fields analysis)) "building_area_sqft" (VInt 0)
            = get_or pd "building_area_sqft" (VInt 0))
    by (unfold get_or; now rewrite lookup_update).
  destruct (Py.update pd (analysis_fields analysis)) as [| kv' more'];
    [contradiction |].
  destruct pd as [| kv more]; [contradiction |].
  rewrite Hlot, Hbuilding.
  match goal with
  | |- context [Properties.py_sub ?a ?b ?w1] =>
      rewrite (py_sub_pure a b w1 w)
  end.
  reflexivity.
Qed.

Lemma analysis_keeps_the_lawn_estimate_witness :
  let run := PropertyAnalysis.analyze_property (B := Fixture.answering "{}")
               {| PropertyAnalysis.property_id := "prop-1";
                  PropertyAnalysis.analysis_type := "full" |} Fixture.w0 in
  run = (Ok (body_of (fst run)), snd run)
  /\ fst (Properties.estimate_lawn_area "prop-1" (snd run))
     = fst (Properties.estimate_lawn_area "prop-1" Fixture.w0).
Proof.
  cbv zeta.
  set (run := PropertyAnalysis.analyze_property (B := Fixture.answering "{}")
                {| PropertyAnalysis.property_id := "prop-1";
                   PropertyAnalysis.analysis_type := "full" |} Fixture.w0).
  assert (E : run = (Ok (body_of (fst run)), snd run)) by (vm_compute; reflexivity).
  split; [exact E |].
  exact (analysis_keeps_the_lawn_estimate (B := Fixture.answering "{}") _ _
           Fixture.w0 (snd run) E).
Defined.

Section FailureFacts.
Context {F : Type} {PF : PyFloat F} {R : Runtime F} {B : Backends F}.

Lemma lawn_schedule_failure (prospect_id grass_type : string) (lawn_size_sqft : Z)
  (e : exn) (w w' : world F) :
  Maintenance.generate_lawn_maintenance_schedule prospect_id grass_type lawn_size_sqft w
  = (Raise e, w') ->
  store w' = store w.
Proof.
  unfold Maintenance.generate_lawn_maintenance_schedule, try_except.
  rewrite by_id_run.
  destruct (found "prospects" prospect_id w) as [prospect |];
    [| intros [= _ <-]; reflexivity].
  cbn [lift_option]. unfold bind at 1. cbn [ret].
  unfold bind at 1.
  destruct (schedule_soil_type_run (get prospect "neighborhoods") w) as (rs & ->).
  destruct rs as [soil_type | e1]; [| intros [= _ <-]; reflexivity].
  unfold bind at 1.
  destruct (schedule_usda_zone_run (get prospect "neighborhoods") w) as (rz & ->).
  destruct rz as [usda_zone | e1]; [| intros [= _ <-]; reflexivity].
  unfold bind at 1. rewrite openai_chat_run.
  destruct (chat_completions_create _ _) as [content |]; cbn [or_raise];
    [| intros [= _ <-]; reflexivity].
  unfold bind at 1. rewrite loads_run.
  destruct (json_loads content) as [schedule_data |]; cbn [or_raise];
    [| intros [= _ <-]; reflexivity].
  unfold bind at 1. rewrite insert_many_one_run.
  unfold bind at 1. rewrite getitem_run.
  match goal with
  | |- context [with_id ?name ?n ?record] =>
      destruct (with_id_lookup_id name n record) as (id & Hid & _)
  end.
  rewrite Hid. cbn [or_raise ret]. discriminate.
Qed.

Lemma customer_embedding_failure (customer_id : string) (e : exn) (w w' : world F) :
  Ai.generate_customer_embedding customer_id w = (Raise e, w') ->
  store w' = store w.
Proof.
  unfold Ai.generate_customer_embedding, try_except,
    Ai.generate_customer_embedding_body.
  rewrite by_id_run.
  destruct (found "customers" customer_id w) as [[| kv rest] |];
    try (intros [= _ <-]; reflexivity).
  unfold bind at 1.
  destruct (get_or (kv :: rest) "billing_address" (VDict [])) as [| | | | | | address];
    try (intros [= _ <-]; reflexivity).
  cbn [Ai.value_get ret]. unfold bind at 1. rewrite join_value_run.
  destruct (joined ", " _) as [tags | e1] eqn:Ej;
    [| apply joined_raises in Ej; destruct Ej as [what ->];
       intros [= _ <-]; reflexivity].
  unfold bind at 1. rewrite openai_embedding_run.
  destruct (embeddings_create _ _) as [embedding |]; cbn [or_raise];
    [| intros [= _ <-]; reflexivity].
  unfold bind at 1. rewrite upsert_without_key_appends. cbn [ret]. discriminate.
Qed.

Lemma analyze_property_failure (request : PropertyAnalysis.PropertyAnalysisRequest)
  (e : exn) (w w' : world F) :
  PropertyAnalysis.analyze_property request w = (Raise e, w') ->
  store w' = store w.
Proof.
  unfold PropertyAnalysis.analyze_property, try_except.
  rewrite by_id_run.
  destruct (found "properties" (PropertyAnalysis.property_id request) w)
    as [[| kv more] |]; try (intros [= _ <-]; reflexivity).
  unfold bind at 1. rewrite openai_chat_run.
  destruct (chat_completions_create _ _) as [content |]; cbn [or_raise];
    [| intros [= _ <-]; reflexivity].
  unfold bind at 1. rewrite loads_run.
  destruct (json_loads content) as [parsed |]; cbn [or_raise];
    [| intros [= _ <-]; reflexivity].
  unfold bind at 1.
  destruct parsed as [| b | z | f | s | l | analysis];
    cbn [Ai.value_get ret]; intros [= _ <-]; reflexivity.
Qed.

End FailureFacts.

(** X20. The lawn-schedule, customer-embedding and property-analysis
    endpoints write last: a request that fails, at whatever step, leaves
    every table as it was. *)
Theorem failure_writes_nothing {F : Type} {PF : PyFloat F} {R : Runtime F}
  {B : Backends F} (w : world F) :
  (forall prospect_id grass_type lawn_size_sqft,
      let run := Maintenance.generate_lawn_maintenance_schedule prospect_id grass_type
                   lawn_size_sqft w in
      is_ok (fst run) = false -> store (snd run) = store w)
  /\ (forall customer_id,
         let run := Ai.generate_customer_embedding customer_id w in
         is_ok (fst run) = false -> store (snd run) = store w)
  /\ (forall request,
         let run := PropertyAnalysis.analyze_property request w in
         is_ok (fst run) = false -> store (snd run) = store w).
Proof.
  split; [| split].
  - intros prospect_id grass_type lawn_size_sqft. cbv zeta.
    destruct (Maintenance.generate_lawn_maintenance_schedule _ _ _ w)
      as [[body | e] w'] eqn:E; [discriminate |].
    intros _. now apply lawn_schedule_failure in E.
  - intros customer_id. cbv zeta.
    destruct (Ai.generate_customer_embedding customer_id w) as [[body | e] w'] eqn:E;
      [discriminate |].
    intros _. now apply customer_embedding_failure in E.
  - intros request. cbv zeta.
    destruct (PropertyAnalysis.analyze_property request w) as [[body | e] w'] eqn:E;
      [discriminate |].
    intros _. now apply analyze_property_failure in E.
Qed.

Section NoRollback.
Context {F : Type} {PF : PyFloat F} {R : Runtime F} {B : Backends F}.

Lemma plan_from_failure (request : Garden.PersonalizedGardenRequest)
  (prospect : dict F) (e : exn) (w w' : world F) :
  plan_from request prospect w = (Raise e, w') ->
  store w' = store w /\ stdout w' = stdout w.
Proof.
  unfold plan_from. unfold bind at 1.
  destruct (neighborhood_of_run prospect w) as [rn Hrn]. rewrite Hrn.
  destruct rn as [neighborhood | e1]; [| intros [= _ <-]; now split].
  unfold bind at 1. rewrite openai_chat_run.
  destruct (chat_completions_create _ _) as [content |]; cbn [or_raise];
    [| intros [= _ <-]; now split].
  unfold bind at 1. rewrite loads_run.
  destruct (json_loads content) as [plan_data |]; cbn [or_raise];
    [| intros [= _ <-]; now split].
  unfold bind at 1. rewrite getitem_run.
  destruct (lookup "id" prospect) as [prospect_id |] eqn:Hid; cbn [or_raise];
    [| intros [= _ <-]; now split].
  unfold bind at 1. rewrite insert_many_one_run.
  unfold bind at 1. rewrite getitem_run, Hid. cbn [or_raise].
  unfold bind at 1. rewrite insert_many_one_run.
  unfold bind at 1. rewrite getitem_run.
  match goal with
  | |- context [lookup "id" (with_id ?name ?n ?record)] =>
      destruct (with_id_lookup_id name n record) as (id & Hgid & _)
  end.
  rewrite Hgid. cbn [or_raise ret]. discriminate.
Qed.

End NoRollback.

(** X21. A garden-plan request that fails is answered 500 and prints its
    cause; it stores no plan and no lead, and yet the prospect it created
    for an address no stored prospect matched stays in [prospects]: the
    failure is not rolled back. *)
Theorem failed_plan_keeps_the_new_prospect {F : Type} {PF : PyFloat F}
  {R : Runtime F} {B : Backends F} (request : Garden.PersonalizedGardenRequest)
  (e : exn) (w w' : world F) :
  Garden.generate_personalized_plan request w = (Raise e, w') ->
  exists cause,
    e = HTTPException 500 (Failed "Failed to generate garden plan" cause)
    /\ stdout w' = stdout w ++ [Failed "Error generating garden plan" cause]
    /\ rows_of (store w') "garden_plans" = rows_of (store w) "garden_plans"
    /\ rows_of (store w') "leads" = rows_of (store w) "leads"
    /\ count "prospects" w'
       = if prospect_known request w then count "prospects" w
         else S (count "prospects" w).
Proof.
  unfold Garden.generate_personalized_plan, try_except.
  destruct (Garden.generate_personalized_plan_body request w) as [[b | cause] w1] eqn:E;
    [discriminate |].
  unfold bind, print, raise. intros [= <- <-]. exists cause.
  split; [reflexivity |]. cbn [store stdout].
  rewrite plan_body_split in E.
  unfold bind at 1 in E. unfold Garden.get_or_create_prospect in E.
  unfold bind at 1 in E. rewrite select_run in E.
  unfold prospect_known, count.
  destruct (apply_filters _ (rows_of (store w) "prospects")) as [| prospect others].
  - rewrite insert_many_one_run in E. apply plan_from_failure in E.
    destruct E as [-> ->]. cbn [appended store stdout].
    split; [reflexivity |].
    rewrite !rows_of_set_rows_other by discriminate.
    rewrite rows_of_set_rows_same, List.length_app. cbn [List.length].
    repeat split. lia.
  - cbn [ret] in E. apply plan_from_failure in E. destruct E as [-> ->].
    repeat split.
Qed.

Lemma failed_plan_keeps_the_new_prospect_witness :
  let run := Garden.generate_personalized_plan (B := Fixture.failing_at 0 "{}")
               garden_request Fixture.w0 in
  run = (Raise (HTTPException 500
                  (Failed "Failed to generate garden plan" (UpstreamError "openai"))),
         snd run)
  /\ count "prospects" (snd run) = S (count "prospects" Fixture.w0)
  /\ rows_of (store (snd run)) "garden_plans"
     = rows_of (store Fixture.w0) "garden_plans".
Proof.
  cbv zeta.
  set (run := Garden.generate_personalized_plan (B := Fixture.failing_at 0 "{}")
                garden_request Fixture.w0).
  assert (E : run = (Raise (HTTPException 500
                              (Failed "Failed to generate garden plan"
                                 (UpstreamError "openai"))), snd run))
    by (vm_compute; reflexivity).
  destruct (failed_plan_keeps_the_new_prospect (B := Fixture.failing_at 0 "{}")
              garden_request _ Fixture.w0 (snd run) E) as (cause & _ & _ & H3 & _ & H5).
  split; [exact E |]. split; [exact H5 | exact H3].
Defined.

Section AssessmentFacts.
Context {F : Type} {PF : PyFloat F} {R : Runtime F} {B : Backends F}.

Lemma assess_body_split (request : Assessment.PropertyAssessmentRequest) :
  Assessment.assess_property_needs_body request
  = bind (Assessment.get_or_create_prospect request) (assess_from request).
Proof. reflexivity. Qed.

Lemma index0_run (v : value F) (w : world F) :
  exists r, Assessment.index0 v w = (r, w).
Proof.
  destruct v as [| | | | s | l |]; try (eexists; reflexivity).
  - destruct s; eexists; reflexivity.
  - destruct l; eexists; reflexivity.
Qed.

Lemma assess_grass_type_run (neighborhood : value F) (w : world F) :
  exists r,
    Assessment.assess_grass_type neighborhood w = (r, w)
    /\ (truthy neighborhood = false -> r = Ok (VStr "Kentucky Bluegrass")).
Proof.
  unfold Assessment.assess_grass_type.
  destruct (truthy neighborhood); [| eexists; split; reflexivity].
  unfold bind at 1.
  destruct (value_get_run neighborhood "common_grass_types" VNone w) as [r1 ->].
  destruct r1 as [grass_types | e]; [| eexists; split; [reflexivity | discriminate]].
  destruct (truthy grass_types); [| eexists; split; [reflexivity | discriminate]].
  unfold bind at 1.
  destruct (value_get_run neighborhood "common_grass_types" (VList [VStr "mixed"]) w)
    as [r2 ->].
  destruct r2 as [l | e]; [| eexists; split; [reflexivity | discriminate]].
  destruct (index0_run l w) as [r3 ->]. eexists; split; [reflexivity | discriminate].
Qed.

Lemma assess_soil_type_run (neighborhood : value F) (w : world F) :
  exists r,
    Assessment.assess_soil_type neighborhood w = (r, w)
    /\ (truthy neighborhood = false -> r = Ok (VStr "loam")).
Proof.
  unfold Assessment.assess_soil_type.
  destruct (truthy neighborhood); [| eexists; split; reflexivity].
  destruct (value_get_run neighborhood "soil_type" (VStr "loam") w) as [r ->].
  eexists; split; [reflexivity | discriminate].
Qed.

Lemma assess_usda_zone_run (neighborhood : value F) (w : world F) :
  exists r,
    Maintenance.schedule_usda_zone neighborhood w = (r, w)
    /\ (truthy neighborhood = false -> r = Ok (VStr "5b")).
Proof.
  unfold Maintenance.schedule_usda_zone.
  destruct (truthy neighborhood); [| eexists; split; reflexivity].
  destruct (value_get_run neighborhood "usda_hardiness_zone" (VStr "5b") w) as [r ->].
  eexists; split; [reflexivity | discriminate].
Qed.

Lemma assess_from_run (request : Assessment.PropertyAssessmentRequest)
  (prospect : dict F) (r : result (dict F)) (w w' : world F) :
  assess_from request prospect w = (r, w') ->
  match r with
  | Ok body =>
      exists c lead,
        w' = appended "leads" lead (S (uuids w)) (logged c w)
        /\ lookup "id" prospect = Some (get lead "prospect_id")
        /\ get lead "source" = VStr "property_assessment"
        /\ get lead "status" = VStr "new"
        /\ get lead "email" = VStr (Assessment.email request)
        /\ truthy (get lead "id") = true
        /\ (truthy (get prospect "neighborhoods") = false ->
            get body "neighborhood_data"
            = VDict [ ("grass_type", VStr "Kentucky Bluegrass");
                      ("soil_type", VStr "loam");
                      ("usda_zone", VStr "5b") ])
  | Raise _ => store w' = store w /\ stdout w' = stdout w
  end.
Proof.
  unfold assess_from. cbv zeta. unfold bind at 1.
  destruct (assess_grass_type_run (get prospect "neighborhoods") w) as (rg & -> & Hg).
  destruct rg as [grass_type | e]; [| intros [= <- <-]; now split].
  unfold bind at 1.
  destruct (assess_soil_type_run (get prospect "neighborhoods") w) as (rs & -> & Hs).
  destruct rs as [soil_type | e]; [| intros [= <- <-]; now split].
  unfold bind at 1.
  destruct (assess_usda_zone_run (get prospect "neighborhoods") w) as (rz & -> & Hz).
  destruct rz as [usda_zone | e]; [| intros [= <- <-]; now split].
  unfold bind at 1. rewrite openai_chat_run.
  destruct (chat_completions_create _ _) as [content |]; cbn [or_raise];
    [| intros [= <- <-]; now split].
  unfold bind at 1. rewrite loads_run.
  destruct (json_loads content) as [recommendations |]; cbn [or_raise];
    [| intros [= <- <-]; now split].
  unfold bind at 1. rewrite getitem_run.
  destruct (lookup "id" prospect) as [prospect_id |] eqn:Hid; cbn [or_raise];
    [| intros [= <- <-]; now split].
  unfold bind at 1. rewrite insert_many_one_run. cbn [ret]. intros [= <- <-].
  eexists _, _. split; [reflexivity |].
  rewrite !with_id_get by discriminate.
  split; [reflexivity |]. split; [reflexivity |]. split; [reflexivity |].
  split; [reflexivity |]. split; [apply with_id_truthy |].
  intros Hn. specialize (Hg Hn). specialize (Hs Hn). specialize (Hz Hn).
  injection Hg as ->. injection Hs as ->. injection Hz as ->. reflexivity.
Qed.

End AssessmentFacts.

(** X22. A property assessment that succeeds made one model call and
    stored one lead, for the email of the request, linked to a stored
    prospect; it created that prospect exactly when no stored one matched
    the address.  For a prospect without a neighborhood the response names
    the defaults: Kentucky Bluegrass, loam, zone 5b. *)
Theorem assessment_stores_a_lead {F : Type} {PF : PyFloat F} {R : Runtime F}
  {B : Backends F} (request : Assessment.PropertyAssessmentRequest)
  (body : dict F) (w w' : world F) :
  Assessment.assess_property_needs request w = (Ok body, w') ->
  exists lead prospect c,
    rows_of (store w') "leads" = rows_of (store w) "leads" ++ [lead]
    /\ In prospect (rows_of (store w') "prospects")
    /\ lookup "id" prospect = Some (get lead "prospect_id")
    /\ get lead "source" = VStr "property_assessment"
    /\ get lead "email" = VStr (Assessment.email request)
    /\ calls w' = calls w ++ [c]
    /\ count "prospects" w'
       = (if address_known (Assessment.address request) w
          then count "prospects" w else S (count "prospects" w))
    /\ (forall table, table <> "leads" -> table <> "prospects" ->
                      rows_of (store w') table = rows_of (store w) table)
    /\ (truthy (get prospect "neighborhoods") = false ->
        get body "neighborhood_data"
        = VDict [ ("grass_type", VStr "Kentucky Bluegrass");
                  ("soil_type", VStr "loam");
                  ("usda_zone", VStr "5b") ]).
Proof.
  unfold Assessment.assess_property_needs, try_except.
  destruct (Assessment.assess_property_needs_body request w) as [[b | e] w1] eqn:E;
    [| discriminate].
  intros [= <- <-]. rewrite assess_body_split in E.
  unfold bind at 1 in E. unfold Assessment.get_or_create_prospect in E.
  unfold bind at 1 in E. rewrite select_run in E.
  unfold address_known, prospects_at, count.
  destruct (apply_filters _ (rows_of (store w) "prospects")) as [| prospect others] eqn:Ef.
  - rewrite insert_many_one_run in E. apply assess_from_run in E.
    destruct E as (c & lead & -> & Hid & Hsource & _ & Hemail & _ & Hdefault).
    eexists lead, _, c.
    split.
    { rewrite rows_of_appended_same. cbn [logged store].
      now rewrite rows_of_appended_other by discriminate. }
    split.
    { rewrite rows_of_appended_other by discriminate. cbn [logged store].
      rewrite rows_of_appended_same. apply in_or_app. right. now left. }
    split; [exact Hid |]. split; [exact Hsource |]. split; [exact Hemail |].
    split; [reflexivity |].
    split.
    { rewrite rows_of_appended_other by discriminate. cbn [logged store].
      rewrite rows_of_appended_same, List.length_app. cbn [List.length]. lia. }
    split; [| exact Hdefault].
    intros table H1 H2. rewrite rows_of_appended_other by congruence.
    cbn [logged store]. now rewrite rows_of_appended_other by congruence.
  - cbn [ret] in E. apply assess_from_run in E.
    destruct E as (c & lead & -> & Hid & Hsource & _ & Hemail & _ & Hdefault).
    exists lead, prospect, c.
    split; [now rewrite rows_of_appended_same |].
    split.
    { rewrite rows_of_appended_other by discriminate. cbn [logged store].
      assert (Hin : In prospect (apply_filters
                       [Ilike "street_address" ("%" ++ Assessment.address request ++ "%")]
                       (rows_of (store w) "prospects"))) by (rewrite Ef; now left).
      rewrite apply_filters_filter in Hin. now apply filter_In in Hin. }
    split; [exact Hid |]. split; [exact Hsource |]. split; [exact Hemail |].
    split; [reflexivity |].
    split; [now rewrite rows_of_appended_other by discriminate |].
    split; [| exact Hdefault].
    intros table H1 H2. now rewrite rows_of_appended_other by congruence.
Qed.

Lemma assessment_stores_a_lead_witness :
  let run := Assessment.assess_property_needs (B := Fixture.answering "{}")
               assessment_request Fixture.w0 in
  exists lead,
    run = (Ok (body_of (fst run)), snd run)
    /\ rows_of (store (snd run)) "leads" = rows_of (store Fixture.w0) "leads" ++ [lead]
    /\ get lead "source" = VStr "property_assessment"
    /\ count "prospects" (snd run) = S (count "prospects" Fixture.w0).
Proof.
  cbv zeta.
  set (run := Assessment.assess_property_needs (B := Fixture.answering "{}")
                assessment_request Fixture.w0).
  assert (E : run = (Ok (body_of (fst run)), snd run)) by (vm_compute; reflexivity).
  destruct (assessment_stores_a_lead (B := Fixture.answering "{}") assessment_request
              (body_of (fst run)) Fixture.w0 (snd run) E)
    as (lead & prospect & c & H1 & _ & _ & H4 & _ & _ & H7 & _).
  exists lead. split; [exact E |]. split; [exact H1 |].
  split; [exact H4 | exact H7].
Defined.

(** X23. A garden plan and a property assessment for the same address go
    to the same prospect, for an address that the database's [ILIKE] finds
    under its own pattern [%address%]: after a garden-plan request that
    succeeded, an assessment for its address creates no prospect, and the
    lead it stores has the prospect of the plan. *)
Theorem same_address_same_prospect {F : Type} {PF : PyFloat F} {R : Runtime F}
  {B : Backends F} (planned : Garden.PersonalizedGardenRequest)
  (assessed : Assessment.PropertyAssessmentRequest) (plan_body body : dict F)
  (w w1 w2 : world F) :
  ilike ("%" ++ Garden.address planned ++ "%") (Garden.address planned) = true ->
  Garden.generate_personalized_plan planned w = (Ok plan_body, w1) ->
  Assessment.address assessed = Garden.address planned ->
  Assessment.assess_property_needs assessed w1 = (Ok body, w2) ->
  exists plan lead,
    rows_of (store w1) "garden_plans" = rows_of (store w) "garden_plans" ++ [plan]
    /\ rows_of (store w2) "leads" = rows_of (store w1) "leads" ++ [lead]
    /\ get lead "prospect_id" = get plan "prospect_id"
    /\ rows_of (store w2) "prospects" = rows_of (store w1) "prospects".
Proof.
  intros Hlike Hplan Haddress Hassess.
  assert (Hfirst : exists plan prospect others,
             rows_of (store w1) "garden_plans" = rows_of (store w) "garden_plans" ++ [plan]
             /\ lookup "id" prospect = Some (get plan "prospect_id")
             /\ prospects_at (Garden.address planned) w1 = prospect :: others).
  { revert Hplan. unfold Garden.generate_personalized_plan, try_except.
    destruct (Garden.generate_personalized_plan_body planned w) as [[b | e] w0] eqn:E;
      [| discriminate].
    intros [= <- <-]. rewrite plan_body_split in E.
    unfold bind at 1 in E. unfold Garden.get_or_create_prospect in E.
    unfold bind at 1 in E. rewrite select_run in E.
    destruct (apply_filters _ (rows_of (store w) "prospects"))
      as [| prospect others] eqn:Ef.
    - rewrite insert_many_one_run in E.
      set (prospect := with_id "prospects" (uuids w) _) in E.
      apply plan_from_stored in E.
      destruct E as (c & plan & lead & -> & _ & _ & _ & Hpid & _).
      exists plan, prospect, [].
      split.
      { rewrite rows_of_appended_other by discriminate.
        rewrite rows_of_appended_same. cbn [logged store].
        now rewrite rows_of_appended_other by discriminate. }
      split; [exact Hpid |].
      unfold prospects_at.
      rewrite !rows_of_appended_other by discriminate. cbn [logged store].
      rewrite rows_of_appended_same.
      rewrite apply_filters_filter, filter_app, <- apply_filters_filter, Ef.
      cbn [app List.filter satisfies forallb matches].
      replace (get prospect "street_address")
        with (VStr (F := F) (Garden.address planned)) by reflexivity.
      now rewrite Hlike.
    - cbn [ret] in E. apply plan_from_stored in E.
      destruct E as (c & plan & lead & -> & _ & _ & _ & Hpid & _).
      exists plan, prospect, others.
      split.
      { rewrite rows_of_appended_other by discriminate.
        now rewrite rows_of_appended_same. }
      split; [exact Hpid |].
      unfold prospects_at.
      now rewrite !rows_of_appended_other by discriminate. }
  destruct Hfirst as (plan & prospect & others & Hplans & Hpid & Hat).
  revert Hassess. unfold Assessment.assess_property_needs, try_except.
  destruct (Assessment.assess_property_needs_body assessed w1) as [[b | e] w0] eqn:E;
    [| discriminate].
  intros [= <- <-]. rewrite assess_body_split in E.
  unfold bind at 1 in E. unfold Assessment.get_or_create_prospect in E.
  unfold bind at 1 in E. rewrite select_run in E.
  rewrite Haddress in E. fold (prospects_at (Garden.address planned) w1) in E.
  rewrite Hat in E. cbn [ret] in E. apply assess_from_run in E.
  destruct E as (c & lead & -> & Hid & _).
  exists plan, lead.
  split; [exact Hplans |].
  split; [now rewrite rows_of_appended_same |].
  split; [congruence |].
  now rewrite rows_of_appended_other by discriminate.
Qed.

Lemma same_address_same_prospect_witness :
  let planned := Garden.generate_personalized_plan (B := plan_backend) garden_request
                   Fixture.w0 in
  let assessed := Assessment.assess_property_needs (B := plan_backend)
                    assessment_request (snd planned) in
  exists plan lead : dict Q,
    planned = (Ok (body_of (fst planned)), snd planned)
    /\ assessed = (Ok (body_of (fst assessed)), snd assessed)
    /\ rows_of (store (snd assessed)) "leads"
       = rows_of (store (snd planned)) "leads" ++ [lead]
    /\ get lead "prospect_id" = get plan "prospect_id"
    /\ count "prospects" (snd assessed) = 2.
Proof.
  cbv zeta.
  set (planned := Garden.generate_personalized_plan (B := plan_backend) garden_request
                    Fixture.w0).
  set (assessed := Assessment.assess_property_needs (B := plan_backend)
                     assessment_request (snd planned)).
  assert (E1 : planned = (Ok (body_of (fst planned)), snd planned))
    by (vm_compute; reflexivity).
  assert (E2 : assessed = (Ok (body_of (fst assessed)), snd assessed))
    by (vm_compute; reflexivity).
  assert (L : ilike ("%" ++ Garden.address garden_request ++ "%")
                 (Garden.address garden_request) = true) by (vm_compute; reflexivity).
  destruct (same_address_same_prospect (B := plan_backend) garden_request
              assessment_request _ _ Fixture.w0 _ _ L E1 eq_refl E2)
    as (plan & lead & H1 & H2 & H3 & H4).
  exists plan, lead.
  split; [exact E1 |]. split; [exact E2 |]. split; [exact H2 |].
  split; [exact H3 |]. unfold count. rewrite H4. reflexivity.
Defined.

Section WateringFacts.
Context {F : Type} {PF : PyFloat F} {R : Runtime F} {B : Backends F} {T : Format2 F}.

Lemma rainfall_values_empty (xs : list F) (w w' : world F) :
  Maintenance.rainfall_values [] w = (Ok xs, w') -> xs = [].
Proof. cbn. now intros [= <- _]. Qed.

Lemma watering_failure (request : Watering.WateringRecommendationRequest)
  (cause : exn) (made : list call) (r : result (dict F)) (w w' : world F) :
  List.length made <= 1 ->
  (Rainfall.daily_records (Watering.zip_code request) 7 w <> [] -> made = []) ->
  (bind (print (Failed "Error generating watering recommendation" cause))
     (fun _ => raise (HTTPException 500 (StrOf cause))))
    (mkWorld (store w) (calls w ++ made) (uuids w) (stdout w)) = (r, w') ->
  watering_outcome request w r w'.
Proof.
  intros Hlen Hmade. unfold bind, print, raise. intros [= <- <-].
  exists cause, made. cbn [store calls stdout]. repeat split; auto.
Qed.

Lemma watering_run (request : Watering.WateringRecommendationRequest)
  (r : result (dict F)) (w w' : world F) :
  Watering.generate_watering_recommendation request w = (r, w') ->
  watering_outcome request w r w'.
Proof.
  assert (Hw : w = mkWorld (store w) (calls w ++ []) (uuids w) (stdout w))
    by (rewrite app_nil_r; now destruct w).
  unfold Watering.generate_watering_recommendation, try_except.
  rewrite by_id_run.
  destruct (found "prospects" (Watering.prospect_id request) w) as [prospect |];
    cbn [lift_option];
    [| unfold bind at 1, raise at 1; rewrite Hw at 1;
       apply watering_failure; [cbn; lia | reflexivity]].
  unfold bind at 1. cbn [ret]. unfold bind at 1. rewrite select_run.
  fold (Rainfall.daily_records (Watering.zip_code request) 7 w).
  unfold bind at 1.
  destruct (rainfall_values_total
              (Rainfall.daily_records (Watering.zip_code request) 7 w) w)
    as (rx & Hrx & _).
  rewrite Hrx.
  destruct rx as [xs | e];
    [| rewrite Hw at 1; apply watering_failure; [cbn; lia | reflexivity]].
  unfold bind at 1. rewrite select_run.
  unfold bind at 1.
  destruct (assess_soil_type_run (get prospect "neighborhoods") w) as (rs & -> & _).
  destruct rs as [soil_type | e];
    [| rewrite Hw at 1; apply watering_failure; [cbn; lia | reflexivity]].
  unfold bind at 1.
  destruct (assess_usda_zone_run (get prospect "neighborhoods") w) as (rz & -> & _).
  destruct rz as [usda_zone | e];
    [| rewrite Hw at 1; apply watering_failure; [cbn; lia | reflexivity]].
  unfold bind at 1.
  destruct (Rainfall.daily_records (Watering.zip_code request) 7 w)
    as [| day days] eqn:Hdata; cbn [Watering.daily_breakdown ret raise];
    [| rewrite Hw at 1; apply watering_failure; [cbn; lia | reflexivity]].
  apply rainfall_values_empty in Hrx. subst xs.
  unfold bind at 1. rewrite openai_chat_run.
  set (c := ChatCompletion _ _ _ _).
  assert (Hafter : forall cause,
             (bind (print (Failed "Error generating watering recommendation" cause))
                (fun _ => raise (HTTPException 500 (StrOf cause)))) (logged c w)
             = (r, w') ->
             watering_outcome request w r w').
  { intros cause. apply (watering_failure request cause [c]); [cbn; lia |].
    intros H. now rewrite Hdata in H. }
  destruct (chat_completions_create _ _) as [content |]; cbn [or_raise];
    [| apply Hafter].
  unfold bind at 1. rewrite loads_run.
  destruct (json_loads content) as [parsed |]; cbn [or_raise]; [| apply Hafter].
  destruct parsed as [| b | z | f | s | l | recommendation];
    try (unfold bind at 1; cbn [subscript raise]; apply Hafter).
  unfold bind at 1. cbn [subscript]. rewrite getitem_run.
  destruct (lookup "lawn_watering_needed" recommendation) as [lawn |] eqn:Hlawn;
    cbn [or_raise]; [| apply Hafter].
  unfold bind at 1. cbn [Ai.value_get ret].
  unfold bind at 1. cbn [ret]. unfold bind at 1. cbn [subscript]. rewrite getitem_run.
  destruct (lookup "garden_watering_needed" recommendation) as [garden |] eqn:Hgarden;
    cbn [or_raise]; [| apply Hafter].
  unfold bind at 1. cbn [ret]. unfold bind at 1. cbn [ret].
  unfold bind at 1. cbn [ret]. unfold bind at 1. cbn [ret].
  unfold bind at 1. rewrite insert_many_one_run. cbn [ret].
  intros [= <- <-]. unfold watering_outcome.
  split; [exact Hdata |]. split; [reflexivity |].
  eexists _, c, recommendation. split; [reflexivity |].
  rewrite !with_id_get by discriminate.
  repeat split; rewrite ?Hlawn, ?Hgarden; reflexivity.
Qed.

End WateringFacts.

(** X24. A watering request that fails is answered 500 and prints its
    cause; it stores nothing and has made at most one model call.  It fails
    whenever the weather table holds a record of the last seven days for the
    zip code, and then before any model call: the prompt lists the records
    as a set of dictionaries, which cannot be built. *)
Theorem watering_fails_on_any_weather_record {F : Type} {PF : PyFloat F}
  {R : Runtime F} {B : Backends F} {T : Format2 F}
  (request : Watering.WateringRecommendationRequest) (w : world F) :
  let run := Watering.generate_watering_recommendation request w in
  (is_ok (fst run) = false ->
   exists cause made,
     fst run = Raise (HTTPException 500 (StrOf cause))
     /\ store (snd run) = store w
     /\ calls (snd run) = calls w ++ made
     /\ List.length made <= 1
     /\ stdout (snd run)
        = stdout w ++ [Failed "Error generating watering recommendation" cause])
  /\ (Rainfall.daily_records (Watering.zip_code request) 7 w <> [] ->
      is_ok (fst run) = false /\ calls (snd run) = calls w).
Proof.
  cbv zeta.
  destruct (Watering.generate_watering_recommendation request w) as [r w'] eqn:E.
  apply watering_run in E. cbn [fst snd]. unfold watering_outcome in E.
  destruct r as [body | e].
  - split; [discriminate |]. intros Hdata. destruct E as (Hnone & _). contradiction.
  - destruct E as (cause & made & -> & Hstore & Hcalls & Hlen & Hmade & Hout).
    split.
    + intros _. exists cause, made. repeat split; assumption.
    + intros Hdata. split; [reflexivity |].
      rewrite Hcalls, (Hmade Hdata). apply app_nil_r.
Qed.

Lemma watering_fails_on_any_weather_record_witness :
  fst (Watering.generate_watering_recommendation (R := Fixture.runtime)
         (B := fake_openai) (T := exact_format2)
         {| Watering.prospect_id := "pros-1"; Watering.zip_code := "30606" |}
         Fixture.w0)
  = Raise (HTTPException 500 (StrOf (TypeError "unhashable type: 'dict'")))
  /\ calls (snd (Watering.generate_watering_recommendation (R := Fixture.runtime)
                   (B := fake_openai) (T := exact_format2)
                   {| Watering.prospect_id := "pros-1"; Watering.zip_code := "30606" |}
                   Fixture.w0)) = calls Fixture.w0.
Proof.
  split; [vm_compute; reflexivity |].
  apply (watering_fails_on_any_weather_record (R := Fixture.runtime)
           (B := fake_openai) (T := exact_format2)
           {| Watering.prospect_id := "pros-1"; Watering.zip_code := "30606" |}
           Fixture.w0).
  vm_compute. discriminate.
Defined.

(** X25. A watering request that succeeds read no weather record, so the
    rainfall it answers and stores is the integer 0.  It made one model call
    and added one row to [watering_schedules] and nothing else, for the
    prospect and the day of the request; the recommendation has the two keys
    the handler requires, stored as they are, and a key it lacks among the
    others is stored as its default. *)
Theorem watering_success_stores_the_recommendation {F : Type} {PF : PyFloat F}
  {R : Runtime F} {B : Backends F} {T : Format2 F}
  (request : Watering.WateringRecommendationRequest) (body : dict F)
  (w w' : world F) :
  Watering.generate_watering_recommendation request w = (Ok body, w') ->
  Rainfall.daily_records (Watering.zip_code request) 7 w = []
  /\ get body "rainfall_7days" = VInt 0
  /\ exists row c recommendation,
       rows_of (store w') "watering_schedules"
       = rows_of (store w) "watering_schedules" ++ [row]
       /\ (forall table, table <> "watering_schedules" ->
                         rows_of (store w') table = rows_of (store w) table)
       /\ calls w' = calls w ++ [c]
       /\ get body "recommendation" = VDict recommendation
       /\ get row "prospect_id" = VStr (Watering.prospect_id request)
       /\ get row "week_starting" = VStr (days_ago 0)
       /\ get row "rainfall_last_7days" = VInt 0
       /\ lookup "lawn_watering_needed" recommendation
          = Some (get row "lawn_watering_needed")
       /\ lookup "garden_watering_needed" recommendation
          = Some (get row "garden_watering_needed")
       /\ get row "lawn_watering_hours"
          = get_or recommendation "lawn_watering_hours" (VInt 0)
       /\ get row "garden_watering_frequency"
          = get_or recommendation "garden_watering_frequency" (VStr "as_needed").
Proof.
  intros Hrun. apply watering_run in Hrun. unfold watering_outcome in Hrun.
  destruct Hrun as (Hnone & Hzero & row & c & recommendation & -> & Hrest).
  split; [exact Hnone |]. split; [exact Hzero |].
  exists row, c, recommendation.
  split; [rewrite rows_of_appended_same; reflexivity |].
  split; [intros table Hne; rewrite rows_of_appended_other by congruence;
          reflexivity |].
  split; [reflexivity | exact Hrest].
Qed.

Lemma watering_success_stores_the_recommendation_witness :
  let run := Watering.generate_watering_recommendation (R := watering_runtime)
               (B := Fixture.answering (Fixture.show true watering_answer))
               (T := exact_format2)
               {| Watering.prospect_id := "pros-1"; Watering.zip_code := "99999" |}
               Fixture.w0 in
  exists row : dict Q,
    run = (Ok (body_of (fst run)), snd run)
    /\ rows_of (store (snd run)) "watering_schedules" = [] ++ [row]
    /\ get row "lawn_watering_needed" = VBool true
    /\ get row "garden_watering_frequency" = VStr "as_needed"
    /\ get row "rainfall_last_7days" = VInt 0.
Proof.
  cbv zeta.
  set (run := Watering.generate_watering_recommendation (R := watering_runtime)
                (B := Fixture.answering (Fixture.show true watering_answer))
                (T := exact_format2)
                {| Watering.prospect_id := "pros-1"; Watering.zip_code := "99999" |}
                Fixture.w0).
  assert (E : run = (Ok (body_of (fst run)), snd run)) by (vm_compute; reflexivity).
  destruct (watering_success_stores_the_recommendation (R := watering_runtime)
              (B := Fixture.answering (Fixture.show true watering_answer))
              (T := exact_format2) _ _ Fixture.w0 (snd run) E)
    as (_ & _ & row & c & recommendation & H1 & _).
  exists row. split; [exact E |]. split; [exact H1 |].
  vm_compute in H1. injection H1 as <-. repeat split; reflexivity.
Defined.
